(** * TipALPH: the custodial wallet and transaction orchestration layer

    A shallow embedding of [services/alephium.ts] (class [AlphClient]),
    of the error predicates of [error.ts] and of the token arithmetic the
    client relies on, followed by the properties of the specification
    that concern them.

    Conventions of the embedding:
    - a [bigint] amount is a [Z];
    - a JavaScript [number] that only serves as a threshold is a [Q];
    - a promise is a pair of the calls it made, in order, and of its
      settlement ([Promise]); a synchronous function that can throw
      returns a [Completion];
    - collaborators that live outside the client (ledger node, token
      registry, wallet derivation, address syntax) are records of
      functions, shared through Section variables. *)

From Stdlib Require Import ZArith List String Ascii Bool Arith Lia QArith.
Import ListNotations.

Local Open Scope Z_scope.
Local Open Scope string_scope.
Local Open Scope list_scope.

(** ** JavaScript values the client manipulates *)

Module Js.

(** What a gateway call can reject with, as far as the client inspects
    it: an instance of [Error] with its [message], or any other value. *)
Inductive RawError : Type :=
| ErrorInstance (message : string)
| NonErrorValue (repr : string).

(** An exception raised by the runtime itself. *)
Inductive Exn : Type :=
| TypeError (what : string).

(** Completion of a synchronous call. *)
Inductive Completion (A : Type) : Type :=
| Normal (a : A)
| Thrown (e : Exn).
Arguments Normal {A} a.
Arguments Thrown {A} e.

Definition cbind {A B} (c : Completion A) (k : A -> Completion B) : Completion B :=
  match c with
  | Normal a => k a
  | Thrown e => Thrown e
  end.

(** Settlement of a collaborator's promise. *)
Inductive Settled (A : Type) : Type :=
| Fulfilled (value : A)
| Rejected (reason : RawError).
Arguments Fulfilled {A} value.
Arguments Rejected {A} reason.

End Js.

(** ** Tokens and amounts ([db/token.ts], [tokens/tokenAmount.ts]) *)

Module Token.

Record t : Type := mk {
  id : string;
  symbol : string;
  decimals : nat
}.

End Token.

Module TokenAmount.

(** [new TokenAmount(amount, token)]: an integer amount in the smallest
    unit of [token]. *)
Record t : Type := mk {
  amount : Z;
  token : Token.t
}.

(** Modelled from the spec: the method [substractAndGetPercentage] of
    [TokenAmount] ([tokens/tokenAmount.ts] is not among the sources).
    The fee is the given percentage of the amount, computed on integers
    and floored; it is taken off the receiver, and returned as a new
    [TokenAmount] of the same token. The receiver is mutated in place:
    the second component is the receiver after the call. *)
Definition substractAndGetPercentage (percentage : Z) (this : t) : t * t :=
  let fee := amount this * percentage / 100 in
  (mk fee (token this), mk (amount this - fee) (token this)).

Definition feeOf (percentage : Z) (this : t) : t :=
  fst (substractAndGetPercentage percentage this).

Definition remainderOf (percentage : Z) (this : t) : t :=
  snd (substractAndGetPercentage percentage this).

End TokenAmount.

(** [UserBalance]: one [TokenAmount] per asset, in the order the client
    builds them. *)
Definition UserBalance : Type := list TokenAmount.t.

(** Modelled from the spec: [sumUserBalance] ([tokens/tokenAmount.ts] is
    not among the sources). Merging balances gives one entry per distinct
    asset with the amounts added; an asset met for the first time passes
    through unchanged. *)
Fixpoint addTokenAmount (ta : TokenAmount.t) (acc : UserBalance) : UserBalance :=
  match acc with
  | [] => [ta]
  | x :: rest =>
      if String.eqb (Token.id (TokenAmount.token x)) (Token.id (TokenAmount.token ta))
      then TokenAmount.mk (TokenAmount.amount x + TokenAmount.amount ta) (TokenAmount.token x) :: rest
      else x :: addTokenAmount ta rest
  end.

Definition mergeUserBalance (a b : UserBalance) : UserBalance :=
  fold_left (fun acc ta => addTokenAmount ta acc) b a.

Definition sumUserBalance (balances : list UserBalance) : UserBalance :=
  fold_left mergeUserBalance balances [].

(** ** Failures the client rejects with ([error.ts]) *)

(** The values a promise of the client can reject with: the enum member
    [ErrorTypes.USER_ALREADY_REGISTERED], the error classes of [error.ts]
    (each keeps the raw error it wraps), a raw error handed on as it is,
    and an exception that escaped. *)
Inductive Failure : Type :=
| USER_ALREADY_REGISTERED
| InvalidAddressError (address : string)
| TooSmallALPHWithdrawalError (tokenAmount : TokenAmount.t)
| GeneralError (message : string) (error : Js.RawError)
| NetworkError (error : Js.RawError)
| AlphApiIOError (error : Js.RawError)
| AlphAmountOverflowError (error : Js.RawError)
| NotEnoughFundsError (error : Js.RawError) (actualFunds requiredFunds : Z)
| NotEnoughBalanceForFeeError (error : Js.RawError)
| NotEnoughApprovedBalanceForAddressError (error : Js.RawError)
| NotEnoughALPHForTransactionOutputError (error : Js.RawError)
| NotEnoughALPHForALPHAndTokenChangeOutputError (error : Js.RawError)
| NotEnoughALPHForTokenChangeOutputError (error : Js.RawError)
| Original (err : Js.RawError)
| Uncaught (e : Js.Exn).

Module Errors.
Import Js.

(** [value instanceof Error && "message" in value && value.message == "fetch failed"] *)
Definition alphErrorIsNetworkError (value : RawError) : bool :=
  match value with
  | ErrorInstance message => String.eqb message "fetch failed"
  | NonErrorValue _ => false
  end.

(** *** The regular expression [notEnoughFundsRegex]

    [/^\[API Error\] - Not enough balance: got (\d+), expected (\d+)$/],
    without flags: [\d] is an ASCII digit and [$] the end of the input.
    Each [\d+] is followed by a character that is not a digit, so the
    greedy match takes the longest run of digits and never backtracks. *)

Fixpoint stripPrefix (prefix s : string) : option string :=
  match prefix, s with
  | EmptyString, _ => Some s
  | String p prefix', String c s' =>
      if Ascii.eqb p c then stripPrefix prefix' s' else None
  | String _ _, EmptyString => None
  end.

Definition isDigit (c : ascii) : bool :=
  (48 <=? nat_of_ascii c)%nat && (nat_of_ascii c <=? 57)%nat.

Fixpoint spanDigits (s : string) : string * string :=
  match s with
  | EmptyString => (EmptyString, EmptyString)
  | String c s' =>
      if isDigit c
      then let (ds, rest) := spanDigits s' in (String c ds, rest)
      else (EmptyString, s)
  end.

(** [message.match(notEnoughFundsRegex)]: [None] is [null], [Some] the
    array of the whole match and of its two groups. *)
Definition matchNotEnoughFunds (message : string) : option (list string) :=
  match stripPrefix "[API Error] - Not enough balance: got " message with
  | None => None
  | Some afterGot =>
      match spanDigits afterGot with
      | (EmptyString, _) => None
      | (got, afterDigits) =>
          match stripPrefix ", expected " afterDigits with
          | None => None
          | Some afterExpected =>
              match spanDigits afterExpected with
              | (EmptyString, _) => None
              | (expected, EmptyString) => Some [message; got; expected]
              | (_, String _ _) => None
              end
          end
      end
  end.

(** [BigInt(s)] on a string of decimal digits. *)
Fixpoint bigIntOfDigits (acc : Z) (s : string) : Z :=
  match s with
  | EmptyString => acc
  | String c s' => bigIntOfDigits (10 * acc + (Z.of_nat (nat_of_ascii c) - 48)) s'
  end.

Definition BigInt (s : string) : Z := bigIntOfDigits 0 s.

(** [alphErrorIsNotEnoughFundsError]: the guard returns [false] on a value
    that is no [Error]; otherwise the result of [match] is dereferenced
    as it comes, and reading [length] of [null] throws. *)
Definition alphErrorIsNotEnoughFundsError (err : RawError) : Completion bool :=
  match err with
  | NonErrorValue _ => Normal false
  | ErrorInstance message =>
      match matchNotEnoughFunds message with
      | None => Thrown (TypeError "Cannot read properties of null (reading 'length')")
      | Some numbers => Normal (Nat.eqb 3 (List.length numbers))
      end
  end.

(** [new NotEnoughFundsError(error)]: parses the two amounts again. *)
Definition newNotEnoughFundsError (error : RawError) : Completion Failure :=
  match error with
  | ErrorInstance message =>
      match matchNotEnoughFunds message with
      | Some (_ :: got :: expected :: _) =>
          Normal (NotEnoughFundsError error (BigInt got) (BigInt expected))
      | _ => Thrown (TypeError "Cannot read properties of null (reading '1')")
      end
  | NonErrorValue _ => Thrown (TypeError "Cannot read properties of undefined (reading 'match')")
  end.

(** The predicates [adaptError] calls whose definitions are not among the
    sources. Like the one above, each may return or throw. *)
Record Predicates : Type := {
  alphErrorIsIOFailureError : RawError -> Completion bool;
  alphErrorIsAlphAmountOverflowError : RawError -> Completion bool;
  alphErrorIsNotEnoughBalanceForFeeError : RawError -> Completion bool;
  alphErrorIsNotEnoughApprovedBalanceForAddress : RawError -> Completion bool;
  alphErrorIsNotEnoughALPHForTransactionOutputError : RawError -> Completion bool;
  alphErrorIsNotEnoughALPHForALPHAndTokenChangeOutputError : RawError -> Completion bool
}.

End Errors.

(** ** Records exchanged with the collaborators *)

Module User.

(** [db/user.ts]: [id] is assigned by the store on the first [save], and
    [address] by [registerUser]; both are [undefined] on [new User(..)]. *)
Record t : Type := mk {
  id : option nat;
  telegramId : Z;
  telegramUsername : string;
  address : option string
}.

Definition withId (i : nat) (u : t) : t :=
  mk (Some i) (telegramId u) (telegramUsername u) (address u).

Definition withAddress (a : string) (u : t) : t :=
  mk (id u) (telegramId u) (telegramUsername u) (Some a).

End User.

Module Wallet.

(** What the client reads of a [PrivateKeyWallet]. *)
Record t : Type := mk {
  address : string;
  publicKey : string;
  group : nat
}.

End Wallet.

Module Balance.

Record TokenBalance : Type := mkToken {
  id : string;
  amount : Z
}.

(** [Balance] of [api-alephium]; [tokenBalances] is optional. *)
Record t : Type := mk {
  balance : Z;
  tokenBalances : option (list TokenBalance);
  utxoNum : nat
}.

End Balance.

Module Destination.

Record Token : Type := mkToken {
  id : string;
  amount : Z
}.

(** [Destination] of [@alephium/web3]; [address] is [None] when the
    client put [undefined] there. *)
Record t : Type := mk {
  address : option string;
  attoAlphAmount : Z;
  tokens : list Token
}.

End Destination.

(** ** The user store ([Repository<User>]) *)

Module UserStore.

(** The table, in insertion order, the next generated id and the number
    of write statements issued so far. *)
Record t : Type := mk {
  rows : list User.t;
  nextId : nat;
  writes : nat
}.

Definition hasId (i : nat) (u : User.t) : bool :=
  match User.id u with
  | Some j => Nat.eqb i j
  | None => false
  end.

Definition existsBy (telegramId : Z) (s : t) : bool :=
  existsb (fun u => Z.eqb (User.telegramId u) telegramId) (rows s).

Fixpoint replaceRow (i : nat) (u : User.t) (l : list User.t) : list User.t :=
  match l with
  | [] => []
  | r :: l' => if hasId i r then u :: l' else r :: replaceRow i u l'
  end.

(** [save]: an entity without id is inserted under a generated id; one
    with an id replaces the row of that id, or is inserted under it. The
    saved entity is returned. *)
Definition save (u : User.t) (s : t) : t * User.t :=
  match User.id u with
  | None =>
      let u' := User.withId (nextId s) u in
      (mk (rows s ++ [u']) (S (nextId s)) (S (writes s)), u')
  | Some i =>
      if existsb (hasId i) (rows s)
      then (mk (replaceRow i u (rows s)) (nextId s) (S (writes s)), u)
      else (mk (rows s ++ [u]) (Nat.max (nextId s) (S i)) (S (writes s)), u)
  end.

Definition count (s : t) : nat := List.length (rows s).

(** [find({ skip, take })] *)
Definition find (skip take : nat) (s : t) : list User.t :=
  firstn take (skipn skip (rows s)).

End UserStore.

(** ** Promises of the client *)

(** The calls a method of the client makes on its collaborators, and the
    updates it sends to the status sink. *)
Inductive Call : Type :=
| GetUserWallet (userId : option nat)
| GetAddressesAddressBalance (address : option string) (mempool : option bool)
| SignAndSubmitTransferTx (signerAddress : string) (destinations : list Destination.t)
| WaitForTxConfirmation (txId : string) (confirmations : nat)
| PostTransactionsSweepAddressBuild (fromPublicKey toAddress : string)
| SignAndSubmitUnsignedTx (signerAddress unsignedTx : string)
| StatusSetTransactionId (txId : string)
| StatusSetConfirmedNextStep
| ConsolidateIfRequiredDetached (userId : option nat).

(** Calls that reach the ledger node. *)
Definition isNetworkCall (c : Call) : bool :=
  match c with
  | GetAddressesAddressBalance _ _ | SignAndSubmitTransferTx _ _
  | WaitForTxConfirmation _ _ | PostTransactionsSweepAddressBuild _ _
  | SignAndSubmitUnsignedTx _ _ | ConsolidateIfRequiredDetached _ => true
  | GetUserWallet _ | StatusSetTransactionId _ | StatusSetConfirmedNextStep => false
  end.

(** Calls that build or submit a transaction. *)
Definition isTransactionCall (c : Call) : bool :=
  match c with
  | SignAndSubmitTransferTx _ _ | PostTransactionsSweepAddressBuild _ _
  | SignAndSubmitUnsignedTx _ _ | ConsolidateIfRequiredDetached _ => true
  | _ => false
  end.

Inductive Outcome (A : Type) : Type :=
| Resolved (value : A)
| RejectedWith (reason : Failure).
Arguments Resolved {A} value.
Arguments RejectedWith {A} reason.

(** A settled promise: the calls made before it settled, oldest first,
    and its outcome. *)
Definition Promise (A : Type) : Type := (list Call * Outcome A)%type.

Definition calls {A} (p : Promise A) : list Call := fst p.
Definition outcome {A} (p : Promise A) : Outcome A := snd p.

Definition resolve {A} (a : A) : Promise A := ([], Resolved a).
Definition reject {A} (f : Failure) : Promise A := ([], RejectedWith f).

(** [await]: the continuation runs only after a fulfilment. *)
Definition bindP {A B} (p : Promise A) (k : A -> Promise B) : Promise B :=
  match p with
  | (cs, Resolved a) => let (cs', o) := k a in (cs ++ cs', o)
  | (cs, RejectedWith f) => (cs, RejectedWith f)
  end.

Declare Scope promise_scope.
Delimit Scope promise_scope with promise.
Notation "x <- p ;; k" := (bindP p (fun x => k))
  (at level 61, p at next level, right associativity) : promise_scope.
Notation "p ;;; k" := (bindP p (fun _ => k))
  (at level 61, right associativity) : promise_scope.

(** A call on a collaborator, awaited; [onReject] is the handler chained
    on it. *)
Definition awaitCall {A} (c : Call) (s : Js.Settled A)
    (onReject : Js.RawError -> Failure) : Promise A :=
  ([c], match s with
        | Js.Fulfilled v => Resolved v
        | Js.Rejected r => RejectedWith (onReject r)
        end).

(** A call whose result is not awaited. *)
Definition note (c : Call) : Promise unit := ([c], Resolved tt).

Definition when (b : bool) (p : Promise unit) : Promise unit :=
  if b then p else resolve tt.

(** [Promise.all] over promises that were all started: every call is
    made, and the first rejection, in order, is the result. *)
Fixpoint all {A} (ps : list (Promise A)) : Promise (list A) :=
  match ps with
  | [] => resolve []
  | (cs, o) :: ps' =>
      let (cs', os) := all ps' in
      (cs ++ cs',
       match o, os with
       | RejectedWith f, _ => RejectedWith f
       | Resolved _, RejectedWith f => RejectedWith f
       | Resolved a, Resolved l => Resolved (a :: l)
       end)
  end.

(** ** What [services/alephium.ts] imports *)

(** [DUST_AMOUNT] of [@alephium/web3]: 0.001 ALPH. *)
Definition DUST_AMOUNT : Z := 10 ^ 15.

Record NodeProvider : Type := {
  getAddressesAddressBalance : option string -> option bool -> Js.Settled Balance.t;
  postTransactionsSweepAddressBuild : string -> string -> Js.Settled (list string)
}.

Record TokenManager : Type := {
  getTokenBySymbol : string -> Js.Settled Token.t;
  getTokenAmountFromIdAmount : string -> Z -> Js.Settled TokenAmount.t
}.

Record OperatorConfig : Type := {
  fees : Z;
  addressesByGroup : list string;
  strictMinimalWithdrawalAmount : Q;
  strictMinimalWithdrawalAllAmount : Q
}.

Record BotConfig : Type := {
  nbConfirmationsInternalTransfer : nat;
  nbConfirmationsExternalTransfer : nat;
  nbConfirmationsBetweenMultipleStepsTransactions : nat;
  nbUTXOBeforeConsolidation : nat;
  considerMempool : bool;
  isOnDevNet : bool
}.

(** Functions and methods defined outside the file: the SDK
    ([isValidAddress], [waitForTxConfirmation], the wallet that
    [deriveHDWalletPrivateKey] yields for an index and its two signing
    methods), the methods [isALPH] of [Token] and [amountAsNumber] of
    [TokenAmount], the error predicates and [EnvConfig.bot]. *)
Record Imports : Type := {
  isValidAddress : string -> bool;
  waitForTxConfirmation : string -> nat -> Js.Settled unit;
  deriveWallet : option nat -> Wallet.t;
  signAndSubmitTransferTx : Wallet.t -> list Destination.t -> Js.Settled string;
  signAndSubmitUnsignedTx : Wallet.t -> string -> Js.Settled string;
  isALPH : Token.t -> bool;
  amountAsNumber : TokenAmount.t -> Q;
  predicates : Errors.Predicates;
  bot : BotConfig
}.

(** The fields of [AlphClient], the user store apart: it is the one
    piece of state the methods change, and is passed explicitly. *)
Record AlphClient : Type := {
  nodeProvider : NodeProvider;
  tokenManager : TokenManager;
  operatorConfig : OperatorConfig
}.

(** ** The methods of [AlphClient] *)

Section Methods.

Variable imports : Imports.
Variable this : AlphClient.

Local Open Scope promise_scope.

(** [registerUser], the body run under [registerMutex]. *)
Definition registerUser (newUser : User.t) (userStore : UserStore.t)
    : UserStore.t * Outcome User.t :=
  if UserStore.existsBy (User.telegramId newUser) userStore
  then (userStore, RejectedWith USER_ALREADY_REGISTERED)
  else
    let (store1, userWithId) := UserStore.save newUser userStore in
    let address := Wallet.address (deriveWallet imports (User.id userWithId)) in
    let (store2, saved) := UserStore.save (User.withAddress address userWithId) store1 in
    (store2, Resolved saved).

(** [adaptError]: the predicates are tried in the order of the source;
    an exception thrown by one of them escapes. *)
Definition adaptError (err : Js.RawError) : Js.Completion Failure :=
  let P := predicates imports in
  if Errors.alphErrorIsNetworkError err then Js.Normal (NetworkError err) else
  Js.cbind (Errors.alphErrorIsIOFailureError P err) (fun io =>
  if io then Js.Normal (AlphApiIOError err) else
  Js.cbind (Errors.alphErrorIsAlphAmountOverflowError P err) (fun overflow =>
  if overflow then Js.Normal (AlphAmountOverflowError err) else
  Js.cbind (Errors.alphErrorIsNotEnoughFundsError err) (fun funds =>
  if funds then Errors.newNotEnoughFundsError err else
  Js.cbind (Errors.alphErrorIsNotEnoughBalanceForFeeError P err) (fun fee =>
  if fee then Js.Normal (NotEnoughBalanceForFeeError err) else
  Js.cbind (Errors.alphErrorIsNotEnoughApprovedBalanceForAddress P err) (fun approved =>
  if approved then Js.Normal (NotEnoughApprovedBalanceForAddressError err) else
  Js.cbind (Errors.alphErrorIsNotEnoughALPHForTransactionOutputError P err) (fun output =>
  if output then Js.Normal (NotEnoughALPHForTransactionOutputError err) else
  Js.cbind (Errors.alphErrorIsNotEnoughALPHForALPHAndTokenChangeOutputError P err) (fun change =>
  if change then Js.Normal (NotEnoughALPHForALPHAndTokenChangeOutputError err) else
  Js.Normal (Original err)))))))).

(** [.catch((err) => Promise.reject(this.adaptError(err)))] *)
Definition rejectAdapted (err : Js.RawError) : Failure :=
  match adaptError err with
  | Js.Normal f => f
  | Js.Thrown e => Uncaught e
  end.

Definition getUserWallet (user : User.t) : Promise Wallet.t :=
  ([GetUserWallet (User.id user)], Resolved (deriveWallet imports (User.id user))).

(** The values of the fulfilled promises of [Promise.allSettled], in
    order. *)
Fixpoint recognisedToken (l : list Balance.TokenBalance) : list TokenAmount.t :=
  match l with
  | [] => []
  | t :: l' =>
      match getTokenAmountFromIdAmount (tokenManager this) (Balance.id t) (Balance.amount t) with
      | Js.Fulfilled v => v :: recognisedToken l'
      | Js.Rejected _ => recognisedToken l'
      end
  end.

Definition convertAddressBalanceToUserBalance (balance : Balance.t)
    : Js.Settled UserBalance :=
  match getTokenBySymbol (tokenManager this) "ALPH" with
  | Js.Rejected r => Js.Rejected r
  | Js.Fulfilled alphToken =>
      let userBalance := [TokenAmount.mk (Balance.balance balance) alphToken] in
      match Balance.tokenBalances balance with
      | Some (t :: l) => Js.Fulfilled (userBalance ++ recognisedToken (t :: l))
      | _ => Js.Fulfilled userBalance
      end
  end.

(** The [.catch] handler of [getUserBalance]. *)
Definition balanceFailure (err : Js.RawError) : Failure :=
  if Errors.alphErrorIsNetworkError err then NetworkError err
  else GeneralError "failed to fetch user balance" err.

Definition getUserBalance (user : User.t) (token : option Token.t)
    : Promise UserBalance :=
  balance <- awaitCall (GetAddressesAddressBalance (User.address user) None)
               (getAddressesAddressBalance (nodeProvider this) (User.address user) None)
               balanceFailure ;;
  match convertAddressBalanceToUserBalance balance with
  | Js.Rejected r => reject (balanceFailure r)
  | Js.Fulfilled userBalance =>
      resolve
        match token with
        | None => userBalance
        | Some tok =>
            filter (fun t => String.eqb (Token.id (TokenAmount.token t)) (Token.id tok))
              userBalance
        end
  end.

(** The destination of a transfer of [tokenAmount]: the amount itself for
    the native asset, else the dust amount and one token entry. *)
Definition destinationOf (address : option string) (tokenAmount : TokenAmount.t)
    : Destination.t :=
  let native := isALPH imports (TokenAmount.token tokenAmount) in
  Destination.mk address
    (if native then TokenAmount.amount tokenAmount else DUST_AMOUNT)
    (if native then []
     else [Destination.mkToken (Token.id (TokenAmount.token tokenAmount))
             (TokenAmount.amount tokenAmount)]).

(** [txStatus.setTransactionId(txId).displayUpdate()], guarded as in the
    source. *)
Definition reportTransactionId (txStatus : bool) (txId : string) : Promise unit :=
  when (txStatus && negb (isOnDevNet (bot imports))) (note (StatusSetTransactionId txId)).

Definition operatorFeesAddressOf (userWallet : Wallet.t) : option string :=
  nth_error (addressesByGroup (operatorConfig this)) (Wallet.group userWallet).

Definition sendAmountToAddressFrom (user : User.t) (tokenAmount : TokenAmount.t)
    (destinationAddress : string) (txStatus : bool) : Promise string :=
  if negb (isValidAddress imports destinationAddress)
  then reject (InvalidAddressError destinationAddress)
  else if isALPH imports (TokenAmount.token tokenAmount)
          && Qle_bool (amountAsNumber imports tokenAmount)
               (strictMinimalWithdrawalAmount (operatorConfig this))
  then reject (TooSmallALPHWithdrawalError tokenAmount)
  else
    userWallet <- getUserWallet user ;;
    let (feeDestinations, tokenAmount') :=
      if (0 <? fees (operatorConfig this))%Z
      then
        let (tokenAmountOperatorFee, rest) :=
          TokenAmount.substractAndGetPercentage (fees (operatorConfig this)) tokenAmount in
        ([destinationOf (operatorFeesAddressOf userWallet) tokenAmountOperatorFee], rest)
      else ([], tokenAmount) in
    let destinations :=
      feeDestinations ++ [destinationOf (Some destinationAddress) tokenAmount'] in
    txId <- awaitCall (SignAndSubmitTransferTx (Wallet.address userWallet) destinations)
              (signAndSubmitTransferTx imports userWallet destinations)
              rejectAdapted ;;
    reportTransactionId txStatus txId ;;;
    awaitCall (WaitForTxConfirmation txId (nbConfirmationsExternalTransfer (bot imports)))
      (waitForTxConfirmation imports txId (nbConfirmationsExternalTransfer (bot imports)))
      Original ;;;
    note (ConsolidateIfRequiredDetached (User.id user)) ;;;
    resolve txId.

(** [sweepWalletFromUserTo]: every unsigned transaction of the sweep is
    signed and submitted; any rejection goes through [adaptError]. *)
Definition sweepWalletFromUserTo (userWallet : Wallet.t) (destinationAddress : string)
    (txStatus : bool) : Promise (list string) :=
  unsignedTxs <- awaitCall
      (PostTransactionsSweepAddressBuild (Wallet.publicKey userWallet) destinationAddress)
      (postTransactionsSweepAddressBuild (nodeProvider this)
         (Wallet.publicKey userWallet) destinationAddress)
      rejectAdapted ;;
  txIds <- all (map (fun tx =>
                  awaitCall (SignAndSubmitUnsignedTx (Wallet.address userWallet) tx)
                    (signAndSubmitUnsignedTx imports userWallet tx) rejectAdapted)
                unsignedTxs) ;;
  match txIds with
  | [] => resolve tt
  | first :: _ => reportTransactionId txStatus first
  end ;;;
  resolve txIds.

(** Stage 1 of [takeFeesAndSweepWalletFromUserTo], the body of
    [if (this.operatorConfig.fees > 0)]. Two reads of an array at index 0
    are followed by a property access, which throws on [undefined]. The
    callback [t => t.token.isALPH] names the method without calling it,
    so that filter keeps every entry. *)
Definition takeOperatorFees (user : User.t) (userWallet : Wallet.t) (txStatus : bool)
    : Promise unit :=
  let operatorFeesAddress := operatorFeesAddressOf userWallet in
  userBalance <- getUserBalance user None ;;
  match filter (fun u => isALPH imports (TokenAmount.token u)) userBalance with
  | [] => reject (Uncaught (Js.TypeError "Cannot read properties of undefined (reading 'amountAsNumber')"))
  | userBalanceAlph :: _ =>
      if Qle_bool (amountAsNumber imports userBalanceAlph)
           (strictMinimalWithdrawalAllAmount (operatorConfig this))
      then reject (TooSmallALPHWithdrawalError userBalanceAlph)
      else
        let operatorFeesTokenAmount :=
          map (TokenAmount.feeOf (fees (operatorConfig this))) userBalance in
        match filter (fun _ => true) operatorFeesTokenAmount with
        | [] => reject (Uncaught (Js.TypeError "Cannot read properties of undefined (reading 'amount')"))
        | first :: _ =>
            let destinations :=
              [Destination.mk operatorFeesAddress (TokenAmount.amount first)
                 (map (fun t => Destination.mkToken (Token.id (TokenAmount.token t))
                                  (TokenAmount.amount t))
                    (filter (fun t => negb (isALPH imports (TokenAmount.token t)))
                       operatorFeesTokenAmount))] in
            txId <- awaitCall
                (SignAndSubmitTransferTx (Wallet.address userWallet) destinations)
                (signAndSubmitTransferTx imports userWallet destinations)
                rejectAdapted ;;
            reportTransactionId txStatus txId ;;;
            awaitCall
              (WaitForTxConfirmation txId
                 (nbConfirmationsBetweenMultipleStepsTransactions (bot imports)))
              (waitForTxConfirmation imports txId
                 (nbConfirmationsBetweenMultipleStepsTransactions (bot imports)))
              Original
        end
  end.

Definition takeFeesAndSweepWalletFromUserTo (user : User.t) (destinationAddress : string)
    (txStatus : bool) : Promise string :=
  if negb (isValidAddress imports destinationAddress)
  then reject (InvalidAddressError destinationAddress)
  else
    userWallet <- getUserWallet user ;;
    (if (0 <? fees (operatorConfig this))%Z
     then takeOperatorFees user userWallet txStatus
     else resolve tt) ;;;
    when txStatus (note StatusSetConfirmedNextStep) ;;;
    sweepAllTx <- sweepWalletFromUserTo userWallet destinationAddress txStatus ;;
    match sweepAllTx with
    | [] => resolve ""
    | first :: _ =>
        awaitCall
          (WaitForTxConfirmation first (nbConfirmationsExternalTransfer (bot imports)))
          (waitForTxConfirmation imports first (nbConfirmationsExternalTransfer (bot imports)))
          Original ;;;
        resolve first
    end.

(** [Math.ceil(totalNbrUsers / 10)] *)
Definition userBufferOf (totalNbrUsers : nat) : nat := ((totalNbrUsers + 9) / 10)%nat.

(** The [for] loop of [getTotalTokenAmount], from the test [i <
    totalNbrUsers] on. Each turn consumes one unit of [fuel]; [None]
    means the fuel ran out before the loop ended. *)
Fixpoint totalTokenAmountLoop (fuel : nat) (userStore : UserStore.t)
    (totalNbrUsers userBuffer i : nat) (totalTokenAmount : UserBalance)
    : option (Promise UserBalance) :=
  if (i <? totalNbrUsers)%nat then
    match fuel with
    | O => None
    | S fuel' =>
        let currentUserSet := UserStore.find (userBuffer * i) userBuffer userStore in
        match all (map (fun u => getUserBalance u None) currentUserSet) with
        | (cs, RejectedWith f) => Some (cs, RejectedWith f)
        | (cs, Resolved currentUserBalance) =>
            match totalTokenAmountLoop fuel' userStore totalNbrUsers userBuffer
                    (i + userBuffer)
                    (sumUserBalance (currentUserBalance ++ [totalTokenAmount])) with
            | Some (cs', o) => Some (cs ++ cs', o)
            | None => None
            end
        end
    end
  else Some (resolve totalTokenAmount).

Definition getTotalTokenAmount (userStore : UserStore.t) : option (Promise UserBalance) :=
  let totalNbrUsers := UserStore.count userStore in
  totalTokenAmountLoop totalNbrUsers userStore totalNbrUsers
    (userBufferOf totalNbrUsers) 0 [].

(** The aggregate the loop is meant to compute, in the words of the
    spec: the balances of all registered users, fetched at once and
    summed. *)
Definition totalTokenAmountUnbatched (userStore : UserStore.t) : Promise UserBalance :=
  balances <- all (map (fun u => getUserBalance u None) (UserStore.rows userStore)) ;;
  resolve (sumUserBalance balances).

End Methods.

(** ** A concrete deployment

    One instance of every collaborator, on which the properties below are
    exercised: a registry that knows ALPH and AYIN, a node on which the
    wallet of user 1 holds 25 ALPH, 1999 units of AYIN and 5 units of a
    token the registry does not know, and every other address 1 ALPH; an
    operator fee of 10%, and 1 ALPH as the least balance to withdraw
    everything. *)

Module Sample.

Definition ALPH : Token.t :=
  Token.mk "0000000000000000000000000000000000000000000000000000000000000000" "ALPH" 18.

Definition AYIN : Token.t :=
  Token.mk "1a281053ba8601a658368594da034c2e99a0fb951b86498d05e76aedfe666800" "AYIN" 18.

Definition unknownTokenId : string :=
  "ffffffffffffffffffffffffffffffffffffffffffffffffffffffffffffff00".

Definition nativeMarker (t : Token.t) : bool := String.eqb (Token.id t) (Token.id ALPH).

Definition asNumber (ta : TokenAmount.t) : Q :=
  (inject_Z (TokenAmount.amount ta)
   / inject_Z (10 ^ Z.of_nat (Token.decimals (TokenAmount.token ta))))%Q.

(** One letter per unit of the index, after a fixed prefix. *)
Fixpoint tally (n : nat) : string :=
  match n with
  | O => EmptyString
  | S n' => String "x" (tally n')
  end.

Definition walletOf (index : option nat) : Wallet.t :=
  match index with
  | Some n => Wallet.mk ("1Wallet" ++ tally n)%string ("02key" ++ tally n)%string (n mod 4)
  | None => Wallet.mk "1WalletUndefined" "02keyUndefined" 0
  end.

Definition externalAddress : string := "1DrDyTr9RpRsQnDnXo2YRiPzPW4ooHX5LLoqXrqfMrpQH".

Definition validAddress (a : string) : bool := String.eqb a externalAddress.

Definition oneAlph : Z := 10 ^ 18.

Definition balanceAt (address : option string) (mempool : option bool)
    : Js.Settled Balance.t :=
  match address with
  | None => Js.Rejected (Js.ErrorInstance "[API Error] - Invalid address")
  | Some a =>
      if String.eqb a (Wallet.address (walletOf (Some 1%nat)))
      then Js.Fulfilled
             (Balance.mk (25 * oneAlph)
                (Some [Balance.mkToken (Token.id AYIN) 1999;
                       Balance.mkToken unknownTokenId 5])
                3)
      else Js.Fulfilled (Balance.mk oneAlph None 1)
  end.

Definition node : NodeProvider := {|
  getAddressesAddressBalance := balanceAt;
  postTransactionsSweepAddressBuild := fun _ _ => Js.Fulfilled ["unsigned-0"]
|}.

Definition registry : TokenManager := {|
  getTokenBySymbol := fun s =>
    if String.eqb s "ALPH" then Js.Fulfilled ALPH
    else if String.eqb s "AYIN" then Js.Fulfilled AYIN
    else Js.Rejected (Js.ErrorInstance "unknown symbol");
  getTokenAmountFromIdAmount := fun id amount =>
    if String.eqb id (Token.id AYIN) then Js.Fulfilled (TokenAmount.mk amount AYIN)
    else Js.Rejected (Js.ErrorInstance "unknown token")
|}.

Definition operator : OperatorConfig := {|
  fees := 10;
  addressesByGroup := ["1FeesGroup0"; "1FeesGroup1"; "1FeesGroup2"; "1FeesGroup3"];
  strictMinimalWithdrawalAmount := 1 # 100;
  strictMinimalWithdrawalAllAmount := 1
|}.

Definition never : Js.RawError -> Js.Completion bool := fun _ => Js.Normal false.

Definition errorPredicates : Errors.Predicates := {|
  Errors.alphErrorIsIOFailureError := never;
  Errors.alphErrorIsAlphAmountOverflowError := never;
  Errors.alphErrorIsNotEnoughBalanceForFeeError := never;
  Errors.alphErrorIsNotEnoughApprovedBalanceForAddress := never;
  Errors.alphErrorIsNotEnoughALPHForTransactionOutputError := never;
  Errors.alphErrorIsNotEnoughALPHForALPHAndTokenChangeOutputError := never
|}.

Definition botConfig : BotConfig := {|
  nbConfirmationsInternalTransfer := 1;
  nbConfirmationsExternalTransfer := 2;
  nbConfirmationsBetweenMultipleStepsTransactions := 1;
  nbUTXOBeforeConsolidation := 50;
  considerMempool := true;
  isOnDevNet := false
|}.

Definition imports : Imports := {|
  isValidAddress := validAddress;
  waitForTxConfirmation := fun _ _ => Js.Fulfilled tt;
  deriveWallet := walletOf;
  signAndSubmitTransferTx := fun _ _ => Js.Fulfilled "tx-transfer";
  signAndSubmitUnsignedTx := fun _ tx => Js.Fulfilled ("tx-" ++ tx)%string;
  isALPH := nativeMarker;
  amountAsNumber := asNumber;
  predicates := errorPredicates;
  bot := botConfig
|}.

Definition client : AlphClient := {|
  nodeProvider := node;
  tokenManager := registry;
  operatorConfig := operator
|}.

(** A registered user: the record [registerUser] persists for index [n]. *)
Definition registered (n : nat) : User.t :=
  User.mk (Some n) (1000 + Z.of_nat n) ("user" ++ tally n)%string
    (Some (Wallet.address (walletOf (Some n)))).

Definition storeOf (n : nat) : UserStore.t :=
  UserStore.mk (map registered (seq 0 n)) n (2 * n).

Definition emptyStore : UserStore.t := UserStore.mk [] 0 0.

Definition newcomer : User.t := User.mk None 4242 "alice" None.

End Sample.

(** ** The other methods of [AlphClient] *)

Section OtherMethods.

Variable imports : Imports.
Variable this : AlphClient.

Local Open Scope promise_scope.

(** [sender.id !== receiver.id] *)
Definition sameId (a b : option nat) : bool :=
  match a, b with
  | Some i, Some j => Nat.eqb i j
  | None, None => true
  | _, _ => false
  end.

Definition transferFromUserToUser (sender receiver : User.t)
    (tokenAmount : TokenAmount.t) (txStatus : bool) : Promise string :=
  senderWallet <- getUserWallet imports sender ;;
  let destinations := [destinationOf imports (User.address receiver) tokenAmount] in
  txId <- awaitCall (SignAndSubmitTransferTx (Wallet.address senderWallet) destinations)
            (signAndSubmitTransferTx imports senderWallet destinations)
            (rejectAdapted imports) ;;
  reportTransactionId imports txStatus txId ;;;
  awaitCall (WaitForTxConfirmation txId (nbConfirmationsInternalTransfer (bot imports)))
    (waitForTxConfirmation imports txId (nbConfirmationsInternalTransfer (bot imports)))
    Original ;;;
  note (ConsolidateIfRequiredDetached (User.id sender)) ;;;
  when (negb (sameId (User.id sender) (User.id receiver)))
    (note (ConsolidateIfRequiredDetached (User.id receiver))) ;;;
  resolve txId.

(** [consolidateUTXO]: a sweep of the wallet to its own address, without
    status sink. *)
Definition consolidateUTXO (userWallet : Wallet.t) : Promise (list string) :=
  sweepWalletFromUserTo imports this userWallet (Wallet.address userWallet) false.

(** The JavaScript value a rejection reason is when a later [.catch]
    receives it: the raw error itself when it was handed on unchanged,
    an [Error] with its message for an exception and for the classes of
    [error.ts] among the sources, and the string of the enum member. The
    messages of the classes that are not among the sources are given by
    [otherMessage]. *)
Definition caughtValue (otherMessage : Failure -> string) (f : Failure) : Js.RawError :=
  match f with
  | Original err => err
  | Uncaught (Js.TypeError what) => Js.ErrorInstance what
  | USER_ALREADY_REGISTERED => Js.NonErrorValue "user already registered"
  | GeneralError message _ => Js.ErrorInstance message
  | NetworkError _ => Js.ErrorInstance "network error"
  | NotEnoughFundsError _ _ _ => Js.ErrorInstance "not enough funds error"
  | other => Js.ErrorInstance (otherMessage other)
  end.

(** [consolidateIfRequired]: the promise resolves with [undefined]
    ([None]) when there is nothing to do, else with the ids of the sweep
    joined by [", "]. The single [.catch] at the end of the chain also
    receives what [consolidateUTXO] rejected with. *)
Definition consolidateIfRequired (otherMessage : Failure -> string) (user : User.t)
    : Promise (option string) :=
  userWallet <- getUserWallet imports user ;;
  addressBalance <- awaitCall
      (GetAddressesAddressBalance (Some (Wallet.address userWallet))
         (Some (considerMempool (bot imports))))
      (getAddressesAddressBalance (nodeProvider this) (Some (Wallet.address userWallet))
         (Some (considerMempool (bot imports))))
      (rejectAdapted imports) ;;
  if (Balance.utxoNum addressBalance <? nbUTXOBeforeConsolidation (bot imports))%nat
  then resolve None
  else
    match consolidateUTXO userWallet with
    | (cs, Resolved txIds) => (cs, Resolved (Some (String.concat ", " txIds)))
    | (cs, RejectedWith f) =>
        (cs, RejectedWith (rejectAdapted imports (caughtValue otherMessage f)))
    end.

(** [emptyWalletForDeletion]: [collectionAddress] stands for
    [EnvConfig.operator.addressesByGroup[0]], read from the global
    configuration and not from [operatorConfig]. *)
Definition emptyWalletForDeletion (collectionAddress : string) (user : User.t)
    : Promise (list string) :=
  userWallet <- getUserWallet imports user ;;
  sweepWalletFromUserTo imports this userWallet collectionAddress false.

(** [getTotalTokenAmountFromAddresses]: no handler is chained, a
    rejection of the node or of the registry comes out as it is. *)
Definition getTotalTokenAmountFromAddresses (addresses : list string)
    : Promise UserBalance :=
  addressesBalance <- all (map (fun a =>
      balance <- awaitCall
          (GetAddressesAddressBalance (Some a) (Some (considerMempool (bot imports))))
          (getAddressesAddressBalance (nodeProvider this) (Some a)
             (Some (considerMempool (bot imports))))
          Original ;;
      match convertAddressBalanceToUserBalance this balance with
      | Js.Fulfilled userBalance => resolve userBalance
      | Js.Rejected r => reject (Original r)
      end) addresses) ;;
  resolve (sumUserBalance addressesBalance).

End OtherMethods.

(** ** The first variant of the client

    [alephium.ts] comes in two variants; the methods above are those of
    the second. The first validates addresses itself, sends the fees to a
    single operator address and translates submission failures with the
    two predicates of [error.ts] alone. *)

Module Legacy.

(** The class [[1-9A-HJ-NP-Za-km-z]]. *)
Definition isBase58Char (c : ascii) : bool :=
  let n := nat_of_ascii c in
  ((49 <=? n) && (n <=? 57)
   || (65 <=? n) && (n <=? 72)
   || (74 <=? n) && (n <=? 78)
   || (80 <=? n) && (n <=? 90)
   || (97 <=? n) && (n <=? 107)
   || (109 <=? n) && (n <=? 122))%nat.

Fixpoint allBase58 (s : string) : bool :=
  match s with
  | EmptyString => true
  | String c s' => isBase58Char c && allBase58 s'
  end.

(** [/^[1-9A-HJ-NP-Za-km-z]+$/.test(address)] *)
Definition base58RegexTest (address : string) : bool :=
  match address with
  | EmptyString => false
  | String _ _ => allBase58 address
  end.

Section Variant.

(** [bs58.decode], of the package [bs58]. *)
Variable bs58decode : string -> Js.Completion (list Byte.byte).

(** [isAddressValid]: [&&] evaluates its right operand only when the left
    one holds. *)
Definition isAddressValid (address : string) : Js.Completion bool :=
  match address with
  | EmptyString => Js.Normal false
  | String _ _ =>
      if base58RegexTest address
      then Js.cbind (bs58decode address)
             (fun bytes => Js.Normal (32 <=? List.length (tl bytes))%nat)
      else Js.Normal false
  end.

Variable imports : Imports.

(** [EnvConfig.operator.fees] and [EnvConfig.operator.address] *)
Variable operatorFees : Z.
Variable operatorAddress : string.

Local Open Scope promise_scope.

(** The handler chained on the submission in [sendAmountToAddressFrom]. *)
Definition adaptSubmissionError (err : Js.RawError) : Js.Completion Failure :=
  if Errors.alphErrorIsNetworkError err then Js.Normal (NetworkError err) else
  Js.cbind (Errors.alphErrorIsNotEnoughFundsError err) (fun funds =>
  if funds then Errors.newNotEnoughFundsError err else Js.Normal (Original err)).

Definition rejectSubmission (err : Js.RawError) : Failure :=
  match adaptSubmissionError err with
  | Js.Normal f => f
  | Js.Thrown e => Uncaught e
  end.

Definition sendAmountToAddressFrom (user : User.t) (tokenAmount : TokenAmount.t)
    (destinationAddress : string) (txStatus : bool) : Promise string :=
  match isAddressValid destinationAddress with
  | Js.Thrown e => reject (Uncaught e)
  | Js.Normal false => reject (InvalidAddressError destinationAddress)
  | Js.Normal true =>
      userWallet <- getUserWallet imports user ;;
      let (feeDestinations, tokenAmount') :=
        if (0 <? operatorFees)%Z
        then
          let (tokenAmountOperatorFee, rest) :=
            TokenAmount.substractAndGetPercentage operatorFees tokenAmount in
          ([destinationOf imports (Some operatorAddress) tokenAmountOperatorFee], rest)
        else ([], tokenAmount) in
      let destinations :=
        feeDestinations ++ [destinationOf imports (Some destinationAddress) tokenAmount'] in
      txId <- awaitCall (SignAndSubmitTransferTx (Wallet.address userWallet) destinations)
                (signAndSubmitTransferTx imports userWallet destinations)
                rejectSubmission ;;
      reportTransactionId imports txStatus txId ;;;
      awaitCall (WaitForTxConfirmation txId (nbConfirmationsExternalTransfer (bot imports)))
        (waitForTxConfirmation imports txId (nbConfirmationsExternalTransfer (bot imports)))
        Original ;;;
      note (ConsolidateIfRequiredDetached (User.id user)) ;;;
      resolve txId
  end.

End Variant.

End Legacy.

(** ** Registration from the chat ([/start]) *)

(** [userRepository.findOneBy({ telegramId })]: the first row of that
    identity, [None] for [null]. *)
Definition findOneByTelegramId (telegramId : Z) (userStore : UserStore.t)
    : option User.t :=
  List.find (fun u => Z.eqb (User.telegramId u) telegramId) (UserStore.rows userStore).

(** The registration step of [startFct], the messages sent to the chat
    left out: a new [User] is registered; when the identity is already
    registered its record is fetched; any other failure gives [null]. *)
Definition startRegistration (imports : Imports) (userId : Z) (username : string)
    (userStore : UserStore.t) : UserStore.t * option User.t :=
  match registerUser imports (User.mk None userId username None) userStore with
  | (userStore', Resolved user) => (userStore', Some user)
  | (userStore', RejectedWith USER_ALREADY_REGISTERED) =>
      (userStore', findOneByTelegramId userId userStore')
  | (userStore', RejectedWith _) => (userStore', None)
  end.

(** The well-formed stores: every row has an id below the next one to be
    generated, and no two rows share an identity. *)
Definition idBelow (bound : nat) (u : User.t) : Prop :=
  exists i, User.id u = Some i /\ (i < bound)%nat.

Definition wellFormed (userStore : UserStore.t) : Prop :=
  Forall (idBelow (UserStore.nextId userStore)) (UserStore.rows userStore)
  /\ NoDup (map User.telegramId (UserStore.rows userStore))
  /\ NoDup (map User.id (UserStore.rows userStore)).

(** ** More of [error.ts] *)

From Stdlib Require DecimalString DecimalN.

Module ErrorsMore.
Import Js.

(** The class [[API Error]] of [alphAPIErrorRegex]: the brackets are not
    escaped in [/^[API Error] - /], so they delimit a set of characters. *)
Definition inAPIErrorClass (c : ascii) : bool :=
  existsb (Ascii.eqb c) (list_ascii_of_string "API Error").

(** [message.match(alphAPIErrorRegex)]: one character of the class, then
    [" - "]; the array holds the matched text alone. *)
Definition matchAlphAPIError (message : string) : option (list string) :=
  match message with
  | EmptyString => None
  | String c rest =>
      if inAPIErrorClass c
      then match Errors.stripPrefix " - " rest with
           | Some _ => Some [String c " - "]
           | None => None
           end
      else None
  end.

(** [alphErrorIsAPIError]: [(args = err.message.match(..)) && 1 ==
    args.length] is [null] ([None]) without a match; reading [match] off
    a value without message throws. *)
Definition alphErrorIsAPIError (err : RawError) : Completion (option bool) :=
  match err with
  | ErrorInstance message =>
      Normal (match matchAlphAPIError message with
              | None => None
              | Some args => Some (Nat.eqb 1 (List.length args))
              end)
  | NonErrorValue _ =>
      Thrown (TypeError "Cannot read properties of undefined (reading 'match')")
  end.

(** The decimal writing of a natural number, as the node prints the
    amounts in its messages. *)
Definition decimal (n : N) : string :=
  DecimalString.NilEmpty.string_of_uint (N.to_uint n).

Fixpoint allDigits (s : string) : bool :=
  match s with
  | EmptyString => true
  | String c s' => Errors.isDigit c && allDigits s'
  end.

(** The message of the node for a balance [got] short of [expected]. *)
Definition notEnoughBalanceMessage (got expected : string) : string :=
  ("[API Error] - Not enough balance: got " ++ got ++ ", expected " ++ expected)%string.

End ErrorsMore.

(** ** The translation table of [adaptError], in the words of the spec

    The patterns in their priority order, each with the kind it stands
    for; the result is the kind of the first pattern that holds, and the
    error itself when none does. *)




(** ** Kinds of calls *)

Definition isConsolidation (c : Call) : bool :=
  match c with
  | ConsolidateIfRequiredDetached _ => true
  | _ => false
  end.

Definition isBalanceQuery (c : Call) : bool :=
  match c with
  | GetAddressesAddressBalance _ _ => true
  | _ => false
  end.

Definition isSweepCall (c : Call) : bool :=
  match c with
  | PostTransactionsSweepAddressBuild _ _ | SignAndSubmitUnsignedTx _ _ => true
  | _ => false
  end.

Definition isStatusUpdate (c : Call) : bool :=
  match c with
  | StatusSetTransactionId _ | StatusSetConfirmedNextStep => true
  | _ => false
  end.

(** The output of a withdrawal that pays [amount] of [token] to
    [address]: [destinationOf] at that amount. *)
Definition paymentOf (imports : Imports) (token : Token.t) (address : option string)
    (amount : Z) : Destination.t :=
  destinationOf imports address (TokenAmount.mk amount token).

(** ** A deployment whose node cannot be reached

    Every call that goes to the node fails as [fetch] does. *)

Module Offline.

Definition fetchFailed : Js.RawError := Js.ErrorInstance "fetch failed".

Definition node : NodeProvider := {|
  getAddressesAddressBalance := fun _ _ => Js.Rejected fetchFailed;
  postTransactionsSweepAddressBuild := fun _ _ => Js.Rejected fetchFailed
|}.

Definition imports : Imports := {|
  isValidAddress := Sample.validAddress;
  waitForTxConfirmation := fun _ _ => Js.Rejected fetchFailed;
  deriveWallet := Sample.walletOf;
  signAndSubmitTransferTx := fun _ _ => Js.Rejected fetchFailed;
  signAndSubmitUnsignedTx := fun _ _ => Js.Rejected fetchFailed;
  isALPH := Sample.nativeMarker;
  amountAsNumber := Sample.asNumber;
  predicates := Sample.errorPredicates;
  bot := Sample.botConfig
|}.

Definition client : AlphClient := {|
  nodeProvider := node;
  tokenManager := Sample.registry;
  operatorConfig := Sample.operator
|}.

End Offline.

(** The sample deployment without operator fee. *)
Definition feelessClient : AlphClient := {|
  nodeProvider := Sample.node;
  tokenManager := Sample.registry;
  operatorConfig := {|
    fees := 0;
    addressesByGroup := addressesByGroup Sample.operator;
    strictMinimalWithdrawalAmount := strictMinimalWithdrawalAmount Sample.operator;
    strictMinimalWithdrawalAllAmount := strictMinimalWithdrawalAllAmount Sample.operator
  |}
|}.

(** A deployment where every wallet is crowded with outputs and the node
    fails to build sweeps. *)
Definition crowdedClient : AlphClient := {|
  nodeProvider := {|
    getAddressesAddressBalance := fun _ _ => Js.Fulfilled (Balance.mk Sample.oneAlph None 60);
    postTransactionsSweepAddressBuild := fun _ _ => Js.Rejected Offline.fetchFailed
  |};
  tokenManager := Sample.registry;
  operatorConfig := Sample.operator
|}.

(** A decoder for the sample deployment: Base58 read as a number in
    base 58, most significant digit first, written in bytes, with one
    zero byte for each leading ['1']. *)
Module SampleBase58.

Definition alphabet : string :=
  "123456789ABCDEFGHJKLMNPQRSTUVWXYZabcdefghijkmnopqrstuvwxyz".

Fixpoint indexOf (c : ascii) (s : string) (i : N) : option N :=
  match s with
  | EmptyString => None
  | String d s' => if Ascii.eqb c d then Some i else indexOf c s' (i + 1)%N
  end.

Fixpoint valueOf (acc : N) (s : string) : option N :=
  match s with
  | EmptyString => Some acc
  | String c s' =>
      match indexOf c alphabet 0%N with
      | Some d => valueOf (58 * acc + d)%N s'
      | None => None
      end
  end.

Fixpoint leadingOnes (s : string) : nat :=
  match s with
  | String "1"%char s' => S (leadingOnes s')
  | _ => O
  end.

Fixpoint bytesOf (fuel : nat) (n : N) (acc : list Byte.byte) : list Byte.byte :=
  match fuel with
  | O => acc
  | S fuel' =>
      if (n =? 0)%N then acc
      else match Byte.of_N (n mod 256) with
           | Some b => bytesOf fuel' (n / 256)%N (b :: acc)
           | None => acc
           end
  end.

Definition decode (s : string) : Js.Completion (list Byte.byte) :=
  match valueOf 0%N s with
  | Some n => Js.Normal (repeat Byte.x00 (leadingOnes s) ++ bytesOf (String.length s) n [])
  | None => Js.Thrown (Js.TypeError "Non-base58 character")
  end.

End SampleBase58.

(** ** Withdrawal of all of one token from the chat ([/withdraw all $TOKEN])

    What [withdrawFct] decides from the balance of the sender once the
    token is known, the messages sent to the chat left out. *)

Inductive WithdrawAll : Type :=
| NativeAloneRefused
| NothingToWithdraw
| WithdrawAmount (tokenAmount : TokenAmount.t).

Definition withdrawAllOfToken (imports : Imports) (userBalance : UserBalance)
    (token : Token.t) : WithdrawAll :=
  if (1 <? List.length userBalance)%nat && isALPH imports token
  then NativeAloneRefused
  else
    match filter (fun t => String.eqb (Token.id (TokenAmount.token t)) (Token.id token))
            userBalance with
    | [] => NothingToWithdraw
    | first :: _ => WithdrawAmount first
    end.

(** ** Notions the properties are stated with *)

(** The failures [adaptError] can return for [err]: the eight kinds it
    builds, each wrapping [err], and [err] itself. *)
Inductive Translates (err : Js.RawError) : Failure -> Prop :=
| TranslatesNetwork : Translates err (NetworkError err)
| TranslatesIO : Translates err (AlphApiIOError err)
| TranslatesOverflow : Translates err (AlphAmountOverflowError err)
| TranslatesFunds actual required :
    Translates err (NotEnoughFundsError err actual required)
| TranslatesFee : Translates err (NotEnoughBalanceForFeeError err)
| TranslatesApproved : Translates err (NotEnoughApprovedBalanceForAddressError err)
| TranslatesOutput : Translates err (NotEnoughALPHForTransactionOutputError err)
| TranslatesChange : Translates err (NotEnoughALPHForALPHAndTokenChangeOutputError err)
| TranslatesNothing : Translates err (Original err).

Definition isTransferSubmission (c : Call) : bool :=
  match c with
  | SignAndSubmitTransferTx _ _ => true
  | _ => false
  end.

(** The token balances of an address that the registry recognizes, as
    the [TokenAmount]s it makes of them, in order. *)
Definition recognisedEntries (this : AlphClient) (balance : Balance.t)
    : list TokenAmount.t :=
  flat_map
    (fun t =>
       match getTokenAmountFromIdAmount (tokenManager this)
               (Balance.id t) (Balance.amount t) with
       | Js.Fulfilled v => [v]
       | Js.Rejected _ => []
       end)
    (match Balance.tokenBalances balance with
     | Some l => l
     | None => []
     end).

(** A balance has an entry for the native asset: one of the token the
    registry resolves ["ALPH"] to. *)
Definition containsNative (this : AlphClient) (userBalance : UserBalance) : Prop :=
  exists e alphToken,
    In e userBalance
    /\ getTokenBySymbol (tokenManager this) "ALPH" = Js.Fulfilled alphToken
    /\ TokenAmount.token e = alphToken.

(** The destination of the fee-stage transaction in the words of the
    spec: to the fee address of the wallet's group, the floored
    percentage of the native balance, and one token entry with the
    floored percentage of each held asset that is not native. *)
Definition feeStageDestination (imports : Imports) (this : AlphClient)
    (userWallet : Wallet.t) (nativeBalance : Z) (held : list TokenAmount.t)
    : Destination.t :=
  let p := fees (operatorConfig this) in
  Destination.mk
    (nth_error (addressesByGroup (operatorConfig this)) (Wallet.group userWallet))
    (nativeBalance * p / 100)
    (map (fun t => Destination.mkToken (Token.id (TokenAmount.token t))
                     (TokenAmount.amount t * p / 100))
       (filter (fun t => negb (isALPH imports (TokenAmount.token t))) held)).

(** The amount a balance holds of the asset [id], all its entries of
    that asset counted. *)
Fixpoint amountOf (id : string) (userBalance : UserBalance) : Z :=
  match userBalance with
  | [] => 0
  | t :: rest =>
      (if String.eqb id (Token.id (TokenAmount.token t)) then TokenAmount.amount t else 0)
      + amountOf id rest
  end.


(** * Properties *)

(** ** Fee arithmetic *)

Lemma percentage_bounds (a p : Z) :
  0 <= a -> 0 <= p <= 100 -> 0 <= a * p / 100 <= a.
Proof.
  intros Ha Hp. split.
  - apply Z.div_pos; nia.
  - apply Z.div_le_upper_bound; nia.
Qed.

Lemma percentage_floor (a p : Z) :
  100 * (a * p / 100) <= a * p < 100 * (a * p / 100) + 100.
Proof.
  pose proof (Z.mul_div_le (a * p) 100 ltac:(lia)).
  pose proof (Z.mul_succ_div_gt (a * p) 100 ltac:(lia)).
  lia.
Qed.

(** C4. For a non-negative amount and a percentage [p] between 0 and 100,
    [substractAndGetPercentage p] returns a fee [f] and leaves a remainder
    [r] with [r >= 0] and [f + r] equal to the original amount; the fee
    is the integer quotient of [amount * p] by 100, that is the largest
    integer [f] with [100 * f <= amount * p] (floored, never rounded up),
    and both parts keep the token. *)
Theorem substractAndGetPercentage_exact (ta : TokenAmount.t) (p : Z) :
  0 <= TokenAmount.amount ta ->
  0 <= p <= 100 ->
  let f := fst (TokenAmount.substractAndGetPercentage p ta) in
  let r := snd (TokenAmount.substractAndGetPercentage p ta) in
  0 <= TokenAmount.amount r
  /\ TokenAmount.amount f + TokenAmount.amount r = TokenAmount.amount ta
  /\ 0 <= TokenAmount.amount f <= TokenAmount.amount ta
  /\ TokenAmount.amount f = TokenAmount.amount ta * p / 100
  /\ 100 * TokenAmount.amount f <= TokenAmount.amount ta * p
       < 100 * TokenAmount.amount f + 100
  /\ TokenAmount.token f = TokenAmount.token ta
  /\ TokenAmount.token r = TokenAmount.token ta.
Proof.
  intros Ha Hp f r. subst f r.
  unfold TokenAmount.substractAndGetPercentage. cbn [fst snd TokenAmount.amount TokenAmount.token].
  pose proof (percentage_bounds _ _ Ha Hp) as Hb.
  pose proof (percentage_floor (TokenAmount.amount ta) p) as Hf.
  set (fee := TokenAmount.amount ta * p / 100) in *.
  repeat split; try lia.
Qed.

Lemma substractAndGetPercentage_exact_witness :
  let ta := TokenAmount.mk 1999 Sample.AYIN in
  let f := fst (TokenAmount.substractAndGetPercentage 10 ta) in
  let r := snd (TokenAmount.substractAndGetPercentage 10 ta) in
  0 <= TokenAmount.amount r
  /\ TokenAmount.amount f + TokenAmount.amount r = TokenAmount.amount ta
  /\ 0 <= TokenAmount.amount f <= TokenAmount.amount ta
  /\ TokenAmount.amount f = TokenAmount.amount ta * 10 / 100
  /\ 100 * TokenAmount.amount f <= TokenAmount.amount ta * 10
       < 100 * TokenAmount.amount f + 100
  /\ TokenAmount.token f = TokenAmount.token ta
  /\ TokenAmount.token r = TokenAmount.token ta.
Proof.
  apply (substractAndGetPercentage_exact (TokenAmount.mk 1999 Sample.AYIN) 10);
    cbn; lia.
Defined.

Example substractAndGetPercentage_1999 :
  TokenAmount.substractAndGetPercentage 10 (TokenAmount.mk 1999 Sample.AYIN)
  = (TokenAmount.mk 199 Sample.AYIN, TokenAmount.mk 1800 Sample.AYIN).
Proof. reflexivity. Qed.

(** ** Threshold comparisons *)

Lemma Qle_bool_false (x y : Q) : Qle_bool x y = false <-> (y < x)%Q.
Proof.
  split; intros H.
  - apply Qnot_le_lt. intros Hle. apply Qle_bool_iff in Hle. congruence.
  - destruct (Qle_bool x y) eqn:E; [| reflexivity].
    apply Qle_bool_iff in E. exfalso. exact (Qlt_not_le _ _ H E).
Qed.

Lemma Qle_bool_true (x y : Q) : Qle_bool x y = true <-> (x <= y)%Q.
Proof. apply Qle_bool_iff. Qed.

(** ** Error translation *)

Section ErrorTranslation.

Variable imports : Imports.

(** The first pattern wins whatever the later predicates would say. *)
Lemma adaptError_network (err : Js.RawError) :
  Errors.alphErrorIsNetworkError err = true ->
  adaptError imports err = Js.Normal (NetworkError err).
Proof. intros H. unfold adaptError. rewrite H. reflexivity. Qed.

Lemma adaptError_io (err : Js.RawError) :
  Errors.alphErrorIsNetworkError err = false ->
  Errors.alphErrorIsIOFailureError (predicates imports) err = Js.Normal true ->
  adaptError imports err = Js.Normal (AlphApiIOError err).
Proof. intros H1 H2. unfold adaptError. rewrite H1, H2. reflexivity. Qed.

Lemma adaptError_overflow (err : Js.RawError) :
  Errors.alphErrorIsNetworkError err = false ->
  Errors.alphErrorIsIOFailureError (predicates imports) err = Js.Normal false ->
  Errors.alphErrorIsAlphAmountOverflowError (predicates imports) err = Js.Normal true ->
  adaptError imports err = Js.Normal (AlphAmountOverflowError err).
Proof. intros H1 H2 H3. unfold adaptError. rewrite H1, H2, H3. reflexivity. Qed.

(** A message of the documented not-enough-funds shape is translated,
    with the two amounts parsed. *)
Lemma adaptError_not_enough_funds (message whole got expected : string) :
  Errors.alphErrorIsNetworkError (Js.ErrorInstance message) = false ->
  Errors.alphErrorIsIOFailureError (predicates imports) (Js.ErrorInstance message) = Js.Normal false ->
  Errors.alphErrorIsAlphAmountOverflowError (predicates imports) (Js.ErrorInstance message) = Js.Normal false ->
  Errors.matchNotEnoughFunds message = Some [whole; got; expected] ->
  adaptError imports (Js.ErrorInstance message)
  = Js.Normal (NotEnoughFundsError (Js.ErrorInstance message)
                 (Errors.BigInt got) (Errors.BigInt expected)).
Proof.
  intros H1 H2 H3 H4. unfold adaptError. rewrite H1, H2, H3. cbn.
  rewrite H4. cbn. rewrite ?H4. reflexivity.
Qed.

(** [match] yields [null] or an array of exactly three strings. *)
Lemma matchNotEnoughFunds_length (message : string) (numbers : list string) :
  Errors.matchNotEnoughFunds message = Some numbers -> List.length numbers = 3%nat.
Proof.
  unfold Errors.matchNotEnoughFunds.
  destruct (Errors.stripPrefix _ message) as [afterGot |]; [| discriminate].
  destruct (Errors.spanDigits afterGot) as [[| c got] afterDigits]; [discriminate |].
  destruct (Errors.stripPrefix _ afterDigits) as [afterExpected |]; [| discriminate].
  destruct (Errors.spanDigits afterExpected) as [[| c' expected] [| x rest]];
    try discriminate.
  intros H. injection H as <-. reflexivity.
Qed.

(** A value that is no [Error] reaches the end of the chain when no
    predicate holds of it, and comes back as it is. *)
Lemma adaptError_non_error_passthrough (repr : string) :
  let err := Js.NonErrorValue repr in
  Errors.alphErrorIsIOFailureError (predicates imports) err = Js.Normal false ->
  Errors.alphErrorIsAlphAmountOverflowError (predicates imports) err = Js.Normal false ->
  Errors.alphErrorIsNotEnoughBalanceForFeeError (predicates imports) err = Js.Normal false ->
  Errors.alphErrorIsNotEnoughApprovedBalanceForAddress (predicates imports) err = Js.Normal false ->
  Errors.alphErrorIsNotEnoughALPHForTransactionOutputError (predicates imports) err = Js.Normal false ->
  Errors.alphErrorIsNotEnoughALPHForALPHAndTokenChangeOutputError (predicates imports) err = Js.Normal false ->
  adaptError imports err = Js.Normal (Original err).
Proof.
  intros err H1 H2 H3 H4 H5 H6. unfold adaptError. cbn.
  fold err. rewrite H1. cbn. rewrite H2. cbn. rewrite H3. cbn. rewrite H4. cbn.
  rewrite H5. cbn. rewrite H6. reflexivity.
Qed.

(** C1. An [Error] whose message none of the first three patterns
    recognizes, and which is not of the not-enough-funds shape, makes
    [adaptError] throw a [TypeError]: [alphErrorIsNotEnoughFundsError]
    reads [length] of the [null] that [match] returned. The error is
    neither translated nor returned unchanged. *)
Theorem adaptError_throws_on_unrecognized (message : string) :
  Errors.alphErrorIsNetworkError (Js.ErrorInstance message) = false ->
  Errors.alphErrorIsIOFailureError (predicates imports) (Js.ErrorInstance message) = Js.Normal false ->
  Errors.alphErrorIsAlphAmountOverflowError (predicates imports) (Js.ErrorInstance message) = Js.Normal false ->
  Errors.matchNotEnoughFunds message = None ->
  adaptError imports (Js.ErrorInstance message)
  = Js.Thrown (Js.TypeError "Cannot read properties of null (reading 'length')").
Proof.
  intros H1 H2 H3 H4. unfold adaptError. rewrite H1, H2, H3. cbn.
  rewrite H4. reflexivity.
Qed.

(** Whatever the predicates that are not among the sources do, an
    [Error] that is not of the not-enough-funds shape is never returned
    unchanged, and none of the four kinds tested after it is produced. *)
Lemma adaptError_unmatched_Error_results (message : string) (f : Failure) :
  Errors.matchNotEnoughFunds message = None ->
  adaptError imports (Js.ErrorInstance message) = Js.Normal f ->
  f = NetworkError (Js.ErrorInstance message)
  \/ f = AlphApiIOError (Js.ErrorInstance message)
  \/ f = AlphAmountOverflowError (Js.ErrorInstance message).
Proof.
  intros Hm. unfold adaptError.
  destruct (Errors.alphErrorIsNetworkError _).
  { intros H. injection H as <-. auto. }
  destruct (Errors.alphErrorIsIOFailureError (predicates imports) _) as [[|] | e]; cbn;
    [intros H; injection H as <-; auto | | discriminate].
  destruct (Errors.alphErrorIsAlphAmountOverflowError (predicates imports) _) as [[|] | e]; cbn;
    [intros H; injection H as <-; auto | | discriminate].
  rewrite Hm. cbn. discriminate.
Qed.

End ErrorTranslation.

Lemma adaptError_throws_on_unrecognized_witness :
  adaptError Sample.imports (Js.ErrorInstance "[API Error] - Something unexpected")
  = Js.Thrown (Js.TypeError "Cannot read properties of null (reading 'length')").
Proof.
  apply (adaptError_throws_on_unrecognized Sample.imports
           "[API Error] - Something unexpected"); reflexivity.
Defined.

(** The documented shape is recognized on the same deployment. *)
Example adaptError_not_enough_funds_sample :
  adaptError Sample.imports
    (Js.ErrorInstance "[API Error] - Not enough balance: got 12, expected 345")
  = Js.Normal
      (NotEnoughFundsError
         (Js.ErrorInstance "[API Error] - Not enough balance: got 12, expected 345")
         12 345).
Proof. reflexivity. Qed.

(** ** Registration *)

Lemma hasId_refl (i : nat) (u : User.t) :
  User.id u = Some i -> UserStore.hasId i u = true.
Proof. intros H. unfold UserStore.hasId. rewrite H. apply Nat.eqb_refl. Qed.

Lemma replaceRow_In (i : nat) (u : User.t) (l : list User.t) :
  existsb (UserStore.hasId i) l = true -> In u (UserStore.replaceRow i u l).
Proof.
  induction l as [| r l IH]; cbn; [discriminate |].
  destruct (UserStore.hasId i r); cbn; intros H.
  - left. reflexivity.
  - right. apply IH. exact H.
Qed.

Lemma existsBy_In (u : User.t) (s : UserStore.t) :
  In u (UserStore.rows s) -> UserStore.existsBy (User.telegramId u) s = true.
Proof.
  intros H. unfold UserStore.existsBy. apply existsb_exists.
  exists u. split; [exact H | apply Z.eqb_refl].
Qed.

(** What one [save] does: the entity comes back with an id, its other
    fields as they were, and is a row of the store, which counts one
    more write. *)
Lemma save_spec (u : User.t) (s : UserStore.t) :
  exists i,
    User.id (snd (UserStore.save u s)) = Some i
    /\ User.telegramId (snd (UserStore.save u s)) = User.telegramId u
    /\ User.telegramUsername (snd (UserStore.save u s)) = User.telegramUsername u
    /\ User.address (snd (UserStore.save u s)) = User.address u
    /\ In (snd (UserStore.save u s)) (UserStore.rows (fst (UserStore.save u s)))
    /\ UserStore.writes (fst (UserStore.save u s)) = S (UserStore.writes s)
    /\ (User.id u = None -> i = UserStore.nextId s).
Proof.
  unfold UserStore.save. destruct (User.id u) as [i |] eqn:Hid.
  - exists i. destruct (existsb (UserStore.hasId i) (UserStore.rows s)) eqn:Hex; cbn.
    + repeat split; auto; try discriminate. apply replaceRow_In. exact Hex.
    + repeat split; auto; try discriminate. apply in_or_app. right. left. reflexivity.
  - exists (UserStore.nextId s). cbn.
    repeat split; auto. apply in_or_app. right. left. reflexivity.
Qed.

(** C5. If the identity already has a record, [registerUser] rejects with
    [USER_ALREADY_REGISTERED] and hands the store back as it was: no
    write was issued. Otherwise it resolves with a record that carries
    the assigned id, the identity as given and the address of the wallet
    derived for that id; the record is a row of the store, two writes
    were issued (the user, then its address), and any later attempt for
    the same identity is rejected and leaves that store, hence the
    persisted address, unchanged. *)
Theorem registerUser_spec (imports : Imports) (newUser : User.t) (s : UserStore.t) :
  (UserStore.existsBy (User.telegramId newUser) s = true ->
   registerUser imports newUser s = (s, RejectedWith USER_ALREADY_REGISTERED))
  /\ (UserStore.existsBy (User.telegramId newUser) s = false ->
      exists (s' : UserStore.t) (i : nat),
        let saved :=
          User.mk (Some i) (User.telegramId newUser) (User.telegramUsername newUser)
            (Some (Wallet.address (deriveWallet imports (Some i)))) in
        registerUser imports newUser s = (s', Resolved saved)
        /\ In saved (UserStore.rows s')
        /\ UserStore.writes s' = S (S (UserStore.writes s))
        /\ (User.id newUser = None -> i = UserStore.nextId s)
        /\ forall again : User.t,
             User.telegramId again = User.telegramId newUser ->
             registerUser imports again s' = (s', RejectedWith USER_ALREADY_REGISTERED)).
Proof.
  split; intros Hex; unfold registerUser at 1; rewrite Hex; [reflexivity |].
  destruct (save_spec newUser s) as (i & Hid & Htid & Hname & _ & _ & Hw1 & Hfresh).
  destruct (UserStore.save newUser s) as [store1 userWithId]. cbn [fst snd] in *.
  set (u2 := User.withAddress _ userWithId).
  assert (Hu2 : u2 = User.mk (Some i) (User.telegramId newUser)
                       (User.telegramUsername newUser)
                       (Some (Wallet.address (deriveWallet imports (Some i))))).
  { subst u2. unfold User.withAddress. rewrite Hid, Htid, Hname. reflexivity. }
  destruct (save_spec u2 store1) as (j & Hid2 & _ & _ & _ & Hin & Hw2 & _).
  assert (Hsaved : snd (UserStore.save u2 store1) = u2).
  { unfold UserStore.save. rewrite Hu2 at 1. cbn [User.id].
    destruct (existsb _ _); reflexivity. }
  destruct (UserStore.save u2 store1) as [store2 saved]. cbn [fst snd] in *.
  subst saved. exists store2, i. cbn zeta. rewrite <- Hu2.
  repeat split.
  - exact Hin.
  - rewrite Hw2, Hw1. reflexivity.
  - exact Hfresh.
  - intros again Hsame. unfold registerUser.
    replace (User.telegramId again) with (User.telegramId u2)
      by (rewrite Hu2; cbn; symmetry; exact Hsame).
    rewrite (existsBy_In u2 store2 Hin). reflexivity.
Qed.

Lemma registerUser_spec_witness :
  registerUser Sample.imports (Sample.registered 1) (Sample.storeOf 2)
  = (Sample.storeOf 2, RejectedWith USER_ALREADY_REGISTERED)
  /\ exists (s' : UserStore.t) (i : nat),
       let saved :=
         User.mk (Some i) 4242 "alice"
           (Some (Wallet.address (Sample.walletOf (Some i)))) in
       registerUser Sample.imports Sample.newcomer (Sample.storeOf 2) = (s', Resolved saved)
       /\ In saved (UserStore.rows s')
       /\ UserStore.writes s' = S (S (UserStore.writes (Sample.storeOf 2)))
       /\ (User.id Sample.newcomer = None -> i = UserStore.nextId (Sample.storeOf 2))
       /\ forall again : User.t,
            User.telegramId again = 4242 ->
            registerUser Sample.imports again s' = (s', RejectedWith USER_ALREADY_REGISTERED).
Proof.
  split.
  - apply (registerUser_spec Sample.imports (Sample.registered 1) (Sample.storeOf 2)).
    reflexivity.
  - apply (registerUser_spec Sample.imports Sample.newcomer (Sample.storeOf 2)).
    reflexivity.
Defined.

Example registerUser_twice :
  let first := registerUser Sample.imports Sample.newcomer Sample.emptyStore in
  snd first
  = Resolved (User.mk (Some 0%nat) 4242 "alice" (Some "1Wallet"))
  /\ registerUser Sample.imports Sample.newcomer (fst first)
     = (fst first, RejectedWith USER_ALREADY_REGISTERED).
Proof. split; reflexivity. Qed.

(** ** Calls and outcomes of composed promises *)

Lemma calls_bindP {A B} (p : Promise A) (k : A -> Promise B) :
  calls (bindP p k)
  = calls p ++ match outcome p with
               | Resolved a => calls (k a)
               | RejectedWith _ => []
               end.
Proof.
  destruct p as [cs [a | f]]; cbn.
  - destruct (k a). reflexivity.
  - symmetry. apply app_nil_r.
Qed.

Lemma outcome_bindP {A B} (p : Promise A) (k : A -> Promise B) :
  outcome (bindP p k)
  = match outcome p with
    | Resolved a => outcome (k a)
    | RejectedWith f => RejectedWith f
    end.
Proof.
  destruct p as [cs [a | f]]; cbn; [destruct (k a) |]; reflexivity.
Qed.

Section CallInvariants.

Variable Q : Call -> Prop.

Lemma Forall_calls_bindP {A B} (p : Promise A) (k : A -> Promise B) :
  Forall Q (calls p) -> (forall a, Forall Q (calls (k a))) ->
  Forall Q (calls (bindP p k)).
Proof.
  intros Hp Hk. rewrite calls_bindP. apply Forall_app. split; [exact Hp |].
  destruct (outcome p); [apply Hk | constructor].
Qed.

Lemma Forall_calls_all {A} (ps : list (Promise A)) :
  Forall (fun p => Forall Q (calls p)) ps -> Forall Q (calls (all ps)).
Proof.
  induction 1 as [| [cs o] ps Hp _ IH]; cbn; [constructor |].
  destruct (all ps) as [cs' os]. cbn in *. apply Forall_app. split; assumption.
Qed.

Lemma Forall_calls_awaitCall {A} (c : Call) (s : Js.Settled A) onReject :
  Q c -> Forall Q (calls (awaitCall c s onReject)).
Proof. intros H. cbn. constructor; [exact H | constructor]. Qed.

Lemma Forall_calls_when (b : bool) (c : Call) :
  Q c -> Forall Q (calls (when b (note c))).
Proof. intros H. destruct b; cbn; repeat constructor. exact H. Qed.

End CallInvariants.

(** ** What [adaptError] can return *)

Lemma newNotEnoughFundsError_Translates (err : Js.RawError) (f : Failure) :
  Errors.newNotEnoughFundsError err = Js.Normal f -> Translates err f.
Proof.
  unfold Errors.newNotEnoughFundsError. destruct err as [message | repr]; [| discriminate].
  destruct (Errors.matchNotEnoughFunds message) as [[| w [| g [| e l]]] |];
    try discriminate.
  intros H. injection H as <-. constructor.
Qed.

(** Every value [adaptError] returns is one of the eight kinds, built on
    the error it was given, or that error itself. *)
Lemma adaptError_Translates (imports : Imports) (err : Js.RawError) (f : Failure) :
  adaptError imports err = Js.Normal f -> Translates err f.
Proof.
  unfold adaptError.
  destruct (Errors.alphErrorIsNetworkError err);
    [intros H; injection H as <-; constructor |].
  repeat
    match goal with
    | |- Js.cbind ?c _ = _ -> _ =>
        destruct c as [[|] | ?]; cbn [Js.cbind];
        [ try (intros H; injection H as <-; constructor) | | discriminate ]
    end.
  - apply newNotEnoughFundsError_Translates.
  - intros H; injection H as <-; constructor.
Qed.

Lemma rejectAdapted_not_TooSmall (imports : Imports) (err : Js.RawError)
    (ta : TokenAmount.t) :
  rejectAdapted imports err <> TooSmallALPHWithdrawalError ta.
Proof.
  unfold rejectAdapted. destruct (adaptError imports err) as [f | e] eqn:E;
    [| discriminate].
  apply adaptError_Translates in E. destruct E; discriminate.
Qed.

(** ** Withdrawal of an amount: the checks made before any call *)

Section Withdrawal.

Variable imports : Imports.
Variable this : AlphClient.

(** C7. For a destination that [isValidAddress] refuses,
    [sendAmountToAddressFrom] rejects with [InvalidAddressError] and has
    made no call at all: no wallet derived, nothing sent to the node. *)
Theorem sendAmountToAddressFrom_invalid_address (user : User.t)
    (tokenAmount : TokenAmount.t) (destinationAddress : string) (txStatus : bool) :
  isValidAddress imports destinationAddress = false ->
  sendAmountToAddressFrom imports this user tokenAmount destinationAddress txStatus
  = ([], RejectedWith (InvalidAddressError destinationAddress)).
Proof. intros H. unfold sendAmountToAddressFrom. rewrite H. reflexivity. Qed.

(** C8. For the native asset and a valid destination: an amount at or
    below [strictMinimalWithdrawalAmount] is rejected with
    [TooSmallALPHWithdrawalError] before any call is made; an amount
    strictly above it passes the check: the wallet is derived, the
    transfer is submitted, and whatever happens next the promise does
    not reject with [TooSmallALPHWithdrawalError]. *)
Theorem sendAmountToAddressFrom_minimal_amount (user : User.t)
    (tokenAmount : TokenAmount.t) (destinationAddress : string) (txStatus : bool) :
  isValidAddress imports destinationAddress = true ->
  isALPH imports (TokenAmount.token tokenAmount) = true ->
  ((amountAsNumber imports tokenAmount
      <= strictMinimalWithdrawalAmount (operatorConfig this))%Q ->
   sendAmountToAddressFrom imports this user tokenAmount destinationAddress txStatus
   = ([], RejectedWith (TooSmallALPHWithdrawalError tokenAmount)))
  /\ ((strictMinimalWithdrawalAmount (operatorConfig this)
         < amountAsNumber imports tokenAmount)%Q ->
      let p := sendAmountToAddressFrom imports this user tokenAmount
                 destinationAddress txStatus in
      (exists destinations rest,
         calls p = GetUserWallet (User.id user)
                   :: SignAndSubmitTransferTx
                        (Wallet.address (deriveWallet imports (User.id user))) destinations
                   :: rest)
      /\ forall ta, outcome p <> RejectedWith (TooSmallALPHWithdrawalError ta)).
Proof.
  intros Hvalid Hnative. unfold sendAmountToAddressFrom. rewrite Hvalid, Hnative. cbn [negb andb].
  split; intros Hcmp.
  - apply Qle_bool_true in Hcmp. rewrite Hcmp. reflexivity.
  - apply Qle_bool_false in Hcmp. rewrite Hcmp. cbn zeta.
    set (w := deriveWallet imports (User.id user)).
    split.
    + rewrite calls_bindP. cbn [getUserWallet calls outcome fst snd app]. fold w.
      destruct (if (0 <? fees (operatorConfig this))%Z then _ else _)
        as [feeDestinations tokenAmount'].
      rewrite calls_bindP. cbn [awaitCall calls fst app].
      eexists; eexists; reflexivity.
    + intros ta. rewrite outcome_bindP. cbn [getUserWallet outcome snd]. fold w.
      destruct (if (0 <? fees (operatorConfig this))%Z then _ else _)
        as [feeDestinations tokenAmount'].
      rewrite outcome_bindP. cbn [awaitCall outcome snd].
      destruct (signAndSubmitTransferTx imports w _) as [txId | r].
      * rewrite outcome_bindP.
        destruct (outcome (reportTransactionId imports txStatus txId)) eqn:Er.
        2:{ unfold reportTransactionId, when, note in Er.
            destruct (txStatus && _); discriminate. }
        rewrite outcome_bindP. cbn [awaitCall outcome snd].
        destruct (waitForTxConfirmation imports txId _) as [[] | r]; discriminate.
      * intros H. injection H as H. exact (rejectAdapted_not_TooSmall _ _ _ H).
Qed.

End Withdrawal.

Lemma sendAmountToAddressFrom_invalid_address_witness :
  sendAmountToAddressFrom Sample.imports Sample.client (Sample.registered 1)
    (TokenAmount.mk (3 * Sample.oneAlph) Sample.ALPH) "not-an-address!" true
  = ([], RejectedWith (InvalidAddressError "not-an-address!")).
Proof.
  apply (sendAmountToAddressFrom_invalid_address Sample.imports Sample.client).
  reflexivity.
Defined.

Lemma sendAmountToAddressFrom_minimal_amount_witness :
  sendAmountToAddressFrom Sample.imports Sample.client (Sample.registered 1)
    (TokenAmount.mk (10 ^ 16) Sample.ALPH) Sample.externalAddress true
  = ([], RejectedWith (TooSmallALPHWithdrawalError (TokenAmount.mk (10 ^ 16) Sample.ALPH)))
  /\ (let p := sendAmountToAddressFrom Sample.imports Sample.client (Sample.registered 1)
                 (TokenAmount.mk (3 * Sample.oneAlph) Sample.ALPH)
                 Sample.externalAddress true in
      (exists destinations rest,
         calls p = GetUserWallet (Some 1%nat)
                   :: SignAndSubmitTransferTx "1Walletx" destinations :: rest)
      /\ forall ta, outcome p <> RejectedWith (TooSmallALPHWithdrawalError ta)).
Proof.
  split.
  - apply (sendAmountToAddressFrom_minimal_amount Sample.imports Sample.client
             (Sample.registered 1) (TokenAmount.mk (10 ^ 16) Sample.ALPH)
             Sample.externalAddress true);
      [reflexivity | reflexivity | apply Qle_bool_iff; reflexivity].
  - apply (sendAmountToAddressFrom_minimal_amount Sample.imports Sample.client
             (Sample.registered 1) (TokenAmount.mk (3 * Sample.oneAlph) Sample.ALPH)
             Sample.externalAddress true);
      [reflexivity | reflexivity | apply Qle_bool_false; reflexivity].
Defined.

(** ** Balances *)

Section Balances.

Variable this : AlphClient.

Lemma recognisedToken_flat_map (l : list Balance.TokenBalance) :
  recognisedToken this l
  = flat_map
      (fun t =>
         match getTokenAmountFromIdAmount (tokenManager this)
                 (Balance.id t) (Balance.amount t) with
         | Js.Fulfilled v => [v]
         | Js.Rejected _ => []
         end) l.
Proof.
  induction l as [| t l IH]; cbn; [reflexivity |].
  rewrite IH. destruct (getTokenAmountFromIdAmount _ _ _); reflexivity.
Qed.

(** The conversion puts the native entry first and the recognized token
    balances after it. *)
Lemma convertAddressBalanceToUserBalance_fulfilled (balance : Balance.t)
    (alphToken : Token.t) :
  getTokenBySymbol (tokenManager this) "ALPH" = Js.Fulfilled alphToken ->
  convertAddressBalanceToUserBalance this balance
  = Js.Fulfilled (TokenAmount.mk (Balance.balance balance) alphToken
                  :: recognisedEntries this balance).
Proof.
  intros H. unfold convertAddressBalanceToUserBalance, recognisedEntries. rewrite H.
  destruct (Balance.tokenBalances balance) as [[| t l] |]; try reflexivity.
  rewrite recognisedToken_flat_map. reflexivity.
Qed.

Lemma getUserBalance_fulfilled (user : User.t) (balance : Balance.t)
    (alphToken : Token.t) :
  getAddressesAddressBalance (nodeProvider this) (User.address user) None
  = Js.Fulfilled balance ->
  getTokenBySymbol (tokenManager this) "ALPH" = Js.Fulfilled alphToken ->
  getUserBalance this user None
  = ([GetAddressesAddressBalance (User.address user) None],
     Resolved (TokenAmount.mk (Balance.balance balance) alphToken
               :: recognisedEntries this balance)).
Proof.
  intros Hb Ha. unfold getUserBalance. rewrite Hb. cbn.
  rewrite (convertAddressBalanceToUserBalance_fulfilled _ _ Ha). reflexivity.
Qed.

(** C9, amended. When the node answers and the registry resolves
    ["ALPH"], [getUserBalance] called without a token resolves, whatever
    the registry says of the other assets, with the native entry (the
    balance of the address, possibly zero) followed by the recognized
    token balances: each token balance the registry fulfils is in the
    result as the registry made it, and every other entry of the result
    comes from such a token balance, so that the ones the registry
    rejects are dropped. Called with a token, it resolves with the
    entries of that balance whose token id is the id of the token. *)
Theorem getUserBalance_native_and_recognised (user : User.t) (balance : Balance.t)
    (alphToken : Token.t) :
  getAddressesAddressBalance (nodeProvider this) (User.address user) None
  = Js.Fulfilled balance ->
  getTokenBySymbol (tokenManager this) "ALPH" = Js.Fulfilled alphToken ->
  let tokenBalances :=
    match Balance.tokenBalances balance with Some l => l | None => [] end in
  exists others,
    getUserBalance this user None
    = ([GetAddressesAddressBalance (User.address user) None],
       Resolved (TokenAmount.mk (Balance.balance balance) alphToken :: others))
    /\ containsNative this (TokenAmount.mk (Balance.balance balance) alphToken :: others)
    /\ (forall t v,
          In t tokenBalances ->
          getTokenAmountFromIdAmount (tokenManager this) (Balance.id t) (Balance.amount t)
          = Js.Fulfilled v ->
          In v others)
    /\ (forall e,
          In e others ->
          exists t,
            In t tokenBalances
            /\ getTokenAmountFromIdAmount (tokenManager this)
                 (Balance.id t) (Balance.amount t) = Js.Fulfilled e)
    /\ (List.length others <= List.length tokenBalances)%nat
    /\ (forall token,
          getUserBalance this user (Some token)
          = ([GetAddressesAddressBalance (User.address user) None],
             Resolved
               (filter (fun t => String.eqb (Token.id (TokenAmount.token t)) (Token.id token))
                  (TokenAmount.mk (Balance.balance balance) alphToken :: others)))).
Proof.
  intros Hb Ha tokenBalances. exists (recognisedEntries this balance).
  split; [apply getUserBalance_fulfilled; assumption |].
  assert (Hfiltered : forall token,
            getUserBalance this user (Some token)
            = ([GetAddressesAddressBalance (User.address user) None],
               Resolved
                 (filter (fun t => String.eqb (Token.id (TokenAmount.token t)) (Token.id token))
                    (TokenAmount.mk (Balance.balance balance) alphToken
                     :: recognisedEntries this balance)))).
  { intros token. unfold getUserBalance. rewrite Hb. cbn [awaitCall bindP].
    rewrite (convertAddressBalanceToUserBalance_fulfilled _ _ Ha). reflexivity. }
  cut (containsNative this
         (TokenAmount.mk (Balance.balance balance) alphToken
          :: recognisedEntries this balance)
       /\ (forall t v,
             In t tokenBalances ->
             getTokenAmountFromIdAmount (tokenManager this) (Balance.id t) (Balance.amount t)
             = Js.Fulfilled v ->
             In v (recognisedEntries this balance))
       /\ (forall e,
             In e (recognisedEntries this balance) ->
             exists t,
               In t tokenBalances
               /\ getTokenAmountFromIdAmount (tokenManager this)
                    (Balance.id t) (Balance.amount t) = Js.Fulfilled e)
       /\ (List.length (recognisedEntries this balance) <= List.length tokenBalances)%nat);
    [intros (H1 & H2 & H3 & H4); repeat split; assumption |].
  clear Hfiltered.
  split; [exists (TokenAmount.mk (Balance.balance balance) alphToken), alphToken;
          repeat split; [left; reflexivity | exact Ha] |].
  unfold recognisedEntries. fold tokenBalances. repeat split.
  - intros t v Hin Hv. apply in_flat_map. exists t. split; [exact Hin |].
    rewrite Hv. left. reflexivity.
  - intros e He. apply in_flat_map in He. destruct He as (t & Hin & He).
    exists t. split; [exact Hin |].
    destruct (getTokenAmountFromIdAmount _ _ _) as [v | r]; cbn in He;
      [destruct He as [-> | []]; reflexivity | destruct He].
  - clear. induction tokenBalances as [| t l IH]; cbn; [lia |].
    rewrite length_app.
    destruct (getTokenAmountFromIdAmount _ _ _); cbn; lia.
Qed.

(** C10. When [getUserBalance] without a token resolves with a balance,
    the call with a token makes the same call on the node and resolves
    with exactly the entries of that balance whose token id is the id of
    the given token, in the same order; when the balance has no entry of
    that id, it resolves with the empty list and does not reject. *)
Theorem getUserBalance_token_filter (user : User.t) (token : Token.t)
    (unfiltered : UserBalance) :
  outcome (getUserBalance this user None) = Resolved unfiltered ->
  getUserBalance this user (Some token)
  = (calls (getUserBalance this user None),
     Resolved
       (filter (fun t => String.eqb (Token.id (TokenAmount.token t)) (Token.id token))
          unfiltered))
  /\ ((forall e, In e unfiltered ->
                 Token.id (TokenAmount.token e) <> Token.id token) ->
      outcome (getUserBalance this user (Some token)) = Resolved []).
Proof.
  unfold getUserBalance.
  destruct (getAddressesAddressBalance _ _ _) as [balance | r]; cbn; [| discriminate].
  destruct (convertAddressBalanceToUserBalance this balance) as [userBalance | r]; cbn;
    [| discriminate].
  intros H. injection H as ->. split; [reflexivity |].
  intros Hnone. f_equal.
  induction unfiltered as [| e l IH]; cbn; [reflexivity |].
  destruct (String.eqb_spec (Token.id (TokenAmount.token e)) (Token.id token)) as [E | _].
  - exfalso. exact (Hnone e (or_introl eq_refl) E).
  - apply IH. intros e' He'. apply Hnone. right. exact He'.
Qed.

(** Failures do not depend on the token argument either. *)
Lemma getUserBalance_token_rejection (user : User.t) (token : Token.t) (f : Failure) :
  outcome (getUserBalance this user None) = RejectedWith f ->
  getUserBalance this user (Some token)
  = (calls (getUserBalance this user None), RejectedWith f).
Proof.
  unfold getUserBalance.
  destruct (getAddressesAddressBalance _ _ _) as [balance | r]; cbn.
  - destruct (convertAddressBalanceToUserBalance this balance); cbn;
      [discriminate | intros H; injection H as <-; reflexivity].
  - intros H; injection H as <-; reflexivity.
Qed.

End Balances.

Lemma getUserBalance_native_and_recognised_witness :
  exists others,
    getUserBalance Sample.client (Sample.registered 1) None
    = ([GetAddressesAddressBalance (Some "1Walletx") None],
       Resolved (TokenAmount.mk (25 * Sample.oneAlph) Sample.ALPH :: others))
    /\ containsNative Sample.client
         (TokenAmount.mk (25 * Sample.oneAlph) Sample.ALPH :: others)
    /\ (forall t v,
          In t [Balance.mkToken (Token.id Sample.AYIN) 1999;
                Balance.mkToken Sample.unknownTokenId 5] ->
          getTokenAmountFromIdAmount Sample.registry (Balance.id t) (Balance.amount t)
          = Js.Fulfilled v ->
          In v others)
    /\ (forall e,
          In e others ->
          exists t,
            In t [Balance.mkToken (Token.id Sample.AYIN) 1999;
                  Balance.mkToken Sample.unknownTokenId 5]
            /\ getTokenAmountFromIdAmount Sample.registry
                 (Balance.id t) (Balance.amount t) = Js.Fulfilled e)
    /\ (List.length others <= 2)%nat
    /\ (forall token,
          getUserBalance Sample.client (Sample.registered 1) (Some token)
          = ([GetAddressesAddressBalance (Some "1Walletx") None],
             Resolved
               (filter (fun t => String.eqb (Token.id (TokenAmount.token t)) (Token.id token))
                  (TokenAmount.mk (25 * Sample.oneAlph) Sample.ALPH :: others)))).
Proof.
  apply (getUserBalance_native_and_recognised Sample.client (Sample.registered 1)
           (Balance.mk (25 * Sample.oneAlph)
              (Some [Balance.mkToken (Token.id Sample.AYIN) 1999;
                     Balance.mkToken Sample.unknownTokenId 5]) 3)
           Sample.ALPH); reflexivity.
Defined.

(** The unknown token of user 1 is dropped and the AYIN entry kept. *)
Example getUserBalance_sample :
  outcome (getUserBalance Sample.client (Sample.registered 1) None)
  = Resolved [TokenAmount.mk (25 * Sample.oneAlph) Sample.ALPH;
              TokenAmount.mk 1999 Sample.AYIN].
Proof. reflexivity. Qed.

(** C9 as stated fails: asked for AYIN only, the balance of user 1 comes
    back without any entry for the native asset. *)
Lemma getUserBalance_filtered_lacks_native :
  ~ (forall (this : AlphClient) (user : User.t) (token : option Token.t)
            (userBalance : UserBalance),
       outcome (getUserBalance this user token) = Resolved userBalance ->
       containsNative this userBalance).
Proof.
  intros H.
  destruct (H Sample.client (Sample.registered 1) (Some Sample.AYIN)
              [TokenAmount.mk 1999 Sample.AYIN] eq_refl)
    as (e & alphToken & Hin & Halph & Htoken).
  cbn in Halph. injection Halph as <-.
  destruct Hin as [<- | []]. discriminate Htoken.
Qed.

Lemma getUserBalance_token_filter_witness :
  getUserBalance Sample.client (Sample.registered 1) (Some Sample.AYIN)
  = (calls (getUserBalance Sample.client (Sample.registered 1) None),
     Resolved [TokenAmount.mk 1999 Sample.AYIN])
  /\ outcome (getUserBalance Sample.client (Sample.registered 2) (Some Sample.AYIN))
     = Resolved [].
Proof.
  split.
  - apply (getUserBalance_token_filter Sample.client (Sample.registered 1) Sample.AYIN
             [TokenAmount.mk (25 * Sample.oneAlph) Sample.ALPH;
              TokenAmount.mk 1999 Sample.AYIN]).
    reflexivity.
  - apply (getUserBalance_token_filter Sample.client (Sample.registered 2) Sample.AYIN
             [TokenAmount.mk Sample.oneAlph Sample.ALPH]).
    + reflexivity.
    + intros e [<- | []]. discriminate.
Defined.

(** ** Withdrawal of everything: the fee stage *)

Section FeeStage.

Variable imports : Imports.
Variable this : AlphClient.

Lemma bindP_resolved {A B} (cs : list Call) (a : A) (k : A -> Promise B) :
  bindP (cs, Resolved a) k = (cs ++ calls (k a), outcome (k a)).
Proof. cbn. destruct (k a). reflexivity. Qed.

Lemma bindP_rejected {A B} (cs : list Call) (f : Failure) (k : A -> Promise B) :
  bindP (cs, RejectedWith f) k = (cs, RejectedWith f).
Proof. reflexivity. Qed.

(** The sweep submits unsigned transactions only. *)
Lemma sweepWalletFromUserTo_no_transfer (userWallet : Wallet.t)
    (destinationAddress : string) (txStatus : bool) :
  Forall (fun c => isTransferSubmission c = false)
    (calls (sweepWalletFromUserTo imports this userWallet destinationAddress txStatus)).
Proof.
  unfold sweepWalletFromUserTo.
  apply Forall_calls_bindP; [apply Forall_calls_awaitCall; reflexivity |].
  intros unsignedTxs. apply Forall_calls_bindP.
  - apply Forall_calls_all. apply Forall_map. apply Forall_forall.
    intros tx _. apply Forall_calls_awaitCall. reflexivity.
  - intros txIds. apply Forall_calls_bindP; [| intros; constructor].
    destruct txIds; [constructor |].
    unfold reportTransactionId. apply Forall_calls_when. reflexivity.
Qed.

Section Funded.

Variable user : User.t.
Variable balance : Balance.t.
Variable alphToken : Token.t.

Hypothesis node_answers :
  getAddressesAddressBalance (nodeProvider this) (User.address user) None
  = Js.Fulfilled balance.
Hypothesis registry_knows_ALPH :
  getTokenBySymbol (tokenManager this) "ALPH" = Js.Fulfilled alphToken.
Hypothesis ALPH_is_native : isALPH imports alphToken = true.

Let native := TokenAmount.mk (Balance.balance balance) alphToken.

Lemma takeOperatorFees_too_small (userWallet : Wallet.t) (txStatus : bool) :
  (amountAsNumber imports native
     <= strictMinimalWithdrawalAllAmount (operatorConfig this))%Q ->
  takeOperatorFees imports this user userWallet txStatus
  = ([GetAddressesAddressBalance (User.address user) None],
     RejectedWith (TooSmallALPHWithdrawalError native)).
Proof.
  intros Hcmp. apply Qle_bool_true in Hcmp. unfold takeOperatorFees.
  rewrite (getUserBalance_fulfilled this user balance alphToken node_answers
             registry_knows_ALPH).
  rewrite bindP_resolved. fold native.
  cbn [filter TokenAmount.token native]. rewrite ALPH_is_native.
  fold native. rewrite Hcmp. reflexivity.
Qed.

(** The fees of the recognized entries, the native ones left out, are
    the token entries of the words of the spec. *)
Lemma fee_token_entries (p : Z) (held : list TokenAmount.t) :
  map (fun t => Destination.mkToken (Token.id (TokenAmount.token t)) (TokenAmount.amount t))
    (filter (fun t => negb (isALPH imports (TokenAmount.token t)))
       (map (TokenAmount.feeOf p) held))
  = map (fun t => Destination.mkToken (Token.id (TokenAmount.token t))
                    (TokenAmount.amount t * p / 100))
      (filter (fun t => negb (isALPH imports (TokenAmount.token t))) held).
Proof.
  induction held as [| t held IH]; cbn; [reflexivity |].
  destruct (isALPH imports (TokenAmount.token t)); cbn; rewrite IH; reflexivity.
Qed.

Lemma takeOperatorFees_above (userWallet : Wallet.t) (txStatus : bool) :
  (strictMinimalWithdrawalAllAmount (operatorConfig this)
     < amountAsNumber imports native)%Q ->
  let destinations :=
    [feeStageDestination imports this userWallet (Balance.balance balance)
       (recognisedEntries this balance)] in
  takeOperatorFees imports this user userWallet txStatus
  = bindP ([GetAddressesAddressBalance (User.address user) None], Resolved tt)
      (fun _ =>
         bindP (awaitCall
                  (SignAndSubmitTransferTx (Wallet.address userWallet) destinations)
                  (signAndSubmitTransferTx imports userWallet destinations)
                  (rejectAdapted imports))
           (fun txId =>
              bindP (reportTransactionId imports txStatus txId)
                (fun _ =>
                   awaitCall
                     (WaitForTxConfirmation txId
                        (nbConfirmationsBetweenMultipleStepsTransactions (bot imports)))
                     (waitForTxConfirmation imports txId
                        (nbConfirmationsBetweenMultipleStepsTransactions (bot imports)))
                     Original))).
Proof.
  intros Hcmp destinations. apply Qle_bool_false in Hcmp. unfold takeOperatorFees.
  rewrite (getUserBalance_fulfilled this user balance alphToken node_answers
             registry_knows_ALPH).
  fold native. rewrite !bindP_resolved. f_equal; [f_equal | f_equal].
  all: cbn [filter TokenAmount.token native]; rewrite ALPH_is_native;
    fold native; rewrite Hcmp;
    cbn [map filter TokenAmount.feeOf TokenAmount.substractAndGetPercentage fst
           TokenAmount.token TokenAmount.amount native negb];
    rewrite ALPH_is_native; cbn [negb];
    change (fun this0 : TokenAmount.t =>
              fst (TokenAmount.substractAndGetPercentage (fees (operatorConfig this)) this0))
      with (TokenAmount.feeOf (fees (operatorConfig this)));
    rewrite fee_token_entries; reflexivity.
Qed.

End Funded.

End FeeStage.

(** C6. With a fee configured, a valid destination, a node that answers
    and a registry that resolves ["ALPH"] to the native asset: when the
    native balance is at or below [strictMinimalWithdrawalAllAmount],
    [takeFeesAndSweepWalletFromUserTo] rejects with
    [TooSmallALPHWithdrawalError] after two calls, the derivation of the
    wallet and the balance query; no transaction was built or
    submitted. *)
Theorem takeFeesAndSweep_too_small (imports : Imports) (this : AlphClient)
    (user : User.t) (destinationAddress : string) (txStatus : bool)
    (balance : Balance.t) (alphToken : Token.t) :
  isValidAddress imports destinationAddress = true ->
  0 < fees (operatorConfig this) ->
  getAddressesAddressBalance (nodeProvider this) (User.address user) None
  = Js.Fulfilled balance ->
  getTokenBySymbol (tokenManager this) "ALPH" = Js.Fulfilled alphToken ->
  isALPH imports alphToken = true ->
  (amountAsNumber imports (TokenAmount.mk (Balance.balance balance) alphToken)
     <= strictMinimalWithdrawalAllAmount (operatorConfig this))%Q ->
  let p := takeFeesAndSweepWalletFromUserTo imports this user destinationAddress txStatus in
  p = ([GetUserWallet (User.id user);
        GetAddressesAddressBalance (User.address user) None],
       RejectedWith
         (TooSmallALPHWithdrawalError
            (TokenAmount.mk (Balance.balance balance) alphToken)))
  /\ Forall (fun c => isTransactionCall c = false) (calls p).
Proof.
  intros Hvalid Hfees Hnode Hreg Hnative Hcmp p.
  assert (Hp : p = ([GetUserWallet (User.id user);
                     GetAddressesAddressBalance (User.address user) None],
                    RejectedWith
                      (TooSmallALPHWithdrawalError
                         (TokenAmount.mk (Balance.balance balance) alphToken)))).
  { subst p. unfold takeFeesAndSweepWalletFromUserTo. rewrite Hvalid. cbn [negb].
    unfold getUserWallet. rewrite bindP_resolved.
    apply Z.ltb_lt in Hfees. rewrite Hfees.
    rewrite (takeOperatorFees_too_small imports this user balance alphToken
               Hnode Hreg Hnative _ txStatus Hcmp).
    reflexivity. }
  split; [exact Hp |].
  rewrite Hp. cbn. repeat constructor.
Qed.

(** C3. With a fee of [p] percent configured, a valid destination, a
    node that answers and a registry that resolves ["ALPH"] to the native
    asset: when the native balance is strictly above
    [strictMinimalWithdrawalAllAmount], the third call of
    [takeFeesAndSweepWalletFromUserTo], after the derivation of the
    wallet and the balance query, submits one transfer with a single
    destination: the fee address of the group of the wallet, the native
    balance times [p] divided by 100 and floored as native amount, and
    for each held asset that the registry recognizes and that is not
    native, in order, one token entry of its amount times [p] divided by
    100 and floored. No other transfer is submitted by the call. *)
Theorem takeFeesAndSweep_fee_transaction (imports : Imports) (this : AlphClient)
    (user : User.t) (destinationAddress : string) (txStatus : bool)
    (balance : Balance.t) (alphToken : Token.t) :
  isValidAddress imports destinationAddress = true ->
  0 < fees (operatorConfig this) ->
  getAddressesAddressBalance (nodeProvider this) (User.address user) None
  = Js.Fulfilled balance ->
  getTokenBySymbol (tokenManager this) "ALPH" = Js.Fulfilled alphToken ->
  isALPH imports alphToken = true ->
  (strictMinimalWithdrawalAllAmount (operatorConfig this)
     < amountAsNumber imports (TokenAmount.mk (Balance.balance balance) alphToken))%Q ->
  let p := fees (operatorConfig this) in
  let userWallet := deriveWallet imports (User.id user) in
  let held :=
    filter (fun t => negb (isALPH imports (TokenAmount.token t)))
      (recognisedEntries this balance) in
  exists destination rest,
    calls (takeFeesAndSweepWalletFromUserTo imports this user destinationAddress txStatus)
    = GetUserWallet (User.id user)
      :: GetAddressesAddressBalance (User.address user) None
      :: SignAndSubmitTransferTx (Wallet.address userWallet) [destination]
      :: rest
    /\ Destination.address destination
       = nth_error (addressesByGroup (operatorConfig this)) (Wallet.group userWallet)
    /\ Destination.attoAlphAmount destination = Balance.balance balance * p / 100
    /\ Destination.tokens destination
       = map (fun t => Destination.mkToken (Token.id (TokenAmount.token t))
                         (TokenAmount.amount t * p / 100)) held
    /\ Forall (fun c => isTransferSubmission c = false) rest.
Proof.
  intros Hvalid Hfees Hnode Hreg Hnative Hcmp p userWallet held.
  exists (feeStageDestination imports this userWallet (Balance.balance balance)
            (recognisedEntries this balance)).
  unfold takeFeesAndSweepWalletFromUserTo. rewrite Hvalid. cbn [negb].
  unfold getUserWallet. rewrite bindP_resolved. fold userWallet.
  apply Z.ltb_lt in Hfees. rewrite Hfees.
  rewrite (takeOperatorFees_above imports this user balance alphToken
             Hnode Hreg Hnative userWallet txStatus Hcmp).
  cbn [calls fst]. rewrite calls_bindP. rewrite bindP_resolved.
  rewrite calls_bindP. cbn [awaitCall calls fst app].
  eexists. split; [reflexivity |].
  split; [reflexivity |]. split; [reflexivity |]. split; [reflexivity |].
  apply Forall_app. split.
  - destruct (outcome _) as [txId | f]; [| constructor].
    apply Forall_calls_bindP.
    + unfold reportTransactionId. apply Forall_calls_when. reflexivity.
    + intros _. apply Forall_calls_awaitCall. reflexivity.
  - destruct (outcome _); [| constructor].
    apply Forall_calls_bindP; [apply Forall_calls_when; reflexivity |].
    intros _. apply Forall_calls_bindP; [apply sweepWalletFromUserTo_no_transfer |].
    intros sweepAllTx. destruct sweepAllTx; [constructor |].
    apply Forall_calls_bindP; [apply Forall_calls_awaitCall; reflexivity |].
    intros; constructor.
Qed.

Lemma takeFeesAndSweep_too_small_witness :
  let p := takeFeesAndSweepWalletFromUserTo Sample.imports Sample.client
             (Sample.registered 2) Sample.externalAddress true in
  p = ([GetUserWallet (Some 2%nat);
        GetAddressesAddressBalance (Some "1Walletxx") None],
       RejectedWith
         (TooSmallALPHWithdrawalError (TokenAmount.mk Sample.oneAlph Sample.ALPH)))
  /\ Forall (fun c => isTransactionCall c = false) (calls p).
Proof.
  apply (takeFeesAndSweep_too_small Sample.imports Sample.client (Sample.registered 2)
           Sample.externalAddress true (Balance.mk Sample.oneAlph None 1) Sample.ALPH);
    [reflexivity | reflexivity | reflexivity | reflexivity | reflexivity |].
  apply Qle_bool_iff. reflexivity.
Defined.

Lemma takeFeesAndSweep_fee_transaction_witness :
  exists destination rest,
    calls (takeFeesAndSweepWalletFromUserTo Sample.imports Sample.client
             (Sample.registered 1) Sample.externalAddress true)
    = GetUserWallet (Some 1%nat)
      :: GetAddressesAddressBalance (Some "1Walletx") None
      :: SignAndSubmitTransferTx "1Walletx" [destination]
      :: rest
    /\ Destination.address destination = Some "1FeesGroup1"
    /\ Destination.attoAlphAmount destination = 25 * Sample.oneAlph * 10 / 100
    /\ Destination.tokens destination
       = [Destination.mkToken (Token.id Sample.AYIN) (1999 * 10 / 100)]
    /\ Forall (fun c => isTransferSubmission c = false) rest.
Proof.
  apply (takeFeesAndSweep_fee_transaction Sample.imports Sample.client
           (Sample.registered 1) Sample.externalAddress true
           (Balance.mk (25 * Sample.oneAlph)
              (Some [Balance.mkToken (Token.id Sample.AYIN) 1999;
                     Balance.mkToken Sample.unknownTokenId 5]) 3)
           Sample.ALPH);
    [reflexivity | reflexivity | reflexivity | reflexivity | reflexivity |].
  apply Qle_bool_false. reflexivity.
Defined.

(** The whole run of the sweep of user 1 on the sample deployment. *)
Example takeFeesAndSweep_sample :
  takeFeesAndSweepWalletFromUserTo Sample.imports Sample.client
    (Sample.registered 1) Sample.externalAddress true
  = ([GetUserWallet (Some 1%nat);
      GetAddressesAddressBalance (Some "1Walletx") None;
      SignAndSubmitTransferTx "1Walletx"
        [Destination.mk (Some "1FeesGroup1") 2500000000000000000
           [Destination.mkToken (Token.id Sample.AYIN) 199]];
      StatusSetTransactionId "tx-transfer";
      WaitForTxConfirmation "tx-transfer" 1;
      StatusSetConfirmedNextStep;
      PostTransactionsSweepAddressBuild "02keyx" Sample.externalAddress;
      SignAndSubmitUnsignedTx "1Walletx" "unsigned-0";
      StatusSetTransactionId "tx-unsigned-0";
      WaitForTxConfirmation "tx-unsigned-0" 2],
     Resolved "tx-unsigned-0").
Proof. vm_compute. reflexivity. Qed.

(** ** The total over all users *)

Section Totals.

Variable this : AlphClient.

Lemma userBufferOf_positive (n : nat) : (0 < n)%nat -> (1 <= userBufferOf n)%nat.
Proof.
  intros H. unfold userBufferOf.
  apply (Nat.div_le_lower_bound (n + 9) 10 1); lia.
Qed.

(** The loop ends: with a window of at least one user, as many turns as
    there are users left are enough. *)
Lemma totalTokenAmountLoop_settles (userStore : UserStore.t)
    (totalNbrUsers userBuffer : nat) :
  (1 <= userBuffer)%nat ->
  forall (fuel i : nat) (total : UserBalance),
    (totalNbrUsers - i <= fuel)%nat ->
    exists p,
      totalTokenAmountLoop this fuel userStore totalNbrUsers userBuffer i total = Some p.
Proof.
  intros Hb. induction fuel as [| fuel IH]; intros i total Hfuel;
    cbn [totalTokenAmountLoop].
  - destruct (Nat.ltb_spec i totalNbrUsers); [lia | eexists; reflexivity].
  - destruct (Nat.ltb_spec i totalNbrUsers); [| eexists; reflexivity].
    destruct (all _) as [cs [balances | f]]; [| eexists; reflexivity].
    destruct (IH (i + userBuffer)%nat (sumUserBalance (balances ++ [total])))
      as [[cs' o] ->]; [lia |].
    eexists; reflexivity.
Qed.

(** [getTotalTokenAmount] always settles. *)
Lemma getTotalTokenAmount_settles (userStore : UserStore.t) :
  exists p, getTotalTokenAmount this userStore = Some p.
Proof.
  unfold getTotalTokenAmount.
  destruct (UserStore.count userStore) as [| n] eqn:E.
  - cbn. eexists; reflexivity.
  - apply totalTokenAmountLoop_settles; [apply userBufferOf_positive |]; lia.
Qed.

End Totals.

(** C2. With eleven registered users the window is 2, and the loop asks
    the store for the pages at offsets 0, 4, 8, 12, 16 and 20: the
    offset is [userBuffer * i] although [i] already advances by
    [userBuffer]. Users 2, 3, 6, 7 and 10 are in no page: six balances
    are fetched and the total is 30 ALPH, where the sum over the eleven
    users is 35 ALPH. *)
Theorem getTotalTokenAmount_skips_users :
  exists batched,
    getTotalTokenAmount Sample.client (Sample.storeOf 11) = Some batched
    /\ calls batched
       = map (fun n => GetAddressesAddressBalance (User.address (Sample.registered n)) None)
           [0; 1; 4; 5; 8; 9]%nat
    /\ outcome batched
       = Resolved [TokenAmount.mk (30 * Sample.oneAlph) Sample.ALPH;
                   TokenAmount.mk 1999 Sample.AYIN]
    /\ outcome (totalTokenAmountUnbatched Sample.client (Sample.storeOf 11))
       = Resolved [TokenAmount.mk (35 * Sample.oneAlph) Sample.ALPH;
                   TokenAmount.mk 1999 Sample.AYIN].
Proof.
  eexists. split; [vm_compute; reflexivity |].
  repeat split; vm_compute; reflexivity.
Qed.

(** Up to ten users the window is 1 and the offsets are the indices. *)
Example getTotalTokenAmount_three_users :
  option_map outcome (getTotalTokenAmount Sample.client (Sample.storeOf 3))
  = Some (Resolved [TokenAmount.mk (27 * Sample.oneAlph) Sample.ALPH;
                    TokenAmount.mk 1999 Sample.AYIN])
  /\ outcome (totalTokenAmountUnbatched Sample.client (Sample.storeOf 3))
     = Resolved [TokenAmount.mk (27 * Sample.oneAlph) Sample.ALPH;
                 TokenAmount.mk 1999 Sample.AYIN].
Proof. split; vm_compute; reflexivity. Qed.

(** C3 as stated fails on an asset the registry does not recognize:
    user 1 holds 5 units of such a token, the balance is above the
    threshold and the fee is 10%, yet the fee-stage transaction has no
    entry for it. *)
Lemma fee_transaction_omits_unrecognised_asset :
  ~ (forall (imports : Imports) (this : AlphClient) (user : User.t)
            (destinationAddress : string) (txStatus : bool)
            (balance : Balance.t) (alphToken : Token.t),
       isValidAddress imports destinationAddress = true ->
       0 < fees (operatorConfig this) ->
       getAddressesAddressBalance (nodeProvider this) (User.address user) None
       = Js.Fulfilled balance ->
       getTokenBySymbol (tokenManager this) "ALPH" = Js.Fulfilled alphToken ->
       isALPH imports alphToken = true ->
       (strictMinimalWithdrawalAllAmount (operatorConfig this)
          < amountAsNumber imports
              (TokenAmount.mk (Balance.balance balance) alphToken))%Q ->
       forall held : Balance.TokenBalance,
         In held (match Balance.tokenBalances balance with Some l => l | None => [] end) ->
         exists destination rest,
           calls (takeFeesAndSweepWalletFromUserTo imports this user
                    destinationAddress txStatus)
           = GetUserWallet (User.id user)
             :: GetAddressesAddressBalance (User.address user) None
             :: SignAndSubmitTransferTx
                  (Wallet.address (deriveWallet imports (User.id user))) [destination]
             :: rest
           /\ In (Destination.mkToken (Balance.id held)
                    (Balance.amount held * fees (operatorConfig this) / 100))
                (Destination.tokens destination)).
Proof.
  intros H.
  destruct (H Sample.imports Sample.client (Sample.registered 1)
              Sample.externalAddress true
              (Balance.mk (25 * Sample.oneAlph)
                 (Some [Balance.mkToken (Token.id Sample.AYIN) 1999;
                        Balance.mkToken Sample.unknownTokenId 5]) 3)
              Sample.ALPH eq_refl eq_refl eq_refl eq_refl eq_refl eq_refl
              (Balance.mkToken Sample.unknownTokenId 5)
              (or_intror (or_introl eq_refl)))
    as (destination & rest & Hcalls & Hin).
  vm_compute in Hcalls. injection Hcalls as Hd _. subst destination.
  cbn in Hin. destruct Hin as [E | []]. discriminate E.
Qed.

(** ** The total over at most ten users *)

Lemma amountOf_app (id : string) (a b : UserBalance) :
  amountOf id (a ++ b) = amountOf id a + amountOf id b.
Proof. induction a as [| t a IH]; cbn; [reflexivity | rewrite IH; lia]. Qed.

Lemma amountOf_addTokenAmount (id : string) (ta : TokenAmount.t) (acc : UserBalance) :
  amountOf id (addTokenAmount ta acc) = amountOf id acc + amountOf id [ta].
Proof.
  induction acc as [| x acc IH]; cbn; [lia |].
  destruct (String.eqb_spec (Token.id (TokenAmount.token x))
              (Token.id (TokenAmount.token ta))) as [E | _]; cbn.
  - rewrite <- E. destruct (String.eqb id (Token.id (TokenAmount.token x))); lia.
  - cbn in IH. rewrite IH. lia.
Qed.

Lemma amountOf_mergeUserBalance (id : string) (a b : UserBalance) :
  amountOf id (mergeUserBalance a b) = amountOf id a + amountOf id b.
Proof.
  unfold mergeUserBalance. revert a.
  induction b as [| t b IH]; intros a; cbn; [lia |].
  rewrite IH, amountOf_addTokenAmount. cbn. lia.
Qed.

Lemma amountOf_fold_merge (id : string) (balances : list UserBalance)
    (acc : UserBalance) :
  amountOf id (fold_left mergeUserBalance balances acc)
  = amountOf id acc + amountOf id (List.concat balances).
Proof.
  revert acc. induction balances as [| b balances IH]; intros acc; cbn; [lia |].
  rewrite IH, amountOf_mergeUserBalance, amountOf_app. lia.
Qed.

(** The sum of balances holds, of every asset, what they hold together. *)
Lemma amountOf_sumUserBalance (id : string) (balances : list UserBalance) :
  amountOf id (sumUserBalance balances) = amountOf id (List.concat balances).
Proof. unfold sumUserBalance. rewrite amountOf_fold_merge. reflexivity. Qed.


Section SmallStores.

Variable this : AlphClient.
Variable userStore : UserStore.t.

Let rows := UserStore.rows userStore.
Let n := UserStore.count userStore.



End SmallStores.

(** * Further properties *)

(** ** The messages [error.ts] recognizes *)

Section RegexFacts.

Import ErrorsMore.

Lemma stripPrefix_app (p s : string) :
  Errors.stripPrefix p (p ++ s)%string = Some s.
Proof.
  induction p as [| c p IH]; cbn; [destruct s; reflexivity |].
  rewrite Ascii.eqb_refl. exact IH.
Qed.

Lemma stripPrefix_inv (p s r : string) :
  Errors.stripPrefix p s = Some r -> s = (p ++ r)%string.
Proof.
  revert s. induction p as [| c p IH]; intros s; cbn.
  - destruct s; intros H; injection H as <-; reflexivity.
  - destruct s as [| d s]; [discriminate |].
    destruct (Ascii.eqb_spec c d) as [<- | _]; [| discriminate].
    intros H. rewrite (IH _ H). reflexivity.
Qed.

(** A run of digits that ends the string, or is followed by a character
    that is no digit, is what [spanDigits] takes. *)
Lemma spanDigits_app (ds rest : string) :
  allDigits ds = true ->
  match rest with
  | EmptyString => True
  | String c _ => Errors.isDigit c = false
  end ->
  Errors.spanDigits (ds ++ rest)%string = (ds, rest).
Proof.
  intros Hds Hrest. induction ds as [| d ds IH]; cbn.
  - destruct rest as [| c rest]; cbn; [reflexivity | rewrite Hrest; reflexivity].
  - cbn in Hds. apply andb_prop in Hds. destruct Hds as [Hd Hds].
    rewrite Hd, (IH Hds). reflexivity.
Qed.

Lemma spanDigits_inv (s ds rest : string) :
  Errors.spanDigits s = (ds, rest) ->
  s = (ds ++ rest)%string /\ allDigits ds = true.
Proof.
  revert ds rest. induction s as [| c s IH]; intros ds rest; cbn.
  - intros H. injection H as <- <-. split; reflexivity.
  - destruct (Errors.isDigit c) eqn:Hc.
    + destruct (Errors.spanDigits s) as [ds' rest'].
      intros H. injection H as <- <-.
      destruct (IH _ _ eq_refl) as [-> Hds]. cbn. rewrite Hc, Hds. split; reflexivity.
    + intros H. injection H as <- <-. split; reflexivity.
Qed.

Lemma allDigits_string_of_uint (d : Decimal.uint) :
  allDigits (DecimalString.NilEmpty.string_of_uint d) = true.
Proof. induction d; cbn; auto. Qed.

Lemma bigIntOfDigits_acc (d : Decimal.uint) (acc : positive) :
  Errors.bigIntOfDigits (Z.pos acc) (DecimalString.NilEmpty.string_of_uint d)
  = Z.pos (Pos.of_uint_acc d acc).
Proof.
  revert acc. induction d; intros acc; cbn [DecimalString.NilEmpty.string_of_uint
    Errors.bigIntOfDigits Pos.of_uint_acc]; [reflexivity | ..];
    rewrite <- IHd; f_equal;
    match goal with
    | |- context [Z.of_nat (nat_of_ascii ?c) - 48] =>
        let v := eval vm_compute in (Z.of_nat (nat_of_ascii c) - 48) in
        change (Z.of_nat (nat_of_ascii c) - 48) with v
    end; lia.
Qed.

Lemma bigIntOfDigits_of_uint (d : Decimal.uint) :
  Errors.bigIntOfDigits 0 (DecimalString.NilEmpty.string_of_uint d)
  = Z.of_N (Pos.of_uint d).
Proof.
  induction d; cbn [DecimalString.NilEmpty.string_of_uint Errors.bigIntOfDigits
    Pos.of_uint]; [reflexivity | exact IHd | ..];
    cbn [Z.of_N]; rewrite <- bigIntOfDigits_acc; reflexivity.
Qed.

(** [BigInt] reads back the decimal writing of a number. *)
Lemma BigInt_decimal (n : N) : Errors.BigInt (decimal n) = Z.of_N n.
Proof.
  unfold Errors.BigInt, decimal. rewrite bigIntOfDigits_of_uint.
  change (Pos.of_uint (N.to_uint n)) with (N.of_uint (N.to_uint n)).
  rewrite DecimalN.Unsigned.of_to. reflexivity.
Qed.

Lemma decimal_digits (n : N) : allDigits (decimal n) = true.
Proof. apply allDigits_string_of_uint. Qed.

Lemma decimal_nonempty (n : N) : decimal n <> EmptyString.
Proof.
  unfold decimal. intros H.
  assert (Hnil : N.to_uint n = Decimal.Nil)
    by (destruct (N.to_uint n); [reflexivity | discriminate ..]).
  pose proof (DecimalN.Unsigned.of_to n) as Hn. rewrite Hnil in Hn. cbn in Hn.
  subst n. discriminate Hnil.
Qed.

End RegexFacts.

Lemma string_app_nil_r (s : string) : (s ++ "")%string = s.
Proof. induction s as [| c s IH]; cbn; [| rewrite IH]; reflexivity. Qed.

Lemma matchNotEnoughFunds_complete (got expected : string) :
  got <> EmptyString -> expected <> EmptyString ->
  ErrorsMore.allDigits got = true -> ErrorsMore.allDigits expected = true ->
  Errors.matchNotEnoughFunds (ErrorsMore.notEnoughBalanceMessage got expected)
  = Some [ErrorsMore.notEnoughBalanceMessage got expected; got; expected].
Proof.
  intros Hg He Dg De. unfold Errors.matchNotEnoughFunds.
  unfold ErrorsMore.notEnoughBalanceMessage at 1.
  rewrite stripPrefix_app.
  rewrite (spanDigits_app got _ Dg) by reflexivity.
  destruct got as [| g got]; [contradiction |].
  rewrite stripPrefix_app.
  rewrite <- (string_app_nil_r expected) at 1.
  rewrite (spanDigits_app expected _ De) by exact I.
  destruct expected as [| e expected]; [contradiction |]. reflexivity.
Qed.

(** X1. Every message of the node of the form [[API Error] - Not enough
    balance: got G, expected E], with [G] and [E] the decimal writings of
    two natural numbers, is matched by [notEnoughFundsRegex];
    [alphErrorIsNotEnoughFundsError] answers [true] on it, and [new
    NotEnoughFundsError] carries the two numbers as [actualFunds] and
    [requiredFunds]. *)
Theorem notEnoughFunds_message_round_trip (got expected : N) :
  let message :=
    ErrorsMore.notEnoughBalanceMessage (ErrorsMore.decimal got)
      (ErrorsMore.decimal expected) in
  Errors.matchNotEnoughFunds message
  = Some [message; ErrorsMore.decimal got; ErrorsMore.decimal expected]
  /\ Errors.alphErrorIsNotEnoughFundsError (Js.ErrorInstance message) = Js.Normal true
  /\ Errors.newNotEnoughFundsError (Js.ErrorInstance message)
     = Js.Normal (NotEnoughFundsError (Js.ErrorInstance message)
                    (Z.of_N got) (Z.of_N expected)).
Proof.
  intros message.
  assert (H : Errors.matchNotEnoughFunds message
              = Some [message; ErrorsMore.decimal got; ErrorsMore.decimal expected]).
  { apply matchNotEnoughFunds_complete;
      auto using decimal_nonempty, decimal_digits. }
  split; [exact H |]. split.
  - unfold Errors.alphErrorIsNotEnoughFundsError. rewrite H. reflexivity.
  - unfold Errors.newNotEnoughFundsError. rewrite H, !BigInt_decimal. reflexivity.
Qed.

(** X2. [notEnoughFundsRegex] matches a message exactly when it is
    [[API Error] - Not enough balance: got G, expected E] for two
    non-empty strings of digits [G] and [E], with nothing before and
    nothing after; the groups of the match are then [G] and [E]. *)
Theorem matchNotEnoughFunds_exactly (message : string) (numbers : list string) :
  Errors.matchNotEnoughFunds message = Some numbers
  <-> exists got expected,
        numbers = [message; got; expected]
        /\ message = ErrorsMore.notEnoughBalanceMessage got expected
        /\ got <> EmptyString /\ expected <> EmptyString
        /\ ErrorsMore.allDigits got = true /\ ErrorsMore.allDigits expected = true.
Proof.
  split.
  - unfold Errors.matchNotEnoughFunds.
    destruct (Errors.stripPrefix _ message) as [afterGot |] eqn:E1; [| discriminate].
    destruct (Errors.spanDigits afterGot) as [got afterDigits] eqn:E2.
    destruct got as [| g got]; [discriminate |].
    destruct (Errors.stripPrefix _ afterDigits) as [afterExpected |] eqn:E3;
      [| discriminate].
    destruct (Errors.spanDigits afterExpected) as [expected rest] eqn:E4.
    destruct expected as [| e expected]; [discriminate |].
    destruct rest as [| x rest]; [| discriminate].
    intros H. injection H as <-.
    apply stripPrefix_inv in E1, E3.
    apply spanDigits_inv in E2, E4. destruct E2 as [E2 D2], E4 as [E4 D4].
    exists (String g got), (String e expected).
    repeat split; try discriminate; try assumption.
    unfold ErrorsMore.notEnoughBalanceMessage.
    rewrite E1, E2, E3, E4, string_app_nil_r. reflexivity.
  - intros (got & expected & -> & -> & Hg & He & Dg & De).
    apply matchNotEnoughFunds_complete; assumption.
Qed.

(** X3. On an instance of [Error], [alphErrorIsNotEnoughFundsError] never
    answers [false]: it answers [true] when the message matches
    [notEnoughFundsRegex], and throws a [TypeError] when it does not. *)
Theorem alphErrorIsNotEnoughFundsError_true_or_throws (message : string) :
  (Errors.matchNotEnoughFunds message <> None
   /\ Errors.alphErrorIsNotEnoughFundsError (Js.ErrorInstance message) = Js.Normal true)
  \/ (Errors.matchNotEnoughFunds message = None
      /\ Errors.alphErrorIsNotEnoughFundsError (Js.ErrorInstance message)
         = Js.Thrown (Js.TypeError "Cannot read properties of null (reading 'length')")).
Proof.
  unfold Errors.alphErrorIsNotEnoughFundsError.
  destruct (Errors.matchNotEnoughFunds message) as [numbers |] eqn:E.
  - left. split; [discriminate |].
    rewrite (matchNotEnoughFunds_length _ _ E). reflexivity.
  - right. split; reflexivity.
Qed.

(** X4. [alphErrorIsAPIError] does not recognize the prefix it is named
    after: on every message that starts with [[API Error] - ] it yields
    [null]. It yields [true] exactly on the messages made of one of the
    characters [A], [P], [I], space, [E], [r], [o], then [ - ], then
    anything; it never yields [false]. *)
Theorem alphErrorIsAPIError_character_class :
  (forall rest,
     ErrorsMore.alphErrorIsAPIError (Js.ErrorInstance ("[API Error] - " ++ rest)%string)
     = Js.Normal None)
  /\ (forall message,
        ErrorsMore.alphErrorIsAPIError (Js.ErrorInstance message) = Js.Normal (Some true)
        <-> exists c rest,
              ErrorsMore.inAPIErrorClass c = true
              /\ message = String c (" - " ++ rest)%string)
  /\ (forall message,
        ErrorsMore.alphErrorIsAPIError (Js.ErrorInstance message)
        <> Js.Normal (Some false)).
Proof.
  split; [reflexivity |]. split.
  - intros message. unfold ErrorsMore.alphErrorIsAPIError, ErrorsMore.matchAlphAPIError.
    split.
    + destruct message as [| c rest]; [discriminate |].
      destruct (ErrorsMore.inAPIErrorClass c) eqn:Hc; [| discriminate].
      destruct (Errors.stripPrefix " - " rest) as [after |] eqn:E; [| discriminate].
      intros _. exists c, after. split; [exact Hc |].
      rewrite (stripPrefix_inv _ _ _ E). reflexivity.
    + intros (c & rest & Hc & ->). rewrite Hc, stripPrefix_app. reflexivity.
  - intros message. unfold ErrorsMore.alphErrorIsAPIError, ErrorsMore.matchAlphAPIError.
    destruct message as [| c rest]; [discriminate |].
    destruct (ErrorsMore.inAPIErrorClass c); [| discriminate].
    destruct (Errors.stripPrefix " - " rest); discriminate.
Qed.

(** ** The translation of errors, when no predicate throws *)






(** ** Failures of the balance query *)

(** X7. [getUserBalance] makes exactly one call, the balance query on
    the address of the user, and never rejects with a raw error: a
    rejection comes from the node or from the lookup of ["ALPH"] in the
    registry, and is a [NetworkError] when that error is a transport
    failure, else a [GeneralError] "failed to fetch user balance"; the
    registry rejecting another asset is no cause of rejection. *)
Theorem getUserBalance_failures (this : AlphClient) (user : User.t)
    (token : option Token.t) (f : Failure) :
  outcome (getUserBalance this user token) = RejectedWith f ->
  calls (getUserBalance this user token)
  = [GetAddressesAddressBalance (User.address user) None]
  /\ exists r,
       (getAddressesAddressBalance (nodeProvider this) (User.address user) None
        = Js.Rejected r
        \/ getTokenBySymbol (tokenManager this) "ALPH" = Js.Rejected r)
       /\ f = (if Errors.alphErrorIsNetworkError r then NetworkError r
               else GeneralError "failed to fetch user balance" r).
Proof.
  unfold getUserBalance.
  destruct (getAddressesAddressBalance _ _ _) as [balance | r]; cbn.
  - unfold convertAddressBalanceToUserBalance.
    destruct (getTokenBySymbol _ _) as [alphToken | r]; cbn.
    + destruct (Balance.tokenBalances balance) as [[| t l] |]; discriminate.
    + intros H. injection H as <-. split; [reflexivity |].
      exists r. split; [right; reflexivity | reflexivity].
  - intros H. injection H as <-. split; [reflexivity |].
    exists r. split; [left; reflexivity | reflexivity].
Qed.

Lemma getUserBalance_failures_witness :
  calls (getUserBalance Sample.client Sample.newcomer None)
  = [GetAddressesAddressBalance None None]
  /\ exists r,
       (getAddressesAddressBalance Sample.node None None = Js.Rejected r
        \/ getTokenBySymbol Sample.registry "ALPH" = Js.Rejected r)
       /\ GeneralError "failed to fetch user balance"
            (Js.ErrorInstance "[API Error] - Invalid address")
          = (if Errors.alphErrorIsNetworkError r then NetworkError r
             else GeneralError "failed to fetch user balance" r).
Proof.
  apply (getUserBalance_failures Sample.client Sample.newcomer None
           (GeneralError "failed to fetch user balance"
              (Js.ErrorInstance "[API Error] - Invalid address"))).
  reflexivity.
Defined.

(** ** Transfers between users *)

Section Transfers.

Variable imports : Imports.
Variable this : AlphClient.

(** X8. When [transferFromUserToUser] resolves, it resolves with the id
    the submission returned, and its calls were, in order: the wallet of
    the sender; one transfer signed by it, with a single destination, the
    address of the receiver, carrying the amount itself for the native
    asset and else the dust amount with one token entry of the amount;
    the transaction id reported to the status sink, when there is one and
    the network is not the development one; the wait for the internal
    number of confirmations; the consolidation check of the sender, and
    that of the receiver only when its id differs from the sender's. *)
Theorem transferFromUserToUser_resolved (sender receiver : User.t)
    (tokenAmount : TokenAmount.t) (txStatus : bool) (txId : string) :
  outcome (transferFromUserToUser imports sender receiver tokenAmount txStatus)
  = Resolved txId ->
  let senderWallet := deriveWallet imports (User.id sender) in
  let destination :=
    if isALPH imports (TokenAmount.token tokenAmount)
    then Destination.mk (User.address receiver) (TokenAmount.amount tokenAmount) []
    else Destination.mk (User.address receiver) DUST_AMOUNT
           [Destination.mkToken (Token.id (TokenAmount.token tokenAmount))
              (TokenAmount.amount tokenAmount)] in
  signAndSubmitTransferTx imports senderWallet [destination] = Js.Fulfilled txId
  /\ calls (transferFromUserToUser imports sender receiver tokenAmount txStatus)
     = [GetUserWallet (User.id sender);
        SignAndSubmitTransferTx (Wallet.address senderWallet) [destination]]
       ++ (if txStatus && negb (isOnDevNet (bot imports))
           then [StatusSetTransactionId txId] else [])
       ++ [WaitForTxConfirmation txId (nbConfirmationsInternalTransfer (bot imports));
           ConsolidateIfRequiredDetached (User.id sender)]
       ++ (if sameId (User.id sender) (User.id receiver) then []
           else [ConsolidateIfRequiredDetached (User.id receiver)]).
Proof.
  intros H senderWallet destination.
  assert (Hd : destinationOf imports (User.address receiver) tokenAmount = destination).
  { unfold destinationOf, destination.
    destruct (isALPH imports (TokenAmount.token tokenAmount)); reflexivity. }
  revert H. unfold transferFromUserToUser, getUserWallet.
  rewrite bindP_resolved. cbn beta zeta. rewrite Hd. fold senderWallet. clearbody destination senderWallet.
  unfold reportTransactionId, when, note, awaitCall, resolve.
  destruct (signAndSubmitTransferTx imports senderWallet [destination]) as [id | r];
    [| cbn; discriminate].
  cbn. destruct (txStatus && negb (isOnDevNet (bot imports))); cbn;
    destruct (waitForTxConfirmation imports id
                (nbConfirmationsInternalTransfer (bot imports))) as [[] | r];
    destruct (sameId (User.id sender) (User.id receiver));
    cbn; intros H; try discriminate H; injection H as <-; split; reflexivity.
Qed.

(** X9. When [transferFromUserToUser] rejects, no consolidation check
    was triggered. Either the submission was rejected, the reason is its
    translation by [adaptError], and nothing was called after it: no
    status update, no wait; or the wait for the confirmations was
    rejected, and its error is the reason, untranslated. *)
Theorem transferFromUserToUser_rejected (sender receiver : User.t)
    (tokenAmount : TokenAmount.t) (txStatus : bool) (f : Failure) :
  outcome (transferFromUserToUser imports sender receiver tokenAmount txStatus)
  = RejectedWith f ->
  let p := transferFromUserToUser imports sender receiver tokenAmount txStatus in
  let senderWallet := deriveWallet imports (User.id sender) in
  let destinations := [destinationOf imports (User.address receiver) tokenAmount] in
  Forall (fun c => isConsolidation c = false) (calls p)
  /\ ((exists r,
         signAndSubmitTransferTx imports senderWallet destinations = Js.Rejected r
         /\ f = rejectAdapted imports r
         /\ calls p = [GetUserWallet (User.id sender);
                       SignAndSubmitTransferTx (Wallet.address senderWallet) destinations])
      \/ (exists txId r,
            signAndSubmitTransferTx imports senderWallet destinations = Js.Fulfilled txId
            /\ waitForTxConfirmation imports txId
                 (nbConfirmationsInternalTransfer (bot imports)) = Js.Rejected r
            /\ f = Original r)).
Proof.
  intros H p senderWallet destinations. subst p. revert H.
  unfold transferFromUserToUser, getUserWallet.
  rewrite bindP_resolved. cbn beta zeta. fold senderWallet. fold destinations. clearbody destinations senderWallet.
  unfold reportTransactionId, when, note, awaitCall, resolve.
  destruct (signAndSubmitTransferTx imports senderWallet destinations) as [id | r].
  - cbn. destruct (txStatus && negb (isOnDevNet (bot imports))); cbn;
      destruct (waitForTxConfirmation imports id
                  (nbConfirmationsInternalTransfer (bot imports))) as [[] | r] eqn:Hw;
      destruct (sameId (User.id sender) (User.id receiver));
      cbn; intros H; try discriminate H; injection H as <-;
      (split; [repeat constructor | right; exists id, r; auto]).
  - cbn. intros H. injection H as <-.
    split; [repeat constructor | left; exists r; auto].
Qed.

End Transfers.

Lemma transferFromUserToUser_resolved_witness :
  let destination := Destination.mk (Some "1Walletxx") (3 * Sample.oneAlph) [] in
  signAndSubmitTransferTx Sample.imports (Sample.walletOf (Some 1%nat)) [destination]
  = Js.Fulfilled "tx-transfer"
  /\ calls (transferFromUserToUser Sample.imports (Sample.registered 1)
              (Sample.registered 2) (TokenAmount.mk (3 * Sample.oneAlph) Sample.ALPH) true)
     = [GetUserWallet (Some 1%nat);
        SignAndSubmitTransferTx "1Walletx" [destination];
        StatusSetTransactionId "tx-transfer";
        WaitForTxConfirmation "tx-transfer" 1;
        ConsolidateIfRequiredDetached (Some 1%nat);
        ConsolidateIfRequiredDetached (Some 2%nat)].
Proof.
  apply (transferFromUserToUser_resolved Sample.imports (Sample.registered 1)
           (Sample.registered 2) (TokenAmount.mk (3 * Sample.oneAlph) Sample.ALPH)
           true "tx-transfer").
  reflexivity.
Defined.

Lemma transferFromUserToUser_rejected_witness :
  let p := transferFromUserToUser Offline.imports (Sample.registered 1)
             (Sample.registered 2) (TokenAmount.mk 1999 Sample.AYIN) true in
  let destinations :=
    [destinationOf Offline.imports (Some "1Walletxx") (TokenAmount.mk 1999 Sample.AYIN)] in
  Forall (fun c => isConsolidation c = false) (calls p)
  /\ ((exists r,
         signAndSubmitTransferTx Offline.imports (Sample.walletOf (Some 1%nat)) destinations
         = Js.Rejected r
         /\ NetworkError Offline.fetchFailed = rejectAdapted Offline.imports r
         /\ calls p = [GetUserWallet (Some 1%nat);
                       SignAndSubmitTransferTx "1Walletx" destinations])
      \/ (exists txId r,
            signAndSubmitTransferTx Offline.imports (Sample.walletOf (Some 1%nat))
              destinations = Js.Fulfilled txId
            /\ waitForTxConfirmation Offline.imports txId 1%nat = Js.Rejected r
            /\ NetworkError Offline.fetchFailed = Original r)).
Proof.
  apply (transferFromUserToUser_rejected Offline.imports (Sample.registered 1)
           (Sample.registered 2) (TokenAmount.mk 1999 Sample.AYIN) true
           (NetworkError Offline.fetchFailed)).
  reflexivity.
Defined.

(** ** Facts about [Promise.all] *)

Lemma calls_all_singletons {A B} (f : A -> Promise B) (c : A -> Call) (l : list A) :
  (forall x, calls (f x) = [c x]) -> calls (all (map f l)) = map c l.
Proof.
  intros H. induction l as [| x l IH]; cbn; [reflexivity |].
  specialize (H x). destruct (f x) as [cs o]. cbn in H. subst cs.
  destruct (all (map f l)) as [cs' os]. cbn in *. rewrite IH. reflexivity.
Qed.

Lemma outcome_all_resolved {A} (ps : list (Promise A)) (l : list A) :
  outcome (all ps) = Resolved l
  <-> Forall2 (fun p a => outcome p = Resolved a) ps l.
Proof.
  revert l. induction ps as [| [cs o] ps IH]; intros l; cbn.
  - split; [intros H; injection H as <-; constructor | inversion 1; reflexivity].
  - destruct (all ps) as [cs' os]. cbn in *. split.
    + destruct o as [a | f]; [| discriminate].
      destruct os as [l' | f]; [| discriminate].
      intros H. injection H as <-. constructor; [reflexivity |].
      apply IH. reflexivity.
    + inversion 1 as [| p a ps' l' Ha Hl]; subst. cbn in Ha. subst o.
      apply IH in Hl. rewrite Hl. reflexivity.
Qed.

Lemma outcome_all_rejected {A} (ps : list (Promise A)) (f : Failure) :
  outcome (all ps) = RejectedWith f ->
  exists p, In p ps /\ outcome p = RejectedWith f.
Proof.
  induction ps as [| [cs o] ps IH]; cbn; [discriminate |].
  destruct (all ps) as [cs' os]. cbn in *.
  destruct o as [a | g].
  - destruct os as [l | g]; [discriminate |].
    intros H. injection H as <-. destruct (IH eq_refl) as (p & Hin & Hp).
    exists p. split; [right; exact Hin | exact Hp].
  - intros H. injection H as <-. exists (cs, RejectedWith g).
    split; [left; reflexivity | reflexivity].
Qed.

(** ** Sweeps *)

Section Sweeps.

Variable imports : Imports.
Variable this : AlphClient.

(** X10. Once the node has built the unsigned transactions of a sweep,
    [sweepWalletFromUserTo] signs and submits every one of them, in
    order, whether or not an earlier submission failed, and calls nothing
    else but the status sink. It resolves exactly when every submission
    is fulfilled, with their transaction ids in the same order; when it
    rejects, the reason is the translation by [adaptError] of the
    rejection of one of the submissions. *)
Theorem sweepWalletFromUserTo_submits_all (userWallet : Wallet.t)
    (destinationAddress : string) (txStatus : bool) (unsignedTxs : list string) :
  postTransactionsSweepAddressBuild (nodeProvider this)
    (Wallet.publicKey userWallet) destinationAddress = Js.Fulfilled unsignedTxs ->
  let p := sweepWalletFromUserTo imports this userWallet destinationAddress txStatus in
  (exists updates,
     calls p
     = PostTransactionsSweepAddressBuild (Wallet.publicKey userWallet) destinationAddress
       :: map (SignAndSubmitUnsignedTx (Wallet.address userWallet)) unsignedTxs
       ++ updates
     /\ Forall (fun c => isStatusUpdate c = true) updates)
  /\ (forall txIds,
        outcome p = Resolved txIds
        <-> Forall2 (fun tx txId =>
                       signAndSubmitUnsignedTx imports userWallet tx = Js.Fulfilled txId)
              unsignedTxs txIds)
  /\ (forall f,
        outcome p = RejectedWith f ->
        exists tx r,
          In tx unsignedTxs
          /\ signAndSubmitUnsignedTx imports userWallet tx = Js.Rejected r
          /\ f = rejectAdapted imports r).
Proof.
  intros Hbuild p.
  set (submit := fun tx : string =>
         awaitCall (SignAndSubmitUnsignedTx (Wallet.address userWallet) tx)
           (signAndSubmitUnsignedTx imports userWallet tx) (rejectAdapted imports)).
  set (q := bindP (all (map submit unsignedTxs))
              (fun txIds =>
                 bindP (match txIds with
                        | [] => resolve tt
                        | first :: _ => reportTransactionId imports txStatus first
                        end)
                   (fun _ => resolve txIds))).
  assert (Hp : p = ([PostTransactionsSweepAddressBuild (Wallet.publicKey userWallet)
                       destinationAddress] ++ calls q, outcome q)).
  { subst p. unfold sweepWalletFromUserTo. rewrite Hbuild. unfold awaitCall at 1.
    rewrite bindP_resolved. reflexivity. }
  rewrite Hp. clear Hp p.
  assert (Hcalls : calls (all (map submit unsignedTxs))
                   = map (SignAndSubmitUnsignedTx (Wallet.address userWallet)) unsignedTxs)
    by (apply calls_all_singletons; reflexivity).
  assert (Hres : forall txIds,
            outcome (all (map submit unsignedTxs)) = Resolved txIds
            <-> Forall2 (fun tx txId =>
                           signAndSubmitUnsignedTx imports userWallet tx = Js.Fulfilled txId)
                  unsignedTxs txIds).
  { intros txIds. rewrite outcome_all_resolved.
    clear. revert txIds. induction unsignedTxs as [| tx l IH]; intros txIds; cbn.
    - split; inversion 1; constructor.
    - split; inversion 1 as [| x y xs ys Hx Hxs]; subst; constructor;
        try (apply IH; assumption).
      + unfold submit in Hx. cbn in Hx.
        destruct (signAndSubmitUnsignedTx imports userWallet tx);
          [injection Hx as ->; reflexivity | discriminate].
      + unfold submit. cbn. rewrite Hx. reflexivity. }
  assert (Hrej : forall f,
            outcome (all (map submit unsignedTxs)) = RejectedWith f ->
            exists tx r,
              In tx unsignedTxs
              /\ signAndSubmitUnsignedTx imports userWallet tx = Js.Rejected r
              /\ f = rejectAdapted imports r).
  { intros f Hf. apply outcome_all_rejected in Hf. destruct Hf as (pr & Hin & Hq).
    apply in_map_iff in Hin. destruct Hin as (tx & <- & Hin).
    unfold submit in Hq. cbn in Hq.
    destruct (signAndSubmitUnsignedTx imports userWallet tx) as [txId | r] eqn:E;
      [discriminate |].
    injection Hq as <-. exists tx, r. auto. }
  cbn [calls outcome fst snd]. fold (calls q). fold (outcome q). subst q.
  rewrite calls_bindP, outcome_bindP, Hcalls.
  destruct (outcome (all (map submit unsignedTxs))) as [txIds | f] eqn:Hall.
  - rewrite calls_bindP, outcome_bindP.
    assert (Hreport :
              outcome (match txIds with
                       | [] => resolve tt
                       | first :: _ => reportTransactionId imports txStatus first
                       end) = Resolved tt
              /\ Forall (fun c => isStatusUpdate c = true)
                   (calls (match txIds with
                           | [] => resolve tt
                           | first :: _ => reportTransactionId imports txStatus first
                           end))).
    { destruct txIds as [| first rest]; [split; [reflexivity | constructor] |].
      unfold reportTransactionId, when, note.
      destruct (txStatus && negb (isOnDevNet (bot imports)));
        split; try reflexivity; repeat constructor. }
    destruct Hreport as [Ho Hc]. rewrite Ho. cbn [resolve calls outcome fst snd].
    split; [| split].
    + eexists. split; [cbn [app]; reflexivity |].
      rewrite app_nil_r. exact Hc.
    + intros txIds'. rewrite <- Hres. split; intros H; [injection H as <- | injection H as <-];
        reflexivity.
    + discriminate.
  - split; [| split].
    + exists []. split; [rewrite !app_nil_r; reflexivity | constructor].
    + intros txIds. rewrite <- Hres. split; discriminate.
    + intros g Hg. injection Hg as <-. apply Hrej. reflexivity.
Qed.

End Sweeps.

Lemma sweepWalletFromUserTo_submits_all_witness :
  let p := sweepWalletFromUserTo Sample.imports Sample.client
             (Sample.walletOf (Some 1%nat)) Sample.externalAddress true in
  (exists updates,
     calls p
     = PostTransactionsSweepAddressBuild "02keyx" Sample.externalAddress
       :: map (SignAndSubmitUnsignedTx "1Walletx") ["unsigned-0"] ++ updates
     /\ Forall (fun c => isStatusUpdate c = true) updates)
  /\ (forall txIds,
        outcome p = Resolved txIds
        <-> Forall2 (fun tx txId =>
                       signAndSubmitUnsignedTx Sample.imports
                         (Sample.walletOf (Some 1%nat)) tx = Js.Fulfilled txId)
              ["unsigned-0"] txIds)
  /\ (forall f,
        outcome p = RejectedWith f ->
        exists tx r,
          In tx ["unsigned-0"]
          /\ signAndSubmitUnsignedTx Sample.imports (Sample.walletOf (Some 1%nat)) tx
             = Js.Rejected r
          /\ f = rejectAdapted Sample.imports r).
Proof.
  apply (sweepWalletFromUserTo_submits_all Sample.imports Sample.client
           (Sample.walletOf (Some 1%nat)) Sample.externalAddress true ["unsigned-0"]).
  reflexivity.
Defined.

(** ** Withdrawals: outputs and stages *)

Section Outputs.

Variable imports : Imports.
Variable this : AlphClient.

(** X11. A withdrawal that passes the two checks of
    [sendAmountToAddressFrom] derives the wallet and submits one
    transfer. With a fee percentage [p > 0] it has two outputs, in this
    order: the floored fee [amount * p / 100] to the fee address of the
    wallet's group, and [amount] minus that fee to the destination, so
    that the outputs add up to the requested amount; without fee it has
    the single output of [amount] to the destination. An output of the
    native asset carries its amount as native amount; an output of
    another token carries the dust amount and one token entry. *)
Theorem sendAmountToAddressFrom_outputs (user : User.t) (tokenAmount : TokenAmount.t)
    (destinationAddress : string) (txStatus : bool) :
  isValidAddress imports destinationAddress = true ->
  isALPH imports (TokenAmount.token tokenAmount)
  && Qle_bool (amountAsNumber imports tokenAmount)
       (strictMinimalWithdrawalAmount (operatorConfig this)) = false ->
  let token := TokenAmount.token tokenAmount in
  let amount := TokenAmount.amount tokenAmount in
  let p := fees (operatorConfig this) in
  let userWallet := deriveWallet imports (User.id user) in
  let feeAddress :=
    nth_error (addressesByGroup (operatorConfig this)) (Wallet.group userWallet) in
  let destinations :=
    if (0 <? p)%Z
    then [paymentOf imports token feeAddress (amount * p / 100);
          paymentOf imports token (Some destinationAddress) (amount - amount * p / 100)]
    else [paymentOf imports token (Some destinationAddress) amount] in
  (exists rest,
     calls (sendAmountToAddressFrom imports this user tokenAmount destinationAddress txStatus)
     = GetUserWallet (User.id user)
       :: SignAndSubmitTransferTx (Wallet.address userWallet) destinations :: rest
     /\ Forall (fun c => isTransferSubmission c = false) rest)
  /\ (forall address x,
        paymentOf imports token address x
        = if isALPH imports token
          then Destination.mk address x []
          else Destination.mk address DUST_AMOUNT [Destination.mkToken (Token.id token) x])
  /\ amount * p / 100 + (amount - amount * p / 100) = amount.
Proof.
  intros Hvalid Hmin token amount p userWallet feeAddress destinations.
  split; [| split; [| lia]].
  2:{ intros address x. unfold paymentOf, destinationOf. cbn.
      destruct (isALPH imports token); reflexivity. }
  unfold sendAmountToAddressFrom. rewrite Hvalid, Hmin. cbn [negb].
  unfold getUserWallet. rewrite bindP_resolved. fold userWallet. cbn beta.
  assert (Hpair :
            (if (0 <? fees (operatorConfig this))%Z
             then
               let (tokenAmountOperatorFee, rest) :=
                 TokenAmount.substractAndGetPercentage (fees (operatorConfig this))
                   tokenAmount in
               ([destinationOf imports (operatorFeesAddressOf this userWallet)
                   tokenAmountOperatorFee], rest)
             else ([], tokenAmount))
            = (if (0 <? p)%Z
               then [paymentOf imports token feeAddress (amount * p / 100)]
               else [],
               if (0 <? p)%Z
               then TokenAmount.mk (amount - amount * p / 100) token
               else tokenAmount)).
  { fold p. destruct (0 <? p)%Z; reflexivity. }
  rewrite Hpair. clear Hpair. cbn [calls fst].
  assert (Hd : (if (0 <? p)%Z
                then [paymentOf imports token feeAddress (amount * p / 100)]
                else [])
               ++ [destinationOf imports (Some destinationAddress)
                     (if (0 <? p)%Z
                      then TokenAmount.mk (amount - amount * p / 100) token
                      else tokenAmount)]
               = destinations).
  { subst destinations. unfold paymentOf. destruct (0 <? p)%Z; [reflexivity |].
    destruct tokenAmount; reflexivity. }
  rewrite Hd. clearbody destinations. rewrite calls_bindP. cbn [awaitCall calls fst app].
  eexists. split; [reflexivity |].
  destruct (outcome _) as [txId | f]; [| constructor].
  apply Forall_calls_bindP.
  - unfold reportTransactionId. apply Forall_calls_when. reflexivity.
  - intros _. apply Forall_calls_bindP; [apply Forall_calls_awaitCall; reflexivity |].
    intros _. apply Forall_calls_bindP; [repeat constructor |].
    intros _. constructor.
Qed.

(** X12. Without operator fee, [takeFeesAndSweepWalletFromUserTo] to a
    valid address is the sweep alone: after the wallet and the step of
    the status sink come the calls of the sweep, and a wait for the
    first transaction of the sweep when there is one; the balance is not
    queried and no transfer is submitted. It resolves with the id of
    that first transaction, and with the empty string, without waiting,
    when the sweep produced no transaction. *)
Theorem takeFeesAndSweep_without_fees (user : User.t) (destinationAddress : string)
    (txStatus : bool) :
  isValidAddress imports destinationAddress = true ->
  fees (operatorConfig this) <= 0 ->
  let userWallet := deriveWallet imports (User.id user) in
  let sweep := sweepWalletFromUserTo imports this userWallet destinationAddress txStatus in
  let confirmations := nbConfirmationsExternalTransfer (bot imports) in
  let p := takeFeesAndSweepWalletFromUserTo imports this user destinationAddress txStatus in
  calls p
  = GetUserWallet (User.id user)
    :: (if txStatus then [StatusSetConfirmedNextStep] else [])
    ++ calls sweep
    ++ match outcome sweep with
       | Resolved (first :: _) => [WaitForTxConfirmation first confirmations]
       | _ => []
       end
  /\ outcome p
     = match outcome sweep with
       | Resolved [] => Resolved ""
       | Resolved (first :: _) =>
           match waitForTxConfirmation imports first confirmations with
           | Js.Fulfilled _ => Resolved first
           | Js.Rejected r => RejectedWith (Original r)
           end
       | RejectedWith f => RejectedWith f
       end
  /\ Forall (fun c => isBalanceQuery c = false /\ isTransferSubmission c = false) (calls p).
Proof.
  intros Hvalid Hfees userWallet sweep confirmations p.
  assert (Hno : Forall (fun c => isBalanceQuery c = false /\ isTransferSubmission c = false)
                  (calls sweep)).
  { subst sweep. unfold sweepWalletFromUserTo.
    apply Forall_calls_bindP; [apply Forall_calls_awaitCall; split; reflexivity |].
    intros unsignedTxs. apply Forall_calls_bindP.
    - apply Forall_calls_all. apply Forall_map. apply Forall_forall.
      intros tx _. apply Forall_calls_awaitCall. split; reflexivity.
    - intros txIds. apply Forall_calls_bindP; [| intros; constructor].
      destruct txIds; [constructor |].
      unfold reportTransactionId. apply Forall_calls_when. split; reflexivity. }
  assert (Hp : p = (GetUserWallet (User.id user)
                    :: (if txStatus then [StatusSetConfirmedNextStep] else [])
                    ++ calls sweep
                    ++ match outcome sweep with
                       | Resolved (first :: _) => [WaitForTxConfirmation first confirmations]
                       | _ => []
                       end,
                    match outcome sweep with
                    | Resolved [] => Resolved ""
                    | Resolved (first :: _) =>
                        match waitForTxConfirmation imports first confirmations with
                        | Js.Fulfilled _ => Resolved first
                        | Js.Rejected r => RejectedWith (Original r)
                        end
                    | RejectedWith f => RejectedWith f
                    end)).
  { subst p. unfold takeFeesAndSweepWalletFromUserTo. rewrite Hvalid. cbn [negb].
    unfold getUserWallet. rewrite bindP_resolved. fold userWallet. cbn beta.
    apply Z.ltb_ge in Hfees. rewrite Hfees.
    unfold resolve at 1. rewrite bindP_resolved. cbn [app].
    fold sweep. fold confirmations. clearbody sweep.
    destruct sweep as [cs [[| first rest] | f]]; destruct txStatus; cbn;
      rewrite ?app_nil_r; try reflexivity;
      destruct (waitForTxConfirmation imports first confirmations) as [[] | r];
      reflexivity. }
  rewrite Hp. cbn [calls outcome fst snd]. split; [reflexivity |]. split; [reflexivity |].
  constructor; [split; reflexivity |].
  apply Forall_app. split; [destruct txStatus; repeat constructor |].
  apply Forall_app. split; [exact Hno |].
  destruct (outcome sweep) as [[| first rest] | f]; repeat constructor.
Qed.

End Outputs.

Lemma sendAmountToAddressFrom_outputs_witness :
  let userWallet := Sample.walletOf (Some 1%nat) in
  let destinations :=
    [paymentOf Sample.imports Sample.AYIN (Some "1FeesGroup1") (1999 * 10 / 100);
     paymentOf Sample.imports Sample.AYIN (Some Sample.externalAddress)
       (1999 - 1999 * 10 / 100)] in
  (exists rest,
     calls (sendAmountToAddressFrom Sample.imports Sample.client (Sample.registered 1)
              (TokenAmount.mk 1999 Sample.AYIN) Sample.externalAddress true)
     = GetUserWallet (Some 1%nat)
       :: SignAndSubmitTransferTx "1Walletx" destinations :: rest
     /\ Forall (fun c => isTransferSubmission c = false) rest)
  /\ (forall address x,
        paymentOf Sample.imports Sample.AYIN address x
        = Destination.mk address DUST_AMOUNT
            [Destination.mkToken (Token.id Sample.AYIN) x])
  /\ 1999 * 10 / 100 + (1999 - 1999 * 10 / 100) = 1999.
Proof.
  apply (sendAmountToAddressFrom_outputs Sample.imports Sample.client
           (Sample.registered 1) (TokenAmount.mk 1999 Sample.AYIN)
           Sample.externalAddress true); reflexivity.
Defined.

Lemma takeFeesAndSweep_without_fees_witness :
  let p := takeFeesAndSweepWalletFromUserTo Sample.imports feelessClient
             (Sample.registered 1) Sample.externalAddress true in
  calls p
  = [GetUserWallet (Some 1%nat);
     StatusSetConfirmedNextStep;
     PostTransactionsSweepAddressBuild "02keyx" Sample.externalAddress;
     SignAndSubmitUnsignedTx "1Walletx" "unsigned-0";
     StatusSetTransactionId "tx-unsigned-0";
     WaitForTxConfirmation "tx-unsigned-0" 2]
  /\ outcome p = Resolved "tx-unsigned-0"
  /\ Forall (fun c => isBalanceQuery c = false /\ isTransferSubmission c = false) (calls p).
Proof.
  apply (takeFeesAndSweep_without_fees Sample.imports feelessClient
           (Sample.registered 1) Sample.externalAddress true);
    [reflexivity | cbn; lia].
Defined.

Section StageOne.

Variable imports : Imports.
Variable this : AlphClient.

(** X13. When the fee stage of [takeFeesAndSweepWalletFromUserTo] fails
    the second stage is not started: if the submission of the fee
    transfer is rejected the promise rejects with its translation by
    [adaptError], and if the wait for its confirmations is rejected, with
    that error as it is; in both cases no sweep was built or submitted
    and the status sink was not moved to the second step. *)
Theorem takeFeesAndSweep_fee_stage_failure (user : User.t) (destinationAddress : string)
    (txStatus : bool) (balance : Balance.t) (alphToken : Token.t)
    (r : Js.RawError) (f : Failure) :
  isValidAddress imports destinationAddress = true ->
  0 < fees (operatorConfig this) ->
  getAddressesAddressBalance (nodeProvider this) (User.address user) None
  = Js.Fulfilled balance ->
  getTokenBySymbol (tokenManager this) "ALPH" = Js.Fulfilled alphToken ->
  isALPH imports alphToken = true ->
  (strictMinimalWithdrawalAllAmount (operatorConfig this)
     < amountAsNumber imports (TokenAmount.mk (Balance.balance balance) alphToken))%Q ->
  let userWallet := deriveWallet imports (User.id user) in
  let destinations :=
    [feeStageDestination imports this userWallet (Balance.balance balance)
       (recognisedEntries this balance)] in
  (signAndSubmitTransferTx imports userWallet destinations = Js.Rejected r
   /\ f = rejectAdapted imports r)
  \/ (exists txId,
        signAndSubmitTransferTx imports userWallet destinations = Js.Fulfilled txId
        /\ waitForTxConfirmation imports txId
             (nbConfirmationsBetweenMultipleStepsTransactions (bot imports))
           = Js.Rejected r
        /\ f = Original r) ->
  let p := takeFeesAndSweepWalletFromUserTo imports this user destinationAddress txStatus in
  outcome p = RejectedWith f
  /\ Forall (fun c => isSweepCall c = false /\ c <> StatusSetConfirmedNextStep) (calls p).
Proof.
  intros Hvalid Hfees Hnode Hreg Hnative Hcmp userWallet destinations Hfail p.
  subst p. unfold takeFeesAndSweepWalletFromUserTo. rewrite Hvalid. cbn [negb].
  unfold getUserWallet. rewrite bindP_resolved. fold userWallet. cbn beta.
  apply Z.ltb_lt in Hfees. rewrite Hfees.
  rewrite (takeOperatorFees_above imports this user balance alphToken
             Hnode Hreg Hnative userWallet txStatus Hcmp).
  cbn zeta. fold destinations. clearbody destinations.
  rewrite bindP_resolved. cbn beta.
  unfold awaitCall at 1.
  destruct Hfail as [[Hs ->] | (txId & Hs & Hw & ->)]; rewrite Hs.
  - cbn. split; [reflexivity |].
    repeat constructor; discriminate.
  - rewrite bindP_resolved. cbn beta.
    unfold reportTransactionId, when, note, awaitCall.
    destruct (txStatus && negb (isOnDevNet (bot imports))); cbn; rewrite Hw; cbn;
      (split; [reflexivity | repeat constructor; discriminate]).
Qed.

End StageOne.

Lemma takeFeesAndSweep_fee_stage_failure_witness :
  let p := takeFeesAndSweepWalletFromUserTo Offline.imports Sample.client
             (Sample.registered 1) Sample.externalAddress true in
  outcome p = RejectedWith (NetworkError Offline.fetchFailed)
  /\ Forall (fun c => isSweepCall c = false /\ c <> StatusSetConfirmedNextStep) (calls p).
Proof.
  apply (takeFeesAndSweep_fee_stage_failure Offline.imports Sample.client
           (Sample.registered 1) Sample.externalAddress true
           (Balance.mk (25 * Sample.oneAlph)
              (Some [Balance.mkToken (Token.id Sample.AYIN) 1999;
                     Balance.mkToken Sample.unknownTokenId 5]) 3)
           Sample.ALPH Offline.fetchFailed (NetworkError Offline.fetchFailed));
    [reflexivity | reflexivity | reflexivity | reflexivity | reflexivity | |].
  - apply Qle_bool_false. reflexivity.
  - left. split; reflexivity.
Defined.

(** ** Consolidation *)

Section Consolidation.

Variable imports : Imports.
Variable this : AlphClient.
Variable otherMessage : Failure -> string.

(** X14. [consolidateIfRequired] derives the wallet of the user and asks
    the node for the balance of the address of that wallet, with the
    configured mempool flag. With fewer outputs than
    [nbUTXOBeforeConsolidation] it stops there and resolves with
    [undefined]: nothing is swept. With as many or more, it sweeps the
    wallet to its own address, without status sink, and when the sweep
    resolves it resolves with the ids of the sweep joined by [", "]. *)
Theorem consolidateIfRequired_threshold (user : User.t) (balance : Balance.t) :
  let userWallet := deriveWallet imports (User.id user) in
  let query :=
    GetAddressesAddressBalance (Some (Wallet.address userWallet))
      (Some (considerMempool (bot imports))) in
  getAddressesAddressBalance (nodeProvider this) (Some (Wallet.address userWallet))
    (Some (considerMempool (bot imports))) = Js.Fulfilled balance ->
  let p := consolidateIfRequired imports this otherMessage user in
  let sweep :=
    sweepWalletFromUserTo imports this userWallet (Wallet.address userWallet) false in
  if (Balance.utxoNum balance <? nbUTXOBeforeConsolidation (bot imports))%nat
  then p = ([GetUserWallet (User.id user); query], Resolved None)
  else calls p = GetUserWallet (User.id user) :: query :: calls sweep
       /\ forall txIds,
            outcome sweep = Resolved txIds ->
            outcome p = Resolved (Some (String.concat ", " txIds)).
Proof.
  intros userWallet query Hnode p sweep. subst p.
  unfold consolidateIfRequired, getUserWallet. rewrite bindP_resolved.
  fold userWallet. cbn beta. rewrite Hnode. unfold awaitCall.
  rewrite bindP_resolved. cbn beta. fold query.
  destruct (Balance.utxoNum balance <? nbUTXOBeforeConsolidation (bot imports))%nat;
    [reflexivity |].
  unfold consolidateUTXO. fold sweep.
  destruct sweep as [cs [txIds | f]]; cbn; split; try reflexivity.
  - intros txIds' H. injection H as <-. reflexivity.
  - discriminate.
Qed.

(** X15. A failure of the sweep inside [consolidateIfRequired] is
    translated twice: the sweep rejects with what [adaptError] made of
    the failure, and the handler at the end of [consolidateIfRequired]
    gives that value to [adaptError] again. When the node cannot be
    reached to build the sweep, the first translation is a
    [NetworkError], whose message is ["network error"]; the second one
    finds no pattern for it before [alphErrorIsNotEnoughFundsError],
    which throws: the promise rejects with a [TypeError]. *)
Theorem consolidateIfRequired_translates_twice (user : User.t) (balance : Balance.t) :
  let userWallet := deriveWallet imports (User.id user) in
  getAddressesAddressBalance (nodeProvider this) (Some (Wallet.address userWallet))
    (Some (considerMempool (bot imports))) = Js.Fulfilled balance ->
  (nbUTXOBeforeConsolidation (bot imports) <= Balance.utxoNum balance)%nat ->
  postTransactionsSweepAddressBuild (nodeProvider this)
    (Wallet.publicKey userWallet) (Wallet.address userWallet)
  = Js.Rejected (Js.ErrorInstance "fetch failed") ->
  Errors.alphErrorIsIOFailureError (predicates imports) (Js.ErrorInstance "network error")
  = Js.Normal false ->
  Errors.alphErrorIsAlphAmountOverflowError (predicates imports)
    (Js.ErrorInstance "network error") = Js.Normal false ->
  outcome (sweepWalletFromUserTo imports this userWallet (Wallet.address userWallet) false)
  = RejectedWith (NetworkError (Js.ErrorInstance "fetch failed"))
  /\ outcome (consolidateIfRequired imports this otherMessage user)
     = RejectedWith
         (Uncaught (Js.TypeError "Cannot read properties of null (reading 'length')")).
Proof.
  intros userWallet Hnode Hutxo Hbuild Hio Hoverflow.
  assert (Hsweep :
            sweepWalletFromUserTo imports this userWallet (Wallet.address userWallet) false
            = ([PostTransactionsSweepAddressBuild (Wallet.publicKey userWallet)
                  (Wallet.address userWallet)],
               RejectedWith (NetworkError (Js.ErrorInstance "fetch failed")))).
  { unfold sweepWalletFromUserTo. rewrite Hbuild. unfold awaitCall at 1.
    rewrite bindP_rejected. reflexivity. }
  split; [rewrite Hsweep; reflexivity |].
  unfold consolidateIfRequired, getUserWallet. rewrite bindP_resolved.
  fold userWallet. cbn beta. rewrite Hnode. unfold awaitCall.
  rewrite bindP_resolved. cbn beta.
  apply Nat.ltb_ge in Hutxo. rewrite Hutxo.
  unfold consolidateUTXO. rewrite Hsweep. cbn [outcome snd caughtValue].
  unfold rejectAdapted, adaptError.
  change (Errors.alphErrorIsNetworkError (Js.ErrorInstance "network error")) with false.
  cbn iota zeta. rewrite Hio. cbn [Js.cbind]. rewrite Hoverflow. reflexivity.
Qed.

End Consolidation.

Lemma consolidateIfRequired_threshold_witness :
  consolidateIfRequired Sample.imports Sample.client (fun _ => EmptyString)
    (Sample.registered 1)
  = ([GetUserWallet (Some 1%nat);
      GetAddressesAddressBalance (Some "1Walletx") (Some true)],
     Resolved None).
Proof.
  exact (consolidateIfRequired_threshold Sample.imports Sample.client
           (fun _ => EmptyString) (Sample.registered 1)
           (Balance.mk (25 * Sample.oneAlph)
              (Some [Balance.mkToken (Token.id Sample.AYIN) 1999;
                     Balance.mkToken Sample.unknownTokenId 5]) 3)
           eq_refl).
Defined.

Lemma consolidateIfRequired_translates_twice_witness :
  outcome (sweepWalletFromUserTo Sample.imports crowdedClient
             (Sample.walletOf (Some 1%nat)) "1Walletx" false)
  = RejectedWith (NetworkError (Js.ErrorInstance "fetch failed"))
  /\ outcome (consolidateIfRequired Sample.imports crowdedClient (fun _ => EmptyString)
                (Sample.registered 1))
     = RejectedWith
         (Uncaught (Js.TypeError "Cannot read properties of null (reading 'length')")).
Proof.
  apply (consolidateIfRequired_translates_twice Sample.imports crowdedClient
           (fun _ => EmptyString) (Sample.registered 1)
           (Balance.mk Sample.oneAlph None 60));
    [reflexivity | cbn; lia | reflexivity | reflexivity | reflexivity].
Defined.

(** ** The total over a list of addresses *)

Section AddressTotals.

Variable imports : Imports.
Variable this : AlphClient.

Let query (a : string) : Call :=
  GetAddressesAddressBalance (Some a) (Some (considerMempool (bot imports))).

Let balanceOfAddress (a : string) : Promise UserBalance :=
  bindP (awaitCall (query a)
           (getAddressesAddressBalance (nodeProvider this) (Some a)
              (Some (considerMempool (bot imports))))
           Original)
    (fun balance =>
       match convertAddressBalanceToUserBalance this balance with
       | Js.Fulfilled userBalance => resolve userBalance
       | Js.Rejected r => reject (Original r)
       end).

Lemma balanceOfAddress_calls (a : string) : calls (balanceOfAddress a) = [query a].
Proof.
  unfold balanceOfAddress. rewrite calls_bindP. cbn [awaitCall calls outcome fst snd].
  destruct (getAddressesAddressBalance _ _ _) as [balance | r]; [| reflexivity].
  destruct (convertAddressBalanceToUserBalance this balance); reflexivity.
Qed.

Lemma getTotalTokenAmountFromAddresses_unfold (addresses : list string) :
  getTotalTokenAmountFromAddresses imports this addresses
  = bindP (all (map balanceOfAddress addresses))
      (fun addressesBalance => resolve (sumUserBalance addressesBalance)).
Proof. reflexivity. Qed.

(** X16. [getTotalTokenAmountFromAddresses] asks the node for the
    balance of every address of the list, in order and with the
    configured mempool flag, even after one of the queries failed, and
    calls nothing else. A rejection is that of the node for one of the
    addresses, or of the registry looking up ["ALPH"], and comes out as
    the raw error: it is not turned into a [NetworkError] or a
    [GeneralError] as [getUserBalance] does. *)
Theorem getTotalTokenAmountFromAddresses_queries (addresses : list string) :
  let p := getTotalTokenAmountFromAddresses imports this addresses in
  calls p
  = map (fun a => GetAddressesAddressBalance (Some a)
                    (Some (considerMempool (bot imports)))) addresses
  /\ forall f,
       outcome p = RejectedWith f ->
       exists r,
         f = Original r
         /\ ((exists a,
                In a addresses
                /\ getAddressesAddressBalance (nodeProvider this) (Some a)
                     (Some (considerMempool (bot imports))) = Js.Rejected r)
             \/ getTokenBySymbol (tokenManager this) "ALPH" = Js.Rejected r).
Proof.
  intros p. subst p. rewrite getTotalTokenAmountFromAddresses_unfold.
  rewrite calls_bindP, outcome_bindP.
  rewrite (calls_all_singletons balanceOfAddress query addresses balanceOfAddress_calls).
  split.
  - destruct (outcome (all _)); cbn; rewrite app_nil_r; reflexivity.
  - intros f. destruct (outcome (all _)) as [l | g] eqn:Hall; [discriminate |].
    intros H. injection H as <-. apply outcome_all_rejected in Hall.
    destruct Hall as (q & Hin & Hq). apply in_map_iff in Hin.
    destruct Hin as (a & <- & Hin). revert Hq. unfold balanceOfAddress.
    rewrite outcome_bindP. cbn [awaitCall outcome snd].
    destruct (getAddressesAddressBalance _ _ _) as [balance | r] eqn:Hnode.
    + unfold convertAddressBalanceToUserBalance.
      destruct (getTokenBySymbol _ _) as [alphToken | r] eqn:Hreg.
      * destruct (Balance.tokenBalances balance) as [[| t l] |]; discriminate.
      * cbn. intros H. injection H as <-. exists r. split; [reflexivity | right; reflexivity].
    + intros H. injection H as <-. exists r.
      split; [reflexivity | left; exists a; split; assumption].
Qed.

(** X17. When the node answers for every address of the list and the
    registry resolves ["ALPH"], [getTotalTokenAmountFromAddresses]
    resolves with a balance that holds, of every asset, the sum over the
    addresses of the native balance, for the native asset, and of the
    token balances that the registry recognizes. *)
Theorem getTotalTokenAmountFromAddresses_aggregate (addresses : list string)
    (balanceAt : string -> Balance.t) (alphToken : Token.t) :
  (forall a, In a addresses ->
             getAddressesAddressBalance (nodeProvider this) (Some a)
               (Some (considerMempool (bot imports))) = Js.Fulfilled (balanceAt a)) ->
  getTokenBySymbol (tokenManager this) "ALPH" = Js.Fulfilled alphToken ->
  exists total,
    outcome (getTotalTokenAmountFromAddresses imports this addresses) = Resolved total
    /\ forall id,
         amountOf id total
         = amountOf id
             (List.concat
                (map (fun a =>
                        TokenAmount.mk (Balance.balance (balanceAt a)) alphToken
                        :: recognisedEntries this (balanceAt a))
                   addresses)).
Proof.
  intros Hnode Hreg. rewrite getTotalTokenAmountFromAddresses_unfold.
  set (entries := fun a =>
         TokenAmount.mk (Balance.balance (balanceAt a)) alphToken
         :: recognisedEntries this (balanceAt a)).
  assert (Hall : outcome (all (map balanceOfAddress addresses))
                 = Resolved (map entries addresses)).
  { apply outcome_all_resolved. clear - Hnode Hreg.
    induction addresses as [| a l IH]; cbn [map]; constructor.
    - unfold balanceOfAddress. rewrite outcome_bindP. cbn [awaitCall outcome snd].
      rewrite (Hnode a (or_introl eq_refl)).
      rewrite (convertAddressBalanceToUserBalance_fulfilled this _ _ Hreg). reflexivity.
    - apply IH. intros b Hb. apply Hnode. right. exact Hb. }
  rewrite outcome_bindP, Hall. cbn [resolve outcome snd].
  eexists. split; [reflexivity |].
  intros id. apply amountOf_sumUserBalance.
Qed.

End AddressTotals.

Lemma getTotalTokenAmountFromAddresses_queries_witness :
  let p := getTotalTokenAmountFromAddresses Offline.imports Offline.client
             ["1FeesGroup0"; "1FeesGroup1"] in
  calls p
  = [GetAddressesAddressBalance (Some "1FeesGroup0") (Some true);
     GetAddressesAddressBalance (Some "1FeesGroup1") (Some true)]
  /\ forall f,
       outcome p = RejectedWith f ->
       exists r,
         f = Original r
         /\ ((exists a,
                In a ["1FeesGroup0"; "1FeesGroup1"]
                /\ getAddressesAddressBalance Offline.node (Some a) (Some true)
                   = Js.Rejected r)
             \/ getTokenBySymbol Sample.registry "ALPH" = Js.Rejected r).
Proof.
  exact (getTotalTokenAmountFromAddresses_queries Offline.imports Offline.client
           ["1FeesGroup0"; "1FeesGroup1"]).
Defined.

Lemma getTotalTokenAmountFromAddresses_aggregate_witness :
  exists total,
    outcome (getTotalTokenAmountFromAddresses Sample.imports Sample.client
               ["1Walletx"; "1Walletxx"]) = Resolved total
    /\ forall id,
         amountOf id total
         = amountOf id
             [TokenAmount.mk (25 * Sample.oneAlph) Sample.ALPH;
              TokenAmount.mk 1999 Sample.AYIN;
              TokenAmount.mk Sample.oneAlph Sample.ALPH].
Proof.
  apply (getTotalTokenAmountFromAddresses_aggregate Sample.imports Sample.client
           ["1Walletx"; "1Walletxx"]
           (fun a => if String.eqb a "1Walletx"
                     then Balance.mk (25 * Sample.oneAlph)
                            (Some [Balance.mkToken (Token.id Sample.AYIN) 1999;
                                   Balance.mkToken Sample.unknownTokenId 5]) 3
                     else Balance.mk Sample.oneAlph None 1)
           Sample.ALPH).
  - intros a [<- | [<- | []]]; reflexivity.
  - reflexivity.
Defined.

(** ** Registration on a well-formed store *)

Lemma NoDup_app_iff_helper {A} (l : list A) (x : A) :
  NoDup l -> ~ In x l -> NoDup (l ++ [x]).
Proof.
  intros Hl Hx. induction Hl as [| y l Hy Hl IH]; cbn.
  - constructor; [intros [] | constructor].
  - constructor.
    + intros Hin. apply in_app_or in Hin. destruct Hin as [Hin | [-> | []]].
      * exact (Hy Hin).
      * apply Hx. left. reflexivity.
    + apply IH. intros Hin. apply Hx. right. exact Hin.
Qed.

Lemma replaceRow_last (i : nat) (u x : User.t) (l : list User.t) :
  Forall (fun r => UserStore.hasId i r = false) l ->
  UserStore.hasId i x = true ->
  UserStore.replaceRow i u (l ++ [x]) = l ++ [u].
Proof.
  intros Hl Hx. induction Hl as [| r l Hr _ IH]; cbn.
  - rewrite Hx. reflexivity.
  - rewrite Hr, IH. reflexivity.
Qed.

Lemma existsb_last {A} (f : A -> bool) (l : list A) (x : A) :
  f x = true -> existsb f (l ++ [x]) = true.
Proof. intros H. rewrite existsb_app. cbn. rewrite H. apply orb_true_iff. right. reflexivity. Qed.

Lemma idBelow_not_next (bound : nat) (l : list User.t) :
  Forall (idBelow bound) l -> Forall (fun r => UserStore.hasId bound r = false) l.
Proof.
  apply Forall_impl. intros r (i & Hi & Hlt). unfold UserStore.hasId. rewrite Hi.
  apply Nat.eqb_neq. lia.
Qed.

Lemma existsBy_false_not_in (telegramId : Z) (s : UserStore.t) :
  UserStore.existsBy telegramId s = false ->
  ~ In telegramId (map User.telegramId (UserStore.rows s)).
Proof.
  unfold UserStore.existsBy. intros H Hin. apply in_map_iff in Hin.
  destruct Hin as (u & Hu & Hin).
  assert (Ht : existsb (fun u => (User.telegramId u =? telegramId)%Z) (UserStore.rows s) = true).
  { apply existsb_exists. exists u. split; [exact Hin | apply Z.eqb_eq; exact Hu]. }
  congruence.
Qed.

(** The record [registerUser] persists for a new identity. *)
Lemma registerUser_fresh (imports : Imports) (newUser : User.t) (s : UserStore.t) :
  Forall (idBelow (UserStore.nextId s)) (UserStore.rows s) ->
  User.id newUser = None ->
  UserStore.existsBy (User.telegramId newUser) s = false ->
  let i := UserStore.nextId s in
  let saved :=
    User.mk (Some i) (User.telegramId newUser) (User.telegramUsername newUser)
      (Some (Wallet.address (deriveWallet imports (Some i)))) in
  registerUser imports newUser s
  = (UserStore.mk (UserStore.rows s ++ [saved]) (S i) (S (S (UserStore.writes s))),
     Resolved saved).
Proof.
  intros Hids Hnone Hex i saved. unfold registerUser. rewrite Hex.
  destruct (UserStore.save newUser s) as [store1 userWithId] eqn:E1.
  unfold UserStore.save in E1. rewrite Hnone in E1. injection E1 as <- <-.
  unfold UserStore.save.
  cbn [User.withAddress User.withId User.id User.telegramId User.telegramUsername
         User.address UserStore.rows UserStore.nextId UserStore.writes].
  fold i. fold saved.
  rewrite existsb_last by (cbn; apply Nat.eqb_refl).
  rewrite (replaceRow_last i saved _ (UserStore.rows s))
    by (try apply idBelow_not_next; try assumption; cbn; apply Nat.eqb_refl).
  reflexivity.
Qed.

Lemma wellFormed_after_registration (s : UserStore.t) (saved : User.t) :
  wellFormed s ->
  User.id saved = Some (UserStore.nextId s) ->
  ~ In (User.telegramId saved) (map User.telegramId (UserStore.rows s)) ->
  forall writes,
    wellFormed (UserStore.mk (UserStore.rows s ++ [saved]) (S (UserStore.nextId s)) writes).
Proof.
  intros (Hids & Htids & Huniq) Hid Hnew writes. unfold wellFormed. cbn.
  split; [| split].
  - apply Forall_app. split.
    + revert Hids. apply Forall_impl. intros r (i & Hi & Hlt). exists i. split; [exact Hi | lia].
    + constructor; [| constructor]. exists (UserStore.nextId s). split; [exact Hid | lia].
  - rewrite map_app. cbn. apply NoDup_app_iff_helper; assumption.
  - rewrite map_app. cbn. apply NoDup_app_iff_helper; [exact Huniq |].
    rewrite Hid. intros Hin. apply in_map_iff in Hin. destruct Hin as (r & Hr & Hin).
    rewrite Forall_forall in Hids. destruct (Hids r Hin) as (i & Hi & Hlt).
    rewrite Hi in Hr. injection Hr as ->. lia.
Qed.

Lemma find_app_none {A} (f : A -> bool) (l l' : list A) :
  Forall (fun x => f x = false) l -> List.find f (l ++ l') = List.find f l'.
Proof.
  induction 1 as [| x l Hx _ IH]; cbn; [reflexivity |]. rewrite Hx. exact IH.
Qed.

Lemma existsBy_false_Forall (telegramId : Z) (s : UserStore.t) :
  UserStore.existsBy telegramId s = false ->
  Forall (fun u => (User.telegramId u =? telegramId)%Z = false) (UserStore.rows s).
Proof.
  unfold UserStore.existsBy. intros H. apply Forall_forall. intros u Hin.
  destruct (User.telegramId u =? telegramId)%Z eqn:E; [| reflexivity].
  assert (Ht : existsb (fun u => (User.telegramId u =? telegramId)%Z) (UserStore.rows s) = true)
    by (apply existsb_exists; exists u; split; assumption).
  congruence.
Qed.

Lemma existsBy_true_find (telegramId : Z) (s : UserStore.t) :
  UserStore.existsBy telegramId s = true ->
  exists u,
    findOneByTelegramId telegramId s = Some u
    /\ User.telegramId u = telegramId /\ In u (UserStore.rows s).
Proof.
  unfold UserStore.existsBy, findOneByTelegramId. intros H.
  destruct (List.find _ (UserStore.rows s)) as [u |] eqn:E.
  - exists u. split; [reflexivity |]. apply find_some in E. destruct E as [Hin Hu].
    split; [apply Z.eqb_eq; exact Hu | exact Hin].
  - apply existsb_exists in H. destruct H as (u & Hin & Hu).
    pose proof (find_none _ _ E u Hin) as Hn. cbn in Hn. congruence.
Qed.

Section Registration.

Variable imports : Imports.

(** X18. [registerUser] keeps the store well formed (every row with an
    id below the next one to be generated, no two rows with the same
    identity or the same id) when given a new [User], which has no id
    yet: the rows that were there stay as they are, the next id never
    decreases, and a successful registration adds exactly one row, the
    record it returns. *)
Theorem registerUser_keeps_store_well_formed (newUser : User.t) (s : UserStore.t) :
  wellFormed s ->
  User.id newUser = None ->
  let s' := fst (registerUser imports newUser s) in
  wellFormed s'
  /\ (UserStore.nextId s <= UserStore.nextId s')%nat
  /\ match snd (registerUser imports newUser s) with
     | Resolved saved => UserStore.rows s' = UserStore.rows s ++ [saved]
     | RejectedWith _ => s' = s
     end.
Proof.
  intros Hwf Hnone s'. subst s'.
  destruct (UserStore.existsBy (User.telegramId newUser) s) eqn:Hex.
  - unfold registerUser. rewrite Hex. cbn. repeat split; [apply Hwf .. | lia].
  - rewrite (registerUser_fresh imports newUser s (proj1 Hwf) Hnone Hex). cbn [fst snd].
    split; [| split; [cbn; lia | reflexivity]].
    apply wellFormed_after_registration; [exact Hwf | reflexivity |].
    apply existsBy_false_not_in. exact Hex.
Qed.

(** X19. Two new identities registered one after the other on a
    well-formed store both succeed, with consecutive ids, hence with the
    addresses of two different derivation indices; after the second
    registration the store still answers the record of the first, with
    the address it was given, and the record of the second. *)
Theorem registerUser_two_identities (first second : User.t) (s : UserStore.t) :
  wellFormed s ->
  User.id first = None -> User.id second = None ->
  UserStore.existsBy (User.telegramId first) s = false ->
  UserStore.existsBy (User.telegramId second) s = false ->
  User.telegramId first <> User.telegramId second ->
  let i := UserStore.nextId s in
  let r1 := User.mk (Some i) (User.telegramId first) (User.telegramUsername first)
              (Some (Wallet.address (deriveWallet imports (Some i)))) in
  let r2 := User.mk (Some (S i)) (User.telegramId second) (User.telegramUsername second)
              (Some (Wallet.address (deriveWallet imports (Some (S i))))) in
  exists s1 s2,
    registerUser imports first s = (s1, Resolved r1)
    /\ registerUser imports second s1 = (s2, Resolved r2)
    /\ findOneByTelegramId (User.telegramId first) s2 = Some r1
    /\ findOneByTelegramId (User.telegramId second) s2 = Some r2
    /\ wellFormed s2.
Proof.
  intros Hwf Hn1 Hn2 Hex1 Hex2 Hdiff i r1 r2.
  pose proof (registerUser_fresh imports first s (proj1 Hwf) Hn1 Hex1) as H1.
  cbn zeta in H1. fold i in H1. fold r1 in H1.
  set (s1 := UserStore.mk (UserStore.rows s ++ [r1]) (S i) (S (S (UserStore.writes s)))) in *.
  assert (Hwf1 : wellFormed s1).
  { apply wellFormed_after_registration; [exact Hwf | reflexivity |].
    apply existsBy_false_not_in. exact Hex1. }
  assert (Hex2' : UserStore.existsBy (User.telegramId second) s1 = false).
  { unfold UserStore.existsBy in *. cbn. rewrite existsb_app, Hex2. cbn.
    rewrite orb_false_r. apply Z.eqb_neq. exact Hdiff. }
  pose proof (registerUser_fresh imports second s1 (proj1 Hwf1) Hn2 Hex2') as H2.
  cbn zeta in H2. cbn [UserStore.nextId UserStore.rows UserStore.writes s1] in H2.
  fold r2 in H2.
  eexists. eexists. split; [exact H1 |]. split; [exact H2 |].
  unfold findOneByTelegramId. cbn [UserStore.rows]. split; [| split].
  - rewrite <- app_assoc.
    rewrite (find_app_none _ _ _ (existsBy_false_Forall _ _ Hex1)).
    cbn. rewrite Z.eqb_refl. reflexivity.
  - rewrite <- app_assoc.
    rewrite (find_app_none _ _ _ (existsBy_false_Forall _ _ Hex2)).
    cbn. apply Z.eqb_neq in Hdiff. rewrite Hdiff, Z.eqb_refl. reflexivity.
  - apply (wellFormed_after_registration s1 r2 Hwf1); [reflexivity |].
    apply existsBy_false_not_in. exact Hex2'.
Qed.

(** X20. The registration step of [/start] is idempotent on a
    well-formed store: it yields a record of the identity that is a row
    of the store, whether the identity was registered before or not, and
    running it again changes nothing in the store and yields the same
    record. *)
Theorem startRegistration_idempotent (userId : Z) (username : string) (s : UserStore.t) :
  wellFormed s ->
  let first := startRegistration imports userId username s in
  let second := startRegistration imports userId username (fst first) in
  fst second = fst first
  /\ snd second = snd first
  /\ exists user,
       snd first = Some user
       /\ User.telegramId user = userId
       /\ In user (UserStore.rows (fst first)).
Proof.
  intros Hwf first second.
  assert (Hknown : forall s0,
            UserStore.existsBy userId s0 = true ->
            startRegistration imports userId username s0
            = (s0, findOneByTelegramId userId s0)).
  { intros s0 H. unfold startRegistration, registerUser. cbn [User.telegramId].
    rewrite H. reflexivity. }
  destruct (UserStore.existsBy userId s) eqn:Hex.
  - subst second first. rewrite (Hknown s Hex). cbn [fst snd]. rewrite (Hknown s Hex).
    split; [reflexivity |]. split; [reflexivity |].
    destruct (existsBy_true_find _ _ Hex) as (u & Hu & Ht & Hin). exists u. auto.
  - pose proof (registerUser_fresh imports (User.mk None userId username None) s
                  (proj1 Hwf) eq_refl Hex) as Hreg.
    cbn zeta in Hreg. cbn [User.telegramId User.telegramUsername] in Hreg.
    set (saved := User.mk (Some (UserStore.nextId s)) userId username _) in *.
    set (s1 := UserStore.mk _ _ _) in *.
    assert (Hfirst : first = (s1, Some saved)).
    { subst first. unfold startRegistration. rewrite Hreg. reflexivity. }
    assert (Hin : In saved (UserStore.rows s1))
      by (apply in_or_app; right; left; reflexivity).
    assert (Hex1 : UserStore.existsBy userId s1 = true)
      by (exact (existsBy_In saved s1 Hin)).
    assert (Hfind : findOneByTelegramId userId s1 = Some saved).
    { unfold findOneByTelegramId. cbn [UserStore.rows s1].
      rewrite (find_app_none _ _ _ (existsBy_false_Forall _ _ Hex)).
      cbn. rewrite Z.eqb_refl. reflexivity. }
    subst second. rewrite Hfirst. cbn [fst snd]. rewrite (Hknown s1 Hex1), Hfind.
    split; [reflexivity |]. split; [reflexivity |].
    exists saved. auto.
Qed.

End Registration.

Lemma wellFormed_sample_store : wellFormed (Sample.storeOf 2).
Proof.
  unfold wellFormed. cbn. split; [| split].
  - repeat constructor; eexists; split; try reflexivity; lia.
  - repeat constructor; cbn; intuition discriminate.
  - repeat constructor; cbn; intuition discriminate.
Qed.

Lemma registerUser_keeps_store_well_formed_witness :
  let s' := fst (registerUser Sample.imports Sample.newcomer (Sample.storeOf 2)) in
  wellFormed s'
  /\ (UserStore.nextId (Sample.storeOf 2) <= UserStore.nextId s')%nat
  /\ UserStore.rows s'
     = UserStore.rows (Sample.storeOf 2)
       ++ [User.mk (Some 2%nat) 4242 "alice" (Some "1Walletxx")].
Proof.
  exact (registerUser_keeps_store_well_formed Sample.imports Sample.newcomer
           (Sample.storeOf 2) wellFormed_sample_store eq_refl).
Defined.

Lemma registerUser_two_identities_witness :
  let r1 := User.mk (Some 2%nat) 4242 "alice" (Some "1Walletxx") in
  let r2 := User.mk (Some 3%nat) 4243 "bob" (Some "1Walletxxx") in
  exists s1 s2,
    registerUser Sample.imports Sample.newcomer (Sample.storeOf 2) = (s1, Resolved r1)
    /\ registerUser Sample.imports (User.mk None 4243 "bob" None) s1 = (s2, Resolved r2)
    /\ findOneByTelegramId 4242 s2 = Some r1
    /\ findOneByTelegramId 4243 s2 = Some r2
    /\ wellFormed s2.
Proof.
  apply (registerUser_two_identities Sample.imports Sample.newcomer
           (User.mk None 4243 "bob" None) (Sample.storeOf 2) wellFormed_sample_store);
    try reflexivity.
  cbn. discriminate.
Defined.

Lemma startRegistration_idempotent_witness :
  let first := startRegistration Sample.imports 4242 "alice" (Sample.storeOf 2) in
  let second := startRegistration Sample.imports 4242 "alice" (fst first) in
  fst second = fst first
  /\ snd second = snd first
  /\ exists user,
       snd first = Some user
       /\ User.telegramId user = 4242
       /\ In user (UserStore.rows (fst first)).
Proof.
  exact (startRegistration_idempotent Sample.imports 4242 "alice" (Sample.storeOf 2)
           wellFormed_sample_store).
Defined.

(** ** The first variant of the client *)

Section LegacyVariant.

Variable bs58decode : string -> Js.Completion (list Byte.byte).

Lemma isAddressValid_outside_alphabet (address : string) :
  address = EmptyString \/ Legacy.allBase58 address = false ->
  Legacy.isAddressValid bs58decode address = Js.Normal false.
Proof.
  unfold Legacy.isAddressValid, Legacy.base58RegexTest.
  destruct address as [| c rest]; [reflexivity |].
  intros [H | H]; [discriminate | rewrite H; reflexivity].
Qed.

(** X21. [isAddressValid] holds exactly of the non-empty strings over
    the Base58 alphabet that [bs58.decode] turns into at least 33 bytes.
    The empty string and every string with a character outside the
    alphabet, such as [0], [O], [I] and [l], are refused without being
    decoded. *)
Theorem isAddressValid_exactly (address : string) :
  (Legacy.isAddressValid bs58decode address = Js.Normal true
   <-> address <> EmptyString
       /\ Legacy.allBase58 address = true
       /\ exists bytes,
            bs58decode address = Js.Normal bytes /\ (33 <= List.length bytes)%nat)
  /\ (address = EmptyString \/ Legacy.allBase58 address = false ->
      Legacy.isAddressValid bs58decode address = Js.Normal false)
  /\ Forall (fun c => Legacy.isBase58Char c = false)
       (list_ascii_of_string "0OIl +/=_-.").
Proof.
  split; [| split; [apply isAddressValid_outside_alphabet | repeat constructor]].
  unfold Legacy.isAddressValid, Legacy.base58RegexTest.
  destruct address as [| c rest].
  - split; [discriminate | intros [H _]; contradiction].
  - destruct (Legacy.allBase58 (String c rest)).
    + destruct (bs58decode (String c rest)) as [bytes | e]; cbn [Js.cbind].
      * split.
        -- intros H.
           assert (Hle : (32 <=? List.length (tl bytes))%nat = true) by congruence.
           apply Nat.leb_le in Hle.
           repeat split; [discriminate |]. exists bytes. split; [reflexivity |].
           destruct bytes; cbn [tl List.length] in Hle |- *; lia.
        -- intros (_ & _ & bytes' & Hb & Hlen). injection Hb as <-.
           f_equal. apply Nat.leb_le. destruct bytes; cbn [tl List.length] in Hlen |- *; lia.
      * split; [discriminate |]. intros (_ & _ & bytes & Hb & _). discriminate.
    + split; [discriminate | intros (_ & H & _); discriminate].
Qed.

Variable imports : Imports.
Variable operatorFees : Z.
Variable operatorAddress : string.

(** X22. The first variant of [sendAmountToAddressFrom] rejects with
    [InvalidAddressError], before any call, a destination that is empty,
    that has a character outside the Base58 alphabet, or that decodes to
    fewer than 33 bytes. *)
Theorem legacy_send_invalid_address (user : User.t) (tokenAmount : TokenAmount.t)
    (destinationAddress : string) (txStatus : bool) :
  destinationAddress = EmptyString
  \/ Legacy.allBase58 destinationAddress = false
  \/ (exists bytes,
        bs58decode destinationAddress = Js.Normal bytes
        /\ (List.length bytes < 33)%nat) ->
  Legacy.sendAmountToAddressFrom bs58decode imports operatorFees operatorAddress
    user tokenAmount destinationAddress txStatus
  = ([], RejectedWith (InvalidAddressError destinationAddress)).
Proof.
  intros H.
  assert (Hinvalid : Legacy.isAddressValid bs58decode destinationAddress = Js.Normal false).
  { destruct H as [H | [H | (bytes & Hb & Hlen)]];
      [apply isAddressValid_outside_alphabet; left; exact H
      | apply isAddressValid_outside_alphabet; right; exact H |].
    unfold Legacy.isAddressValid.
    destruct destinationAddress as [| c rest]; [reflexivity |].
    destruct (Legacy.base58RegexTest (String c rest)); [| reflexivity].
    rewrite Hb. cbn [Js.cbind]. f_equal. apply Nat.leb_gt.
    destruct bytes; cbn [tl List.length] in Hlen |- *; lia. }
  unfold Legacy.sendAmountToAddressFrom. rewrite Hinvalid. reflexivity.
Qed.

(** X23. When the node rejects the transfer of the first variant of
    [sendAmountToAddressFrom], nothing is called after the submission
    and the promise rejects with: a [NetworkError] for an [Error] of
    message ["fetch failed"]; a [NotEnoughFundsError] with the two
    amounts for an [Error] whose message [notEnoughFundsRegex] matches;
    a [TypeError] for any other [Error]; and the rejected value itself
    when it is no [Error]. *)
Theorem legacy_send_submission_failure (user : User.t) (tokenAmount : TokenAmount.t)
    (destinationAddress : string) (txStatus : bool) (r : Js.RawError) :
  let token := TokenAmount.token tokenAmount in
  let amount := TokenAmount.amount tokenAmount in
  let userWallet := deriveWallet imports (User.id user) in
  let destinations :=
    if (0 <? operatorFees)%Z
    then [paymentOf imports token (Some operatorAddress) (amount * operatorFees / 100);
          paymentOf imports token (Some destinationAddress)
            (amount - amount * operatorFees / 100)]
    else [paymentOf imports token (Some destinationAddress) amount] in
  Legacy.isAddressValid bs58decode destinationAddress = Js.Normal true ->
  signAndSubmitTransferTx imports userWallet destinations = Js.Rejected r ->
  Legacy.sendAmountToAddressFrom bs58decode imports operatorFees operatorAddress
    user tokenAmount destinationAddress txStatus
  = ([GetUserWallet (User.id user);
      SignAndSubmitTransferTx (Wallet.address userWallet) destinations],
     RejectedWith
       match r with
       | Js.NonErrorValue _ => Original r
       | Js.ErrorInstance message =>
           if String.eqb message "fetch failed" then NetworkError r
           else match Errors.matchNotEnoughFunds message with
                | Some (_ :: got :: expected :: _) =>
                    NotEnoughFundsError r (Errors.BigInt got) (Errors.BigInt expected)
                | _ => Uncaught (Js.TypeError
                                   "Cannot read properties of null (reading 'length')")
                end
       end).
Proof.
  intros token amount userWallet destinations Hvalid Hsubmit.
  unfold Legacy.sendAmountToAddressFrom.
  rewrite Hvalid. unfold getUserWallet. rewrite bindP_resolved. cbn beta.
  fold userWallet.
  assert (Hpair :
            (if (0 <? operatorFees)%Z
             then
               let (tokenAmountOperatorFee, rest) :=
                 TokenAmount.substractAndGetPercentage operatorFees tokenAmount in
               ([destinationOf imports (Some operatorAddress) tokenAmountOperatorFee], rest)
             else ([], tokenAmount))
            = (if (0 <? operatorFees)%Z
               then [paymentOf imports token (Some operatorAddress)
                       (amount * operatorFees / 100)]
               else [],
               if (0 <? operatorFees)%Z
               then TokenAmount.mk (amount - amount * operatorFees / 100) token
               else tokenAmount)).
  { destruct (0 <? operatorFees)%Z; reflexivity. }
  rewrite Hpair. clear Hpair.
  assert (Hd : (if (0 <? operatorFees)%Z
                then [paymentOf imports token (Some operatorAddress)
                        (amount * operatorFees / 100)]
                else [])
               ++ [destinationOf imports (Some destinationAddress)
                     (if (0 <? operatorFees)%Z
                      then TokenAmount.mk (amount - amount * operatorFees / 100) token
                      else tokenAmount)]
               = destinations).
  { subst destinations. unfold paymentOf. destruct (0 <? operatorFees)%Z; [reflexivity |].
    destruct tokenAmount; reflexivity. }
  rewrite Hd. clearbody destinations.
  rewrite Hsubmit. unfold awaitCall. rewrite bindP_rejected. cbn [calls outcome fst snd app].
  f_equal. f_equal.
  unfold Legacy.rejectSubmission, Legacy.adaptSubmissionError,
    Errors.alphErrorIsNetworkError, Errors.alphErrorIsNotEnoughFundsError,
    Errors.newNotEnoughFundsError.
  destruct r as [message | repr]; [| reflexivity].
  destruct (String.eqb message "fetch failed"); [reflexivity |].
  destruct (Errors.matchNotEnoughFunds message) as [numbers |] eqn:E; [| reflexivity].
  pose proof (matchNotEnoughFunds_length _ _ E) as Hlen.
  destruct numbers as [| w [| g [| e [| x l]]]]; try discriminate Hlen.
  reflexivity.
Qed.

End LegacyVariant.

(** The sample external address is a valid one: 45 characters of the
    alphabet that decode to 33 bytes. *)
Example isAddressValid_sample :
  Legacy.isAddressValid SampleBase58.decode Sample.externalAddress = Js.Normal true.
Proof. vm_compute. reflexivity. Qed.

Lemma isAddressValid_exactly_witness :
  Sample.externalAddress <> EmptyString
  /\ Legacy.allBase58 Sample.externalAddress = true
  /\ exists bytes,
       SampleBase58.decode Sample.externalAddress = Js.Normal bytes
       /\ (33 <= List.length bytes)%nat.
Proof.
  apply (proj1 (isAddressValid_exactly SampleBase58.decode Sample.externalAddress)).
  vm_compute. reflexivity.
Defined.

Lemma legacy_send_invalid_address_witness :
  Legacy.sendAmountToAddressFrom SampleBase58.decode Sample.imports 10 "1FeesGroup0"
    (Sample.registered 1) (TokenAmount.mk (3 * Sample.oneAlph) Sample.ALPH)
    "1DrDyTr9RpRsQnDnXo2YRiPzPW4ooHX5LLoqXrqfMrpQ0" true
  = ([], RejectedWith (InvalidAddressError "1DrDyTr9RpRsQnDnXo2YRiPzPW4ooHX5LLoqXrqfMrpQ0")).
Proof.
  apply (legacy_send_invalid_address SampleBase58.decode Sample.imports 10 "1FeesGroup0").
  right. left. vm_compute. reflexivity.
Defined.

Lemma legacy_send_submission_failure_witness :
  Legacy.sendAmountToAddressFrom SampleBase58.decode Offline.imports 10 "1FeesGroup0"
    (Sample.registered 1) (TokenAmount.mk (3 * Sample.oneAlph) Sample.ALPH)
    Sample.externalAddress true
  = ([GetUserWallet (Some 1%nat);
      SignAndSubmitTransferTx "1Walletx"
        [paymentOf Offline.imports Sample.ALPH (Some "1FeesGroup0")
           (3 * Sample.oneAlph * 10 / 100);
         paymentOf Offline.imports Sample.ALPH (Some Sample.externalAddress)
           (3 * Sample.oneAlph - 3 * Sample.oneAlph * 10 / 100)]],
     RejectedWith (NetworkError Offline.fetchFailed)).
Proof.
  apply (legacy_send_submission_failure SampleBase58.decode Offline.imports 10
           "1FeesGroup0" (Sample.registered 1)
           (TokenAmount.mk (3 * Sample.oneAlph) Sample.ALPH)
           Sample.externalAddress true Offline.fetchFailed);
    [vm_compute; reflexivity | reflexivity].
Defined.

(** ** More on the total over all users *)

(** X24. The loop of [getTotalTokenAmount] always ends: whatever the
    store and the answers of the node, as many turns as there are users
    are enough for it to settle. *)
Theorem getTotalTokenAmount_terminates (this : AlphClient) (userStore : UserStore.t) :
  exists p, getTotalTokenAmount this userStore = Some p.
Proof. exact (getTotalTokenAmount_settles this userStore). Qed.



(** ** Emptying a wallet before deletion *)

(** X26. [emptyWalletForDeletion] takes no fee and reports to no status
    sink: once the node has built the sweep to the collection address,
    its calls are the wallet of the user, the building of the sweep and
    the submission of each of its unsigned transactions, and nothing
    else; no balance is queried, no transfer submitted, no confirmation
    awaited. *)
Theorem emptyWalletForDeletion_calls (imports : Imports) (this : AlphClient)
    (collectionAddress : string) (user : User.t) (unsignedTxs : list string) :
  let userWallet := deriveWallet imports (User.id user) in
  postTransactionsSweepAddressBuild (nodeProvider this)
    (Wallet.publicKey userWallet) collectionAddress = Js.Fulfilled unsignedTxs ->
  let p := emptyWalletForDeletion imports this collectionAddress user in
  calls p
  = GetUserWallet (User.id user)
    :: PostTransactionsSweepAddressBuild (Wallet.publicKey userWallet) collectionAddress
    :: map (SignAndSubmitUnsignedTx (Wallet.address userWallet)) unsignedTxs
  /\ outcome p
     = outcome (sweepWalletFromUserTo imports this userWallet collectionAddress false).
Proof.
  intros userWallet Hbuild p. subst p.
  unfold emptyWalletForDeletion, getUserWallet. rewrite bindP_resolved.
  fold userWallet. cbn [calls outcome fst snd app]. split; [| reflexivity].
  f_equal. unfold sweepWalletFromUserTo. rewrite Hbuild. unfold awaitCall at 1.
  rewrite bindP_resolved. cbn [calls fst app]. f_equal.
  rewrite calls_bindP.
  rewrite (calls_all_singletons
             (fun tx => awaitCall (SignAndSubmitUnsignedTx (Wallet.address userWallet) tx)
                          (signAndSubmitUnsignedTx imports userWallet tx)
                          (rejectAdapted imports))
             (SignAndSubmitUnsignedTx (Wallet.address userWallet)) unsignedTxs)
    by reflexivity.
  destruct (outcome (all _)) as [txIds | f]; [| apply app_nil_r].
  rewrite calls_bindP. unfold reportTransactionId.
  destruct txIds; cbn; apply app_nil_r.
Qed.

Lemma emptyWalletForDeletion_calls_witness :
  let p := emptyWalletForDeletion Sample.imports Sample.client "1FeesGroup0"
             (Sample.registered 1) in
  calls p
  = [GetUserWallet (Some 1%nat);
     PostTransactionsSweepAddressBuild "02keyx" "1FeesGroup0";
     SignAndSubmitUnsignedTx "1Walletx" "unsigned-0"]
  /\ outcome p
     = outcome (sweepWalletFromUserTo Sample.imports Sample.client
                  (Sample.walletOf (Some 1%nat)) "1FeesGroup0" false).
Proof.
  apply (emptyWalletForDeletion_calls Sample.imports Sample.client "1FeesGroup0"
           (Sample.registered 1) ["unsigned-0"]).
  reflexivity.
Defined.

(** ** Withdrawing all of one token *)

(** X27. For the balance [getUserBalance] returns, the native entry
    followed by the recognized tokens, [/withdraw all $TOKEN] decides as
    follows. Asked for the native asset, it refuses as soon as the user
    holds one recognized token besides it, and otherwise withdraws the
    native entry, that is the whole native balance. Asked for a token
    that is not native, it withdraws the first entry of the balance with
    the id of the token, and reports that nothing is held when there is
    none. *)
Theorem withdrawAllOfToken_decision (imports : Imports) (native : TokenAmount.t)
    (others : UserBalance) (token : Token.t) :
  let decision := withdrawAllOfToken imports (native :: others) token in
  (isALPH imports token = true ->
   (others <> [] -> decision = NativeAloneRefused)
   /\ (others = [] ->
       Token.id (TokenAmount.token native) = Token.id token ->
       decision = WithdrawAmount native))
  /\ (isALPH imports token = false ->
      match List.find (fun t => String.eqb (Token.id (TokenAmount.token t)) (Token.id token))
              (native :: others) with
      | Some first => decision = WithdrawAmount first
      | None => decision = NothingToWithdraw
      end)
  /\ (forall tokenAmount,
        decision = WithdrawAmount tokenAmount ->
        In tokenAmount (native :: others)
        /\ Token.id (TokenAmount.token tokenAmount) = Token.id token).
Proof.
  intros decision. subst decision. unfold withdrawAllOfToken.
  assert (Hfind : forall l,
            match filter (fun t => String.eqb (Token.id (TokenAmount.token t)) (Token.id token)) l with
            | [] => None
            | first :: _ => Some first
            end
            = List.find (fun t => String.eqb (Token.id (TokenAmount.token t)) (Token.id token)) l).
  { induction l as [| x l IH]; cbn; [reflexivity |].
    destruct (String.eqb _ _); [reflexivity | exact IH]. }
  split; [| split].
  - intros Hnative. rewrite Hnative. split.
    + intros Hne. destruct others as [| o others]; [contradiction | reflexivity].
    + intros -> Hid. cbn. apply String.eqb_eq in Hid. rewrite Hid. reflexivity.
  - intros Hnative. rewrite Hnative, andb_false_r.
    rewrite <- Hfind. destruct (filter _ _); reflexivity.
  - intros tokenAmount.
    destruct ((1 <? List.length (native :: others))%nat && isALPH imports token);
      [discriminate |].
    destruct (filter _ (native :: others)) as [| first rest] eqn:E; [discriminate |].
    intros H. injection H as <-.
    assert (Hin : In first (filter (fun t => String.eqb (Token.id (TokenAmount.token t))
                                              (Token.id token)) (native :: others)))
      by (rewrite E; left; reflexivity).
    apply filter_In in Hin. destruct Hin as [Hin Hid].
    split; [exact Hin | apply String.eqb_eq; exact Hid].
Qed.

Lemma withdrawAllOfToken_decision_witness :
  withdrawAllOfToken Sample.imports
    [TokenAmount.mk (25 * Sample.oneAlph) Sample.ALPH; TokenAmount.mk 1999 Sample.AYIN]
    Sample.ALPH
  = NativeAloneRefused
  /\ withdrawAllOfToken Sample.imports
       [TokenAmount.mk (25 * Sample.oneAlph) Sample.ALPH; TokenAmount.mk 1999 Sample.AYIN]
       Sample.AYIN
     = WithdrawAmount (TokenAmount.mk 1999 Sample.AYIN).
Proof.
  split.
  - apply (withdrawAllOfToken_decision Sample.imports
             (TokenAmount.mk (25 * Sample.oneAlph) Sample.ALPH)
             [TokenAmount.mk 1999 Sample.AYIN] Sample.ALPH);
      [reflexivity | discriminate].
  - exact (proj1 (proj2 (withdrawAllOfToken_decision Sample.imports
                           (TokenAmount.mk (25 * Sample.oneAlph) Sample.ALPH)
                           [TokenAmount.mk 1999 Sample.AYIN] Sample.AYIN))
             eq_refl).
Defined.
